(** * Order pipeline of the hungryboys backend (src/index.js)

    A shallow embedding of the MongoDB order endpoints of [src/index.js]
    (POST /api/orders, GET /api/orders, PATCH /api/orders/:id and
    GET /api/orders/restaurant/:restaurantId), of the two middlewares in
    front of them, and of the part of the JavaScript and MongoDB semantics
    these handlers rely on.  It is followed by the listing of all orders
    (GET /api/orders/all), by the reference-data endpoints of the same
    file (universities, campuses, restaurants, campus settings) and by the
    collection validators of the provisioning script
    [src/unnamed/part_001].

    Left out, because the model has no faithful counterpart for them: the
    endpoints that compute with fractional prices ([parseFloat], BSON
    doubles: menu and mart items), those whose answer depends on the shape
    of the driver's [findOneAndUpdate] result (PATCH /api/restaurants/:id,
    POST /api/campus-settings), the user creation through the identity
    provider (POST /api/users) and the retired Google Sheets server.

    Conventions of the model:
    - JavaScript numbers are the whole-valued doubles, the two infinities
      and NaN: a number with a fraction has no counterpart, the two zeros
      are one, a product or a sum is rounded as binary64 rounds it, and a
      number is printed by the shortest digits that identify it;
    - strings are the byte strings of their UTF-8 encoding;
    - the two operands of every [===] in the handlers come from different
      sources (request, profile store, database), so two arrays or two
      objects are never the same reference and compare unequal;
    - a stored document is its identifier, its creation date and its
      remaining fields in insertion order; a collection is the list of
      its documents in insertion order;
    - what a request reads from outside the process (configuration, the
      identity provider, the profile store, the verification service,
      storage faults, the server's reading of a query operator, the
      clock) is an environment, and what it does outside (calls to the
      verification service and to the database) is recorded in a
      trace. *)

From Stdlib Require Import ZArith List String Ascii Bool Lia.
From Stdlib Require Import Sorted Permutation.
Import ListNotations.

#[local] Set Warnings "-register-all".
Local Open Scope string_scope.
Local Open Scope Z_scope.

(** ** JavaScript values *)

Module Js.

Inductive JsVal : Type :=
| JUndefined
| JNull
| JBool (b : bool)
| JNum (n : Z)
| JInf (negative : bool)
| JNaN
| JStr (s : string)
| JArr (items : list JsVal)
| JObj (fields : list (string * JsVal)).

(** An object literal, in key order. *)
Definition Doc := list (string * JsVal).

Fixpoint lookup (k : string) (d : Doc) : option JsVal :=
  match d with
  | [] => None
  | (k', v) :: d' => if String.eqb k k' then Some v else lookup k d'
  end.

(** [d.k] on an object literal: [undefined] when the key is missing. *)
Definition get (d : Doc) (k : string) : JsVal :=
  match lookup k d with Some v => v | None => JUndefined end.

(** [{...d, k: v}]: an existing key keeps its place, a new one goes last. *)
Fixpoint set (k : string) (v : JsVal) (d : Doc) : Doc :=
  match d with
  | [] => [(k, v)]
  | (k', v') :: d' =>
      if String.eqb k k' then (k, v) :: d' else (k', v') :: set k v d'
  end.

(** [x.k] on any value.  [None] is the TypeError of reading a property of
    [null] or [undefined]; primitives and arrays have none of the keys the
    handlers read. *)
Definition prop (x : JsVal) (k : string) : option JsVal :=
  match x with
  | JUndefined | JNull => None
  | JObj d => Some (get d k)
  | _ => Some JUndefined
  end.

(** [x?.k] *)
Definition opt_prop (x : JsVal) (k : string) : JsVal :=
  match prop x k with Some v => v | None => JUndefined end.

(** ToBoolean *)
Definition truthy (v : JsVal) : bool :=
  match v with
  | JUndefined | JNull | JNaN => false
  | JBool b => b
  | JNum n => negb (n =? 0)
  | JStr s => negb (String.eqb s "")
  | JInf _ | JArr _ | JObj _ => true
  end.

(** [a === b] *)
Definition strict_eq (a b : JsVal) : bool :=
  match a, b with
  | JUndefined, JUndefined => true
  | JNull, JNull => true
  | JBool x, JBool y => Bool.eqb x y
  | JNum x, JNum y => x =? y
  | JInf x, JInf y => Bool.eqb x y
  | JStr x, JStr y => String.eqb x y
  | _, _ => false
  end.

(** [a || b] and [a ?? b] *)
Definition or_else (a b : JsVal) : JsVal := if truthy a then a else b.

Definition coalesce (a b : JsVal) : JsVal :=
  match a with JUndefined | JNull => b | _ => a end.

Definition isArray (v : JsVal) : bool :=
  match v with JArr _ => true | _ => false end.

Definition is_string (v : JsVal) : bool :=
  match v with JStr _ => true | _ => false end.

(** *** Doubles *)

(** The binary64 number nearest to a whole number, ties to the even
    significand: the 53 leading bits are kept.  The whole numbers up to
    2^53 are their own. *)
Definition round_double (n : Z) : Z :=
  let m := Z.abs n in
  let e := Z.log2 m - 52 in
  if e <=? 0 then n
  else
    let q := Z.shiftr m e in
    let r := m - Z.shiftl q e in
    let half := Z.shiftl 1 (e - 1) in
    let q' := if ((half <? r) || ((r =? half) && Z.odd q))%bool
              then q + 1 else q in
    Z.sgn n * Z.shiftl q' e.

(** The number JavaScript has for an exact whole result: rounded, and
    infinite from 2^1024 on. *)
Definition double (n : Z) : JsVal :=
  let x := round_double n in
  if 2 ^ 1024 <=? Z.abs x then JInf (n <? 0) else JNum x.

(** *** Strings *)

(** The white space and the line terminators of JavaScript, by the
    bytes that encode them: tab, line feed, vertical tab, form feed,
    carriage return and space; U+00A0; U+1680, U+2000 to U+200A, U+2028,
    U+2029, U+202F, U+205F, U+3000 and U+FEFF. *)
Definition is_space (c : ascii) : bool :=
  let n := nat_of_ascii c in
  (Nat.eqb n 9 || Nat.eqb n 10 || Nat.eqb n 11 || Nat.eqb n 12
   || Nat.eqb n 13 || Nat.eqb n 32)%bool.

Definition is_space2 (a b : ascii) : bool :=
  (Nat.eqb (nat_of_ascii a) 194 && Nat.eqb (nat_of_ascii b) 160)%bool.

Definition is_space3 (a b c : ascii) : bool :=
  let x := nat_of_ascii a in
  let y := nat_of_ascii b in
  let z := nat_of_ascii c in
  ((Nat.eqb x 225 && Nat.eqb y 154 && Nat.eqb z 128)
   || (Nat.eqb x 226 && Nat.eqb y 128
       && ((Nat.leb 128 z && Nat.leb z 138)
           || Nat.eqb z 168 || Nat.eqb z 169 || Nat.eqb z 175))
   || (Nat.eqb x 226 && Nat.eqb y 129 && Nat.eqb z 159)
   || (Nat.eqb x 227 && Nat.eqb y 128 && Nat.eqb z 128)
   || (Nat.eqb x 239 && Nat.eqb y 187 && Nat.eqb z 191))%bool.

Fixpoint trim_start (s : string) : string :=
  match s with
  | EmptyString => EmptyString
  | String a r =>
      if is_space a then trim_start r
      else
        match r with
        | String b r' =>
            if is_space2 a b then trim_start r'
            else
              match r' with
              | String c r'' =>
                  if is_space3 a b c then trim_start r'' else s
              | EmptyString => s
              end
        | EmptyString => s
        end
  end.

(** The string holds white space only. *)
Definition blank (s : string) : bool := String.eqb (trim_start s) "".

Fixpoint trim_end (s : string) : string :=
  match s with
  | EmptyString => EmptyString
  | String c r => if blank s then EmptyString else String c (trim_end r)
  end.

(** [s.trim()] *)
Definition trim (s : string) : string := trim_end (trim_start s).

Fixpoint join (sep : string) (l : list string) : string :=
  match l with
  | [] => ""
  | [x] => x
  | x :: r => x ++ sep ++ join sep r
  end.

Definition digit_char (n : Z) : ascii := ascii_of_nat (48 + Z.to_nat n).

Fixpoint digits_of (fuel : nat) (n : Z) (acc : string) : string :=
  match fuel with
  | O => acc
  | S f =>
      let acc' := String (digit_char (n mod 10)) acc in
      if n / 10 =? 0 then acc' else digits_of f (n / 10) acc'
  end.

(** All the decimal digits of a whole number that is not negative. *)
Definition decimal (m : Z) : string :=
  digits_of (S (Z.to_nat (Z.log2 m))) m "".

(** The shortest digits that identify the double [x]: the whole number
    [s] and the power of ten [e], [e] as large as can be, such that
    [s * 10^e] is rounded to [x]; of two such [s] the one nearer to [x],
    the even one when they are as near.  The search starts at [e] and
    goes down; at 0 it succeeds with [x] itself. *)
Fixpoint shortest_from (fuel : nat) (e : Z) (x : Z) : Z * Z :=
  let p := 10 ^ e in
  let lo := x / p in
  let hi := lo + 1 in
  let stands (s : Z) := ((0 <? s) && (round_double (s * p) =? x))%bool in
  let nearer :=
    if x - lo * p <? hi * p - x then lo
    else if hi * p - x <? x - lo * p then hi
    else if Z.even lo then lo else hi in
  let found :=
    if stands lo then Some (if stands hi then nearer else lo)
    else if stands hi then Some hi else None in
  match found, fuel with
  | Some s, _ => (s, e)
  | None, S f => shortest_from f (e - 1) x
  | None, O => (x, 0)
  end.

(** Number::toString on a whole number greater than 0: the shortest
    digits that identify the double, followed by zeros up to 10^21 and
    by an exponent from there on.  Up to 2^53 these are all the digits
    of the number. *)
Definition positive_to_string (x : Z) : string :=
  let n := String.length (decimal x) in
  let '(s, e) := shortest_from n (Z.of_nat n) x in
  if s * 10 ^ e <? 10 ^ 21 then decimal (s * 10 ^ e)
  else
    let exponent := decimal (Z.of_nat (String.length (decimal s)) - 1 + e) in
    match decimal s with
    | String c EmptyString => String c ("e+" ++ exponent)
    | String c r => String c ("." ++ r ++ "e+" ++ exponent)
    | EmptyString => EmptyString
    end.

(** Number::toString on a whole number. *)
Definition string_of_Z (n : Z) : string :=
  if n =? 0 then "0"
  else if n <? 0 then String "-" (positive_to_string (- n))
  else positive_to_string n.

(** [String(x)] *)
Fixpoint to_string (v : JsVal) : string :=
  match v with
  | JUndefined => "undefined"
  | JNull => "null"
  | JBool b => if b then "true" else "false"
  | JNum n => string_of_Z n
  | JInf negative => if negative then "-Infinity" else "Infinity"
  | JNaN => "NaN"
  | JStr s => s
  | JArr l =>
      join "," (map (fun x => match x with
                              | JUndefined | JNull => ""
                              | _ => to_string x
                              end) l)
  | JObj _ => "[object Object]"
  end.

(** *** Numbers *)

Definition is_digit (c : ascii) : bool :=
  let n := nat_of_ascii c in (Nat.leb 48 n && Nat.leb n 57)%bool.

Fixpoint parse_digits (s : string) (acc : Z) : option Z :=
  match s with
  | EmptyString => Some acc
  | String c r =>
      if is_digit c
      then parse_digits r (10 * acc + Z.of_nat (nat_of_ascii c - 48))
      else None
  end.

(** StringToNumber on signed decimal integers: white space is trimmed,
    the empty string is 0, an optionally signed run of decimal digits is
    its value as a double, and so is an optionally signed [Infinity].
    The other numerals JavaScript reads (with a fraction, an exponent or
    a radix prefix) are not parsed: they come out as [JNaN] here, and the
    statements that depend on a converted number assume the result of
    the conversion. *)
Definition string_to_number (s : string) : JsVal :=
  match trim s with
  | EmptyString => JNum 0
  | String c r =>
      let signed (neg : bool) (body : string) :=
        match body with
        | EmptyString => JNaN
        | _ => if String.eqb body "Infinity" then JInf neg
               else match parse_digits body 0 with
                    | Some n => double (if neg then - n else n)
                    | None => JNaN
                    end
        end in
      if Ascii.eqb c "-" then signed true r
      else if Ascii.eqb c "+" then signed false r
      else signed false (String c r)
  end.

(** [Number(x)], the ToNumber conversion. *)
Definition to_number (v : JsVal) : JsVal :=
  match v with
  | JUndefined => JNaN
  | JNull => JNum 0
  | JBool b => JNum (if b then 1 else 0)
  | JNum n => JNum n
  | JInf negative => JInf negative
  | JNaN => JNaN
  | JStr s => string_to_number s
  | JArr _ => string_to_number (to_string v)
  | JObj _ => JNaN
  end.

(** [a * b]: both operands are converted to numbers; the product of two
    whole numbers is rounded, an infinity times zero is NaN. *)
Definition mul (a b : JsVal) : JsVal :=
  match to_number a, to_number b with
  | JNum x, JNum y => double (x * y)
  | JInf s, JInf t => JInf (xorb s t)
  | JInf s, JNum y | JNum y, JInf s =>
      if y =? 0 then JNaN else JInf (xorb s (y <? 0))
  | _, _ => JNaN
  end.

(** [a + b] on two numbers (the handlers add the result of a product to
    a running sum that starts at 0): the sum of two whole numbers is
    rounded, the two infinities add up to NaN. *)
Definition add_num (a b : JsVal) : JsVal :=
  match a, b with
  | JNum x, JNum y => double (x + y)
  | JInf s, JInf t => if Bool.eqb s t then JInf s else JNaN
  | JInf s, JNum _ | JNum _, JInf s => JInf s
  | _, _ => JNaN
  end.

(** *** JSON.stringify *)

Definition hex_digit (n : nat) : ascii :=
  if Nat.ltb n 10 then ascii_of_nat (48 + n) else ascii_of_nat (87 + n).

Definition escape_char (c : ascii) : string :=
  let n := nat_of_ascii c in
  if Nat.eqb n 34 then String "\" (String c "")
  else if Nat.eqb n 92 then "\\"
  else if Nat.eqb n 8 then "\b"
  else if Nat.eqb n 9 then "\t"
  else if Nat.eqb n 10 then "\n"
  else if Nat.eqb n 12 then "\f"
  else if Nat.eqb n 13 then "\r"
  else if Nat.ltb n 32
       then "\u00" ++ String (hex_digit (Nat.div n 16))
                         (String (hex_digit (Nat.modulo n 16)) "")
  else String c "".

Fixpoint escape (s : string) : string :=
  match s with
  | EmptyString => EmptyString
  | String c r => escape_char c ++ escape r
  end.

Definition quote (s : string) : string :=
  String (ascii_of_nat 34) (escape s ++ String (ascii_of_nat 34) "").

(** The text [JSON.stringify] produces, [None] where it gives
    [undefined]. *)
Fixpoint json_text (v : JsVal) : option string :=
  match v with
  | JUndefined => None
  | JNull | JNaN | JInf _ => Some "null"
  | JBool b => Some (if b then "true" else "false")
  | JNum n => Some (string_of_Z n)
  | JStr s => Some (quote s)
  | JArr l =>
      Some ("[" ++ join "," (map (fun x => match json_text x with
                                           | Some t => t
                                           | None => "null"
                                           end) l) ++ "]")
  | JObj d =>
      Some ("{" ++ join "," (flat_map (fun kv =>
                               match json_text (snd kv) with
                               | Some t => [quote (fst kv) ++ ":" ++ t]
                               | None => []
                               end) d) ++ "}")
  end.

(** [JSON.stringify(v)] *)
Definition stringify (v : JsVal) : JsVal :=
  match json_text v with Some t => JStr t | None => JUndefined end.

End Js.

(** ** The document store *)

Module Mongo.
Import Js.

(** A document identifier: a primary object identifier, kept as its
    24-digit lower-case hexadecimal rendering, or a legacy plain string. *)
Inductive DocId : Type :=
| Oid (hex : string)
| Sid (s : string).

Definition docid_eqb (a b : DocId) : bool :=
  match a, b with
  | Oid x, Oid y => String.eqb x y
  | Sid x, Sid y => String.eqb x y
  | _, _ => false
  end.

Definition is_hex (c : ascii) : bool :=
  let n := nat_of_ascii c in
  ((Nat.leb 48 n && Nat.leb n 57) || (Nat.leb 65 n && Nat.leb n 70)
   || (Nat.leb 97 n && Nat.leb n 102))%bool.

Definition lower_char (c : ascii) : ascii :=
  let n := nat_of_ascii c in
  if (Nat.leb 65 n && Nat.leb n 90)%bool then ascii_of_nat (n + 32) else c.

Fixpoint lower (s : string) : string :=
  match s with
  | EmptyString => EmptyString
  | String c r => String (lower_char c) (lower r)
  end.

Fixpoint all_hex (s : string) : bool :=
  match s with
  | EmptyString => true
  | String c r => (is_hex c && all_hex r)%bool
  end.

(** [new ObjectId(s)] for a string [s]: 24 hexadecimal digits are
    accepted, anything else throws ([None]). *)
Definition ObjectId (s : string) : option DocId :=
  if (Nat.eqb (String.length s) 24 && all_hex s)%bool
  then Some (Oid (lower s)) else None.

(** An order document: [_id], the [createdAt] date (milliseconds) and
    the other fields. *)
Record Order : Type := mkOrder {
  _id : DocId;
  createdAt : Z;
  fields : Doc
}.

Record Restaurant : Type := mkRestaurant {
  restaurant_id : DocId;
  restaurant_fields : Doc
}.

(** The query filters the handlers build.  Under [FField] a field is
    compared with its query value by equality: these query values are
    route parameters, strings and arrays of the query string and
    identifiers of the caller's profile, never operator documents.  An
    object of the query string is put into a filter as it came, and the
    server reads it as an operator document ([{ $ne: ... }]) or as an
    embedded document to compare with: [FOperators] keeps the object
    together with the documents the server selects by it. *)
Inductive Filter : Type :=
| FAll (fs : list Filter)              (* the keys of one filter object *)
| FOr (fs : list Filter)               (* $or: [...] *)
| FId (d : DocId)                      (* _id: d *)
| FField (path : string) (q : JsVal)   (* 'a.b': q *)
| FOperators (path : string) (ops : Doc) (selects : Order -> bool).
                                       (* 'a.b': { $op: ..., ... } *)

(** Equality of two stored values; a query value [undefined] is sent
    as [null]. *)
Fixpoint bson_eqb (a b : JsVal) : bool :=
  match a, b with
  | JUndefined, JUndefined | JUndefined, JNull
  | JNull, JUndefined | JNull, JNull => true
  | JBool x, JBool y => Bool.eqb x y
  | JNum x, JNum y => x =? y
  | JInf x, JInf y => Bool.eqb x y
  | JNaN, JNaN => true
  | JStr x, JStr y => String.eqb x y
  | JArr l, JArr m =>
      (fix go (l m : list JsVal) : bool :=
         match l, m with
         | [], [] => true
         | x :: l', y :: m' => (bson_eqb x y && go l' m')%bool
         | _, _ => false
         end) l m
  | JObj f, JObj g =>
      (fix go (f g : Doc) : bool :=
         match f, g with
         | [], [] => true
         | (k, x) :: f', (k', y) :: g' =>
             (String.eqb k k' && bson_eqb x y && go f' g')%bool
         | _, _ => false
         end) f g
  | _, _ => false
  end.

Fixpoint split_on (sep : ascii) (s : string) (cur : string) : list string :=
  match s with
  | EmptyString => [cur]
  | String c r =>
      if Ascii.eqb c sep then cur :: split_on sep r ""
      else split_on sep r (cur ++ String c "")
  end.

(** The components of a dotted field path. *)
Definition split_dots (path : string) : list string := split_on "." path "".

(** The values a path reaches inside a value: an embedded document is
    entered by key, an array through each of its elements that is a
    document.  (Numeric components, which index an array, do not occur in
    the paths of the handlers.) *)
Fixpoint resolve (path : list string) (v : JsVal) : list JsVal :=
  match path with
  | [] => [v]
  | k :: rest =>
      let enter (d : Doc) :=
        match lookup k d with Some x => resolve rest x | None => [] end in
      match v with
      | JObj d => enter d
      | JArr l => flat_map (fun e => match e with
                                     | JObj d => enter d
                                     | _ => []
                                     end) l
      | _ => []
      end
  end.

Definition candidates (path : string) (d : Doc) : list JsVal :=
  resolve (split_dots path) (JObj d).

(** A reached value matches the query value when it equals it, or is an
    array with an element that equals it. *)
Definition value_matches (q x : JsVal) : bool :=
  (bson_eqb x q
   || match x with
      | JArr l => existsb (fun e => bson_eqb e q) l
      | _ => false
      end)%bool.

Definition nullish (q : JsVal) : bool :=
  match q with JUndefined | JNull => true | _ => false end.

(** [{path: q}]: equality match; a [null] query also matches a document
    without the field. *)
Definition field_matches (path : string) (q : JsVal) (d : Doc) : bool :=
  let c := candidates path d in
  (existsb (value_matches q) c
   || (nullish q && match c with [] => true | _ => false end))%bool.

Fixpoint matches (f : Filter) (o : Order) : bool :=
  match f with
  | FAll fs => forallb (fun g => matches g o) fs
  | FOr fs => existsb (fun g => matches g o) fs
  | FId d => docid_eqb d (_id o)
  | FField p q => field_matches p q (fields o)
  | FOperators _ _ selects => selects o
  end.

(** [.sort({createdAt: -1})]: newest first, ties in collection order. *)
Fixpoint insert_desc (o : Order) (l : list Order) : list Order :=
  match l with
  | [] => [o]
  | x :: r =>
      if createdAt x <=? createdAt o then o :: l else x :: insert_desc o r
  end.

Fixpoint sort_desc (l : list Order) : list Order :=
  match l with
  | [] => []
  | x :: r => insert_desc x (sort_desc r)
  end.

(** [.limit(n)]: 0 is no limit, a negative number limits by its absolute
    value, NaN and the infinities are refused by the server ([None]). *)
Definition limit (n : JsVal) (l : list Order) : option (list Order) :=
  match n with
  | JNum 0 => Some l
  | JNum k => Some (firstn (Z.to_nat (Z.abs k)) l)
  | _ => None
  end.

(** [find(f).sort({createdAt: -1}).limit(n).toArray()] *)
Definition find_sorted (f : Filter) (n : JsVal) (coll : list Order)
  : option (list Order) :=
  limit n (sort_desc (filter (matches f) coll)).

(** [findOne(f)] *)
Definition findOne (f : Filter) (coll : list Order) : option Order :=
  find (matches f) coll.

Definition set_field (k : string) (v : JsVal) (o : Order) : Order :=
  mkOrder (_id o) (createdAt o) (set k v (fields o)).

(** [updateOne(f, {$set: {k: v}})]: the first matching document is
    updated; the result is the collection and [matchedCount]. *)
Fixpoint updateOne (f : Filter) (k : string) (v : JsVal) (coll : list Order)
  : list Order * nat :=
  match coll with
  | [] => ([], O)
  | o :: r =>
      if matches f o then (set_field k v o :: r, 1%nat)
      else let '(r', n) := updateOne f k v r in (o :: r', n)
  end.

(** [findOne({$or: ids})] on the restaurants collection. *)
Definition find_restaurant (ids : list DocId) (coll : list Restaurant)
  : option Restaurant :=
  find (fun r => existsb (fun d => docid_eqb d (restaurant_id r)) ids) coll.

(** What the driver writes for a field value: [undefined] becomes
    [null]. *)
Definition bson_value (v : JsVal) : JsVal :=
  match v with JUndefined => JNull | _ => v end.

Definition bson_doc (d : Doc) : Doc :=
  map (fun kv => (fst kv, bson_value (snd kv))) d.

End Mongo.

(** ** The request handlers *)

Module Server.
Import Js Mongo.

Inductive Payload : Type :=
| PError (error : string)          (* { error: ... } *)
| PInserted (id : DocId)           (* { id: result.insertedId } *)
| POrders (orders : list Order)    (* an array of order documents *)
| POrder (doc : Order).            (* one order document *)

Record Response : Type := mkResponse {
  status_code : Z;
  payload : Payload
}.

(** Operations on the database, as the driver is asked to do them. *)
Inductive DbOp : Type :=
| OpConnect
| OpInsertOne (created : Z) (doc : Doc)
| OpFind (f : Filter) (n : JsVal)
| OpUpdateOne (f : Filter) (k : string) (v : JsVal)
| OpFindOne (f : Filter)
| OpFindRestaurant (ids : list DocId).

(** What a request does outside the process. *)
Inductive Event : Type :=
| EvSiteVerify (secret : string) (response : JsVal)
| EvDb (op : DbOp).

(** Answer of the reCAPTCHA [siteverify] service: the [success] field of
    the reply, or a call that throws (no reply, an error status, a reply
    without data). *)
Inductive SiteVerifyReply : Type :=
| Replied (success : JsVal)
| CallFailed.

(** Answer of [firestore.collection('users').doc(uid).get()]. *)
Inductive FsGet : Type :=
| FsThrows
| FsAbsent
| FsData (profile : JsVal).

(** Everything a request reads from outside: configuration, the external
    services, storage faults, the documents the server selects by an
    object it finds as the query value of a field, the clock and the
    identifier the driver generates for an inserted document. *)
Record Env : Type := mkEnv {
  RECAPTCHA_SECRET_KEY : option string;
  siteverify : string -> JsVal -> SiteVerifyReply;
  verifyIdToken : string -> option (string * JsVal);
  firestore : option (string -> FsGet);
  db_fault : DbOp -> bool;
  db_operators : string -> Doc -> Order -> bool;
  now : Z;
  now_iso : string;
  new_oid : string
}.

(** A request.  A query parameter is what the query-string parser of
    Express hands over: [undefined] when the parameter is absent, a
    string, an array for a repeated parameter ([?status=a&status=b]) or
    an object for a nested one ([?status[$ne]=a]).  The body is any JSON
    value. *)
Record Request : Type := mkRequest {
  authorization : option string;   (* req.headers.authorization *)
  param : string;                  (* req.params.id / .restaurantId *)
  query_status : JsVal;            (* req.query.status *)
  query_limit : JsVal;             (* req.query.limit *)
  body : JsVal                     (* req.body *)
}.

(** [req.user] *)
Record User : Type := mkUser {
  uid : string;
  user_email : JsVal
}.

Record State : Type := mkState {
  orders : list Order;
  restaurants : list Restaurant;
  trace : list Event
}.

(** One step of a handler: go on with a value, a response was sent, or an
    exception is in flight. *)
Inductive Step (A : Type) : Type :=
| Next (a : A)
| Sent (r : Response)
| Thrown.
Arguments Next {A} a.
Arguments Sent {A} r.
Arguments Thrown {A}.

Definition Handler (A : Type) : Type := State -> Step A * State.

Definition ret {A} (a : A) : Handler A := fun s => (Next a, s).

Definition bind {A B} (h : Handler A) (k : A -> Handler B) : Handler B :=
  fun s =>
    match h s with
    | (Next a, s') => k a s'
    | (Sent r, s') => (Sent r, s')
    | (Thrown, s') => (Thrown, s')
    end.

(** [return res.status(code).json({ error })] *)
Definition send_error {A} (code : Z) (error : string) : Handler A :=
  fun s => (Sent (mkResponse code (PError error)), s).

Definition emit (e : Event) : Handler unit :=
  fun s => (Next tt, mkState (orders s) (restaurants s) (trace s ++ [e])).

(** [try { h } catch (err) { res.status(code).json({ error }) }] *)
Definition try_catch (code : Z) (error : string) (h : Handler Response)
  : Handler Response :=
  fun s =>
    match h s with
    | (Thrown, s') => (Sent (mkResponse code (PError error)), s')
    | other => other
    end.

(** The response a finished handler has produced. *)
Definition run (h : Handler Response) (s : State) : option Response * State :=
  match h s with
  | (Next r, s') => (Some r, s')
  | (Sent r, s') => (Some r, s')
  | (Thrown, s') => (None, s')
  end.

Declare Scope handler_scope.
Delimit Scope handler_scope with handler.
Notation "x <- c ;; k" := (bind c (fun x => k))
  (at level 61, c at next level, right associativity) : handler_scope.
Notation "c ;;; k" := (bind c (fun _ => k))
  (at level 61, right associativity) : handler_scope.
Local Open Scope handler_scope.

Definition has_role (profile : JsVal) (role : string) : bool :=
  strict_eq (opt_prop profile "role") (JStr role).

Definition isSuperAdmin (profile : JsVal) : bool := has_role profile "superAdmin".
Definition isCampusAdmin (profile : JsVal) : bool := has_role profile "campusAdmin".
Definition isRestaurantManager (profile : JsVal) : bool :=
  has_role profile "restaurantManager".

(** [Array.from(new Set(l))]: the first occurrence of each string. *)
Fixpoint dedup (seen : list string) (l : list string) : list string :=
  match l with
  | [] => []
  | x :: r =>
      if existsb (String.eqb x) seen then dedup seen r
      else x :: dedup (x :: seen) r
  end.

Definition nonempty (s : string) : bool := negb (String.eqb s "").

(** [restaurantNames.map(x => String(x).trim()).filter(Boolean)],
    de-duplicated. *)
Definition clean_names (names : list JsVal) : list string :=
  dedup [] (filter nonempty (map (fun x => trim (to_string x)) names)).

(** The optional [restaurantNames] entry of the order document. *)
Definition restaurantNames_entry (restaurantNames : JsVal) : Doc :=
  match restaurantNames with
  | JArr (x :: l) =>
      [("restaurantNames", JArr (map JStr (clean_names (x :: l))))]
  | _ => []
  end.

Section Handlers.

Variable env : Env.

(** A database call: it is recorded, and throws on a storage fault. *)
Definition db_op (op : DbOp) : Handler unit :=
  fun s =>
    let s' := mkState (orders s) (restaurants s) (trace s ++ [EvDb op]) in
    if db_fault env op then (Thrown, s') else (Next tt, s').

Definition getDb : Handler unit := db_op OpConnect.

(** [db.collection('orders').insertOne(doc)]: the driver gives the
    document a new object identifier; an identifier already in use is a
    duplicate-key error. *)
Definition insertOne (created : Z) (doc : Doc) : Handler DocId :=
  db_op (OpInsertOne created doc) ;;;
  fun s =>
    let id := Oid (new_oid env) in
    if existsb (fun o => docid_eqb id (_id o)) (orders s) then (Thrown, s)
    else (Next id,
          mkState (orders s ++ [mkOrder id created (bson_doc doc)])
                  (restaurants s) (trace s)).

Definition find_orders (f : Filter) (n : JsVal) : Handler (list Order) :=
  db_op (OpFind f n) ;;;
  fun s =>
    match find_sorted f n (orders s) with
    | Some l => (Next l, s)
    | None => (Thrown, s)
    end.

Definition update_status (f : Filter) (v : JsVal) : Handler nat :=
  db_op (OpUpdateOne f "status" v) ;;;
  fun s =>
    let '(coll, matched) := updateOne f "status" (bson_value v) (orders s) in
    (Next matched, mkState coll (restaurants s) (trace s)).

Definition find_order (f : Filter) : Handler (option Order) :=
  db_op (OpFindOne f) ;;;
  fun s => (Next (findOne f (orders s)), s).

Definition find_restaurant_by (ids : list DocId) : Handler (option Restaurant) :=
  db_op (OpFindRestaurant ids) ;;;
  fun s => (Next (find_restaurant ids (restaurants s)), s).

(** *** Middlewares *)

Definition starts_with (p s : string) : bool := String.prefix p s.

Definition verifyFirebaseToken (req : Request) : Handler User :=
  let authHeader := match authorization req with Some h => h | None => "" end in
  let token :=
    if starts_with "Bearer " authHeader
    then substring 7 (String.length authHeader - 7) authHeader else "" in
  if String.eqb token ""
  then send_error 401 "Missing Authorization Bearer token"
  else match verifyIdToken env token with
       | Some (u, email) => ret (mkUser u (or_else email JNull))
       | None => send_error 401 "Invalid or expired token"
       end.

Definition recognized_role (profile : JsVal) : bool :=
  (has_role profile "user" || has_role profile "campusAdmin"
   || has_role profile "superAdmin" || has_role profile "restaurantManager")%bool.

Definition loadUserProfile (user : User) : Handler JsVal :=
  match firestore env with
  | None => send_error 500 "Firestore not initialized on server"
  | Some users =>
      match users (uid user) with
      | FsThrows => send_error 500 "Failed to load user profile"
      | FsAbsent => send_error 403 "User profile not found"
      | FsData profile =>
          if negb (recognized_role profile)
          then send_error 403 "Unauthorized role"
          else ret profile
      end
  end.

(** [app.METHOD(path, verifyFirebaseToken, loadUserProfile, handler)] *)
Definition route (handler : Request -> User -> JsVal -> Handler Response)
    (req : Request) : Handler Response :=
  user <- verifyFirebaseToken req ;;
  userProfile <- loadUserProfile user ;;
  handler req user userProfile.

(** *** POST /api/orders *)

(** The optional reCAPTCHA check of the order-creation handler. *)
Definition recaptcha_gate (recaptchaToken : JsVal) : Handler unit :=
  match RECAPTCHA_SECRET_KEY env with
  | Some secret =>
      if (truthy recaptchaToken && truthy (JStr secret))%bool then
        emit (EvSiteVerify secret recaptchaToken) ;;;
        match siteverify env secret recaptchaToken with
        | Replied success =>
            if negb (truthy success)
            then send_error 400 "reCAPTCHA verification failed"
            else ret tt
        | CallFailed => send_error 400 "reCAPTCHA verification failed"
        end
      else ret tt
  | None => ret tt
  end.

(** The [orderDoc] literal, without its [createdAt] date. *)
Definition orderDoc (b : JsVal) (user : User) (userProfile : JsVal) : Doc :=
  let f := opt_prop b in
  let cartItems := f "cartItems" in
  ([ ("universityId",
       or_else (or_else (f "universityId") (opt_prop userProfile "universityId"))
               JNull);
    ("campusId", f "campusId");
    ("universityName", or_else (f "universityName") JNull);
    ("campusName", or_else (f "campusName") JNull);
    ("firstName", f "firstName");
    ("lastName", or_else (f "lastName") JNull);
    ("phone", f "phone");
    ("email", or_else (or_else (f "email") (user_email user)) JNull);
    ("gender", f "gender");
    ("persons", coalesce (f "persons") JNull);
    ("deliveryCharge", coalesce (f "deliveryCharge") JNull);
    ("itemTotal", coalesce (f "itemTotal") JNull);
    ("grandTotal", f "grandTotal");
    ("cartItems",
       or_else (f "cartItemsFormatted")
               (if is_string cartItems then cartItems else stringify cartItems));
    ("cartItemsArray", if isArray cartItems then cartItems else JArr []) ]
  ++ restaurantNames_entry (f "restaurantNames")
  ++ [ ("timestamp", JStr (now_iso env));
       ("accountTitle", or_else (f "accountTitle") JNull);
       ("bankName", or_else (f "bankName") JNull);
       ("screenshotURL", or_else (f "screenshotURL") JNull);
       ("specialInstruction", or_else (f "specialInstruction") JNull);
       ("status", JStr "pending") ])%list.

Definition post_orders (req : Request) (user : User) (userProfile : JsVal)
  : Handler Response :=
  try_catch 500 "Failed to create order"
    (getDb ;;;
     let b := or_else (body req) (JObj []) in
     let f := opt_prop b in
     recaptcha_gate (f "recaptchaToken") ;;;
     let campusId := f "campusId" in
     let assignedCampusId := opt_prop userProfile "campusId" in
     if negb (truthy assignedCampusId)
     then send_error 403 "No campus assigned to user profile"
     else if (negb (truthy campusId)
              || negb (strict_eq campusId assignedCampusId))%bool
     then send_error 403
            "You can only place orders from your assigned campus. Please switch back to your campus in the navbar."
     else if (negb (truthy (f "firstName")) || negb (truthy (f "phone"))
              || negb (truthy (f "gender"))
              || negb (truthy (f "grandTotal")))%bool
     then send_error 400 "Missing required order fields"
     else
       id <- insertOne (now env) (orderDoc b user userProfile) ;;
       ret (mkResponse 201 (PInserted id))).

(** *** GET /api/orders *)

(** A query parameter that is a plain string when it is present. *)
Definition query_value (q : option string) : JsVal :=
  match q with Some s => JStr s | None => JUndefined end.

(** [const { limit = n } = req.query]: the default stands in for a
    parameter that is [undefined]. *)
Definition or_default (n : Z) (limit : JsVal) : JsVal :=
  match limit with JUndefined => JNum n | _ => limit end.

(** [filter[path] = q] for a value [q] of the query string.  An object
    goes to the server as it came; the documents the server selects by
    it are read from the environment, and a server that refuses the
    object is a storage fault of the query. *)
Definition query_field (path : string) (q : JsVal) : Filter :=
  match q with
  | JObj ops => FOperators path ops (db_operators env path ops)
  | _ => FField path q
  end.

(** The filter of the list-orders handler. *)
Definition list_filter (userProfile : JsVal) (status : JsVal) : Filter :=
  let filter :=
    if isSuperAdmin userProfile then []
    else [FField "campusId" (opt_prop userProfile "campusId")] in
  FAll (if truthy status then (filter ++ [query_field "status" status])%list
        else filter).

Definition get_orders (req : Request) (user : User) (userProfile : JsVal)
  : Handler Response :=
  try_catch 500 "Failed to list orders"
    (getDb ;;;
     let status := query_status req in
     let limit := or_default 50 (query_limit req) in
     l <- find_orders (list_filter userProfile status) (to_number limit) ;;
     ret (mkResponse 200 (POrders l))).

(** *** PATCH /api/orders/:id *)

(** The dual-identifier filter list. *)
Definition id_filters (id : string) : list Filter :=
  (match ObjectId id with Some d => [FId d] | None => [] end
   ++ [FId (Sid id)])%list.

Definition patch_order (req : Request) (user : User) (userProfile : JsVal)
  : Handler Response :=
  try_catch 500 "Failed to update order"
    (if isSuperAdmin userProfile
     then send_error 403
            "Super admins cannot update order status. Only campus admins and restaurant managers can update orders."
     else
       getDb ;;;
       let id := param req in
       let status := opt_prop (or_else (body req) (JObj [])) "status" in
       if negb (truthy status) then send_error 400 "Missing status"
       else
         let filters := id_filters id in
         filter <-
           (if isCampusAdmin userProfile
            then ret (FAll [FOr filters;
                            FField "campusId" (opt_prop userProfile "campusId")])
            else if isRestaurantManager userProfile
            then ret (FAll [FOr filters;
                            FField "cartItems.restaurantId"
                                   (opt_prop userProfile "restaurantId")])
            else send_error 403 "Unauthorized") ;;
         matchedCount <- update_status filter status ;;
         if Nat.eqb matchedCount 0 then send_error 404 "Order not found"
         else
           doc <- find_order filter ;;
           match doc with
           | None => send_error 404 "Order not found after update"
           | Some d => ret (mkResponse 200 (POrder d))
           end).

(** *** GET /api/orders/restaurant/:restaurantId *)

(** [item.restaurantId === restaurantId || item.restaurantName ===
    restaurantName]; [None] is the TypeError on an item that is [null]. *)
Definition item_of_restaurant (restaurantId : string) (restaurantName : JsVal)
    (item : JsVal) : option bool :=
  match prop item "restaurantId", prop item "restaurantName" with
  | Some rid, Some rname =>
      Some (strict_eq rid (JStr restaurantId)
            || strict_eq rname restaurantName)%bool
  | _, _ => None
  end.

(** [array.filter(p)] for a callback that may throw. *)
Fixpoint filter_items (p : JsVal -> option bool) (l : list JsVal)
  : option (list JsVal) :=
  match l with
  | [] => Some []
  | x :: r =>
      match p x, filter_items p r with
      | Some true, Some r' => Some (x :: r')
      | Some false, Some r' => Some r'
      | _, _ => None
      end
  end.

(** [items.reduce((sum, item) => sum + (item.price * item.quantity), 0)] *)
Definition items_total (items : list JsVal) : JsVal :=
  fold_left (fun sum item =>
               add_num sum (mul (opt_prop item "price") (opt_prop item "quantity")))
            items (JNum 0).

(** The callback of [orders.map] in the restaurant listing. *)
Definition restaurant_view (restaurantId : string) (restaurantName : JsVal)
    (order : Order) : option Order :=
  match get (fields order) "cartItemsArray" with
  | JArr (x :: l) =>
      match filter_items (item_of_restaurant restaurantId restaurantName)
                         (x :: l) with
      | Some restaurantItems =>
          Some (set_field "itemsTotal" (items_total restaurantItems)
                  (set_field "cartItems" (JArr restaurantItems) order))
      | None => None
      end
  | _ =>
      Some (set_field "itemsTotal"
              (or_else (get (fields order) "itemTotal") (JNum 0))
              (set_field "cartItems" (get (fields order) "cartItems") order))
  end.

Fixpoint map_views (f : Order -> option Order) (l : list Order)
  : option (list Order) :=
  match l with
  | [] => Some []
  | o :: r =>
      match f o, map_views f r with
      | Some o', Some r' => Some (o' :: r')
      | _, _ => None
      end
  end.

(** The filter of the restaurant listing. *)
Definition restaurant_filter (restaurantId : string) (restaurantName : JsVal)
  : Filter :=
  FOr [FField "cartItemsArray.restaurantId" (JStr restaurantId);
       FField "restaurantNames" restaurantName].

Definition restaurant_orders (req : Request) (user : User) (userProfile : JsVal)
  : Handler Response :=
  try_catch 500 "Failed to fetch orders"
    (if negb (isRestaurantManager userProfile)
     then send_error 403 "Restaurant manager only"
     else if negb (strict_eq (opt_prop userProfile "restaurantId")
                             (JStr (param req)))
     then send_error 403
            "You can only access orders for your assigned restaurant"
     else
       getDb ;;;
       let restaurantId := param req in
       let limit := or_default 1000 (query_limit req) in
       let restaurantFilters :=
         (match ObjectId restaurantId with Some d => [d] | None => [] end
          ++ [Sid restaurantId])%list in
       restaurant <- find_restaurant_by restaurantFilters ;;
       match restaurant with
       | None => send_error 404 "Restaurant not found"
       | Some r =>
           let restaurantName := get (restaurant_fields r) "name" in
           l <- find_orders (restaurant_filter restaurantId restaurantName)
                            (to_number limit) ;;
           match map_views (restaurant_view restaurantId restaurantName) l with
           | Some filteredOrders => ret (mkResponse 200 (POrders filteredOrders))
           | None => fun s => (Thrown, s)
           end
       end).

End Handlers.

(** The four endpoints behind their middlewares. *)
Definition POST_api_orders (env : Env) := route env (post_orders env).
Definition GET_api_orders (env : Env) := route env (get_orders env).
Definition PATCH_api_orders_id (env : Env) := route env (patch_order env).
Definition GET_api_orders_restaurant (env : Env) :=
  route env (restaurant_orders env).

End Server.

(** ** The super-admin listing of all orders *)

Module Admin.
Import Js Mongo Server.
Local Open Scope handler_scope.

(** GET /api/orders/all *)
Definition get_all_orders (env : Env) (req : Request) (user : User)
    (userProfile : JsVal) : Handler Response :=
  try_catch 500 "Failed to list orders"
    (if negb (isSuperAdmin userProfile)
     then send_error 403 "Super admin only"
     else
       getDb env ;;;
       let limit := or_default 1000 (query_limit req) in
       l <- find_orders env (FAll []) (to_number limit) ;;
       ret (mkResponse 200 (POrders l))).

Definition GET_api_orders_all (env : Env) := route env (get_all_orders env).

End Admin.

(** ** The reference data: universities, campuses, restaurants, settings *)

Module Catalog.
Import Js Mongo Server.

(** A document of a reference collection is an identifier and its other
    fields in insertion order: the shape [Mongo.Restaurant] gives the
    documents of the restaurants collection. *)
Abbreviation Document := Restaurant.
Abbreviation mkDocument := mkRestaurant.
Abbreviation doc_id := restaurant_id.
Abbreviation doc_fields := restaurant_fields.

(** A filter reads the identifier and the fields of a document. *)
Definition doc_matches (f : Filter) (d : Document) : bool :=
  matches f (mkOrder (doc_id d) 0 (doc_fields d)).

(** [find(f).toArray()], in collection order. *)
Definition find_docs (f : Filter) (coll : list Document) : list Document :=
  filter (doc_matches f) coll.

(** [findOne(f)] *)
Definition find_doc (f : Filter) (coll : list Document) : option Document :=
  List.find (doc_matches f) coll.

(** [{$set: update}] on the fields of a document. *)
Definition set_all (update : Doc) (d : Doc) : Doc :=
  fold_left (fun acc kv => set (fst kv) (snd kv) acc) update d.

(** [updateOne(f, {$set: update})]: the first matching document is
    updated; the result is the collection and [matchedCount]. *)
Fixpoint update_doc (f : Filter) (update : Doc) (coll : list Document)
  : list Document * nat :=
  match coll with
  | [] => ([], O)
  | d :: r =>
      if doc_matches f d
      then (mkDocument (doc_id d) (set_all update (doc_fields d)) :: r, 1%nat)
      else let '(r', n) := update_doc f update r in (d :: r', n)
  end.

(** [deleteOne(f)]: the first matching document is removed; the result
    is the collection and [deletedCount]. *)
Fixpoint delete_doc (f : Filter) (coll : list Document)
  : list Document * nat :=
  match coll with
  | [] => ([], O)
  | d :: r =>
      if doc_matches f d then (r, 1%nat)
      else let '(r', n) := delete_doc f r in (d :: r', n)
  end.

(** [String(_id)], also the rendering of an identifier in a JSON
    answer. *)
Definition id_text (d : DocId) : string :=
  match d with Oid hex => hex | Sid s => s end.

(** The keys of a stored document, [_id] first. *)
Definition doc_entries (d : Document) : Doc :=
  ("_id", JStr (id_text (doc_id d))) :: doc_fields d.

(** A stored document as [res.json] sends it. *)
Definition doc_json (d : Document) : JsVal := JObj (doc_entries d).

Inductive Coll : Type :=
| Universities
| Campuses
| Restaurants
| CampusSettings.

(** The calls to the database of the reference-data handlers. *)
Inductive Call : Type :=
| Connect
| Find (c : Coll) (f : Filter)
| FindOne (c : Coll) (f : Filter)
| InsertOne (c : Coll) (doc : Doc)
| UpdateOne (c : Coll) (f : Filter) (update : Doc)
| DeleteOne (c : Coll) (f : Filter).

(** The state of the order endpoints, which holds the restaurants, the
    three other reference collections, and the calls made so far. *)
Record Store : Type := mkStore {
  base : State;
  universities : list Document;
  campuses : list Document;
  campusSettings : list Document;
  calls : list Call
}.

Definition docs (c : Coll) (s : Store) : list Document :=
  match c with
  | Universities => universities s
  | Campuses => campuses s
  | Restaurants => restaurants (base s)
  | CampusSettings => campusSettings s
  end.

Definition with_docs (c : Coll) (l : list Document) (s : Store) : Store :=
  match c with
  | Universities =>
      mkStore (base s) l (campuses s) (campusSettings s) (calls s)
  | Campuses =>
      mkStore (base s) (universities s) l (campusSettings s) (calls s)
  | Restaurants =>
      mkStore (mkState (orders (base s)) l (trace (base s)))
              (universities s) (campuses s) (campusSettings s) (calls s)
  | CampusSettings =>
      mkStore (base s) (universities s) (campuses s) l (calls s)
  end.

(** What a reference-data endpoint answers. *)
Inductive Reply : Type :=
| Plain (r : Response)         (* an answer of the kind the order endpoints
                                  give: [{ error }] *)
| Detailed (code : Z) (error : string)
                               (* [{ error, detail: e?.message }] *)
| Json (code : Z) (v : JsVal)  (* [res.status(code).json(v)] *)
| Ended (code : Z).            (* [res.status(code).end()] *)

(** [res.status(code).json({ error })] *)
Definition Error (code : Z) (error : string) : Reply :=
  Plain (mkResponse code (PError error)).

Definition code_of (r : Reply) : Z :=
  match r with
  | Plain r => status_code r
  | Detailed code _ | Json code _ | Ended code => code
  end.

(** One step of a reference-data handler: go on with a value, an answer
    was sent, or an exception is in flight. *)
Inductive Outcome (A : Type) : Type :=
| Go (a : A)
| Done (r : Reply)
| Raised.
Arguments Go {A} a.
Arguments Done {A} r.
Arguments Raised {A}.

Definition Action (A : Type) : Type := Store -> Outcome A * Store.

Definition pure {A} (a : A) : Action A := fun s => (Go a, s).

Definition and_then {A B} (h : Action A) (k : A -> Action B) : Action B :=
  fun s =>
    match h s with
    | (Go a, s') => k a s'
    | (Done r, s') => (Done r, s')
    | (Raised, s') => (Raised, s')
    end.

(** [return res...] *)
Definition send {A} (r : Reply) : Action A := fun s => (Done r, s).

(** [throw] *)
Definition raise {A} : Action A := fun s => (Raised, s).

(** [try { h } catch (_) { k }] *)
Definition recover {A} (h k : Action A) : Action A :=
  fun s =>
    match h s with
    | (Raised, s') => k s'
    | other => other
    end.

(** [try { h } catch (e) { res... }] *)
Definition catching (r : Reply) (h : Action Reply) : Action Reply :=
  recover h (send r).

(** The answer of a finished handler. *)
Definition answer (h : Action Reply) (s : Store) : option Reply * Store :=
  match h s with
  | (Go r, s') => (Some r, s')
  | (Done r, s') => (Some r, s')
  | (Raised, s') => (None, s')
  end.

(** A middleware of the order endpoints in front of a reference-data
    handler. *)
Definition lift {A} (h : Handler A) : Action A :=
  fun s =>
    let put (b : State) :=
      mkStore b (universities s) (campuses s) (campusSettings s) (calls s) in
    match h (base s) with
    | (Next a, b) => (Go a, put b)
    | (Sent r, b) => (Done (Plain r), put b)
    | (Thrown, b) => (Raised, put b)
    end.

Declare Scope action_scope.
Delimit Scope action_scope with action.
Notation "x <- c ;; k" := (and_then c (fun x => k))
  (at level 61, c at next level, right associativity) : action_scope.
Notation "c ;;; k" := (and_then c (fun _ => k))
  (at level 61, right associativity) : action_scope.
Local Open Scope action_scope.

(** The fields an answer picks from a document: [k: d.k, ...]. *)
Definition pick (keys : list string) (d : Document) : Doc :=
  map (fun k => (k, get (doc_fields d) k)) keys.

(** [{ id: String(d._id), k: d.k, ... }] *)
Definition normalized (keys : list string) (d : Document) : JsVal :=
  JObj (("id", JStr (id_text (doc_id d))) :: pick keys d).

(** The optional equality filter of a listing: [{ key: q }] when the
    query parameter [q] is given and not empty, [{}] otherwise. *)
Definition query_filter (key : string) (q : option string) : Filter :=
  FAll (if truthy (query_value q) then [FField key (query_value q)] else []).

Section Handlers.

Variable env : Env.

(** The storage faults of the reference-data calls.  (A server older
    than MongoDB 5.0 refuses an update whose [$set] is empty: that is one
    of these faults.) *)
Variable fault : Call -> bool.

(** A database call: it is recorded, and throws on a storage fault. *)
Definition call (c : Call) : Action unit :=
  fun s =>
    let s' := mkStore (base s) (universities s) (campuses s)
                      (campusSettings s) (calls s ++ [c]) in
    if fault c then (Raised, s') else (Go tt, s').

Definition getDb : Action unit := call Connect.

Definition find (c : Coll) (f : Filter) : Action (list Document) :=
  call (Find c f) ;;;
  fun s => (Go (find_docs f (docs c s)), s).

Definition findOne (c : Coll) (f : Filter) : Action (option Document) :=
  call (FindOne c f) ;;;
  fun s => (Go (find_doc f (docs c s)), s).

(** [insertOne(doc)]: the driver gives the document a new object
    identifier; an identifier already in use in the collection is a
    duplicate-key error. *)
Definition insertOne (c : Coll) (doc : Doc) : Action DocId :=
  call (InsertOne c doc) ;;;
  fun s =>
    let id := Oid (new_oid env) in
    if existsb (fun d => docid_eqb id (doc_id d)) (docs c s) then (Raised, s)
    else (Go id, with_docs c (docs c s ++ [mkDocument id (bson_doc doc)]) s).

Definition updateOne (c : Coll) (f : Filter) (update : Doc) : Action nat :=
  call (UpdateOne c f update) ;;;
  fun s =>
    let '(coll, matched) := update_doc f (bson_doc update) (docs c s) in
    (Go matched, with_docs c coll s).

Definition deleteOne (c : Coll) (f : Filter) : Action nat :=
  call (DeleteOne c f) ;;;
  fun s =>
    let '(coll, deleted) := delete_doc f (docs c s) in
    (Go deleted, with_docs c coll s).

(** [app.METHOD(path, verifyFirebaseToken, loadUserProfile, handler)] *)
Definition guarded (handler : Request -> User -> JsVal -> Action Reply)
    (req : Request) : Action Reply :=
  user <- lift (verifyFirebaseToken env req) ;;
  userProfile <- lift (loadUserProfile env user) ;;
  handler req user userProfile.

(** [req.body || {}] *)
Definition body_or_empty (req : Request) : JsVal :=
  or_else (body req) (JObj []).

(** *** Universities *)

(** GET /api/universities *)
Definition get_universities : Action Reply :=
  catching (Error 500 "Failed to fetch universities")
    (getDb ;;;
     items <- find Universities (FAll []) ;;
     pure (Json 200 (JArr (map (normalized ["name"]) items)))).

(** POST /api/universities *)
Definition post_universities (req : Request) (user : User)
    (userProfile : JsVal) : Action Reply :=
  if negb (isSuperAdmin userProfile)
  then send (Error 403 "Only superAdmin can create universities")
  else
    catching (Detailed 500 "Failed to create university")
      (getDb ;;;
       let name := opt_prop (body_or_empty req) "name" in
       if negb (truthy name) then send (Error 400 "name is required")
       else
         insertedId <- insertOne Universities [("name", name)] ;;
         pure (Json 201 (JObj [("id", JStr (id_text insertedId));
                               ("name", name)]))).

(** The update and the read-back of the two PATCH handlers that use the
    dual-identifier filter. *)
Definition update_and_read (c : Coll) (id : string) (update : Doc)
    (missing missing_after : string) (keys : list string) : Action Reply :=
  let filter := FOr (id_filters id) in
  matchedCount <- updateOne c filter update ;;
  if Nat.eqb matchedCount 0 then send (Error 404 missing)
  else
    doc <- findOne c filter ;;
    match doc with
    | None => send (Error 404 missing_after)
    | Some d => pure (Json 200 (normalized keys d))
    end.

(** PATCH /api/universities/:id *)
Definition patch_universities (req : Request) (user : User)
    (userProfile : JsVal) : Action Reply :=
  if negb (isSuperAdmin userProfile)
  then send (Error 403 "Only superAdmin can update universities")
  else
    catching (Detailed 500 "Failed to update university")
      (getDb ;;;
       let name := opt_prop (body req) "name" in
       let update :=
         if truthy name then [("name", JStr (trim (to_string name)))]
         else [] in
       update_and_read Universities (param req) update
         "University not found" "University not found after update"
         ["name"]).

(** The removal of the two DELETE handlers that use the dual-identifier
    filter. *)
Definition delete_by_id (c : Coll) (id : string) (missing : string)
  : Action Reply :=
  deletedCount <- deleteOne c (FOr (id_filters id)) ;;
  if Nat.eqb deletedCount 0 then send (Error 404 missing)
  else pure (Ended 204).

(** DELETE /api/universities/:id *)
Definition delete_universities (req : Request) (user : User)
    (userProfile : JsVal) : Action Reply :=
  if negb (isSuperAdmin userProfile)
  then send (Error 403 "Only superAdmin can delete universities")
  else
    catching (Detailed 500 "Failed to delete university")
      (getDb ;;;
       delete_by_id Universities (param req) "University not found").

(** *** Campuses *)

(** GET /api/campuses, with [req.query.universityId] *)
Definition get_campuses (universityId : option string) : Action Reply :=
  catching (Error 500 "Failed to fetch campuses")
    (getDb ;;;
     items <- find Campuses (query_filter "universityId" universityId) ;;
     pure (Json 200 (JArr (map (normalized ["universityId"; "name"]) items)))).

(** POST /api/campuses *)
Definition post_campuses (req : Request) (user : User)
    (userProfile : JsVal) : Action Reply :=
  if negb (isSuperAdmin userProfile)
  then send (Error 403 "Only superAdmin can create campuses")
  else
    catching (Detailed 500 "Failed to create campus")
      (getDb ;;;
       let universityId := opt_prop (body_or_empty req) "universityId" in
       let name := opt_prop (body_or_empty req) "name" in
       if (negb (truthy universityId) || negb (truthy name))%bool
       then send (Error 400 "universityId and name are required")
       else
         insertedId <- insertOne Campuses [("universityId", universityId);
                                           ("name", name)] ;;
         pure (Json 201 (JObj [("id", JStr (id_text insertedId));
                               ("universityId", universityId);
                               ("name", name)]))).

(** PATCH /api/campuses/:id *)
Definition patch_campuses (req : Request) (user : User)
    (userProfile : JsVal) : Action Reply :=
  if negb (isSuperAdmin userProfile)
  then send (Error 403 "Only superAdmin can update campuses")
  else
    catching (Detailed 500 "Failed to update campus")
      (getDb ;;;
       let name := opt_prop (body req) "name" in
       let update := if truthy name then [("name", name)] else [] in
       update_and_read Campuses (param req) update
         "Campus not found" "Campus not found after update"
         ["universityId"; "name"]).

(** DELETE /api/campuses/:id *)
Definition delete_campuses (req : Request) (user : User)
    (userProfile : JsVal) : Action Reply :=
  if negb (isSuperAdmin userProfile)
  then send (Error 403 "Only superAdmin can delete campuses")
  else
    catching (Detailed 500 "Failed to delete campus")
      (getDb ;;;
       delete_by_id Campuses (param req) "Campus not found").

(** *** Restaurants *)

Definition restaurant_keys : list string :=
  ["campusId"; "universityId"; "name"; "location"; "cuisine"; "openTime";
   "closeTime"; "is24x7"].

(** GET /api/restaurants, with [req.query.campusId] *)
Definition get_restaurants (campusId : option string) : Action Reply :=
  catching (Error 500 "Failed to fetch restaurants")
    (getDb ;;;
     items <- find Restaurants (query_filter "campusId" campusId) ;;
     pure (Json 200 (JArr (map (normalized restaurant_keys) items)))).

(** GET /api/restaurants/:id, with [req.params.id]: the lookup by object
    identifier, and the lookup by the plain string when the first one
    throws; the answer is [{ id: String(restaurant._id), ...restaurant }]. *)
Definition get_restaurant (id : string) : Action Reply :=
  catching (Error 500 "Failed to fetch restaurant")
    (getDb ;;;
     restaurant <-
       recover
         match ObjectId id with
         | Some d => findOne Restaurants (FAll [FId d])
         | None => raise
         end
         (findOne Restaurants (FAll [FId (Sid id)])) ;;
     match restaurant with
     | None => send (Error 404 "Restaurant not found")
     | Some r =>
         pure (Json 200
                 (JObj (set_all (doc_entries r)
                                [("id", JStr (id_text (doc_id r)))])))
     end).

(** The [doc] literal of POST /api/restaurants. *)
Definition restaurant_doc (b : JsVal) : Doc :=
  let f := opt_prop b in
  [ ("campusId", f "campusId");
    ("universityId", f "universityId");
    ("name", f "name");
    ("location", or_else (f "location") (JStr ""));
    ("cuisine", or_else (f "cuisine") (JStr ""));
    ("openTime", or_else (f "openTime") (JStr "10:00 AM"));
    ("closeTime", or_else (f "closeTime") (JStr "10:00 PM"));
    ("is24x7", coalesce (f "is24x7") (JBool true)) ].

(** POST /api/restaurants *)
Definition post_restaurants (req : Request) (user : User)
    (userProfile : JsVal) : Action Reply :=
  catching (Error 500 "Failed to create restaurant")
    (getDb ;;;
     let b := body_or_empty req in
     let campusId := opt_prop b "campusId" in
     if (negb (truthy campusId) || negb (truthy (opt_prop b "universityId"))
         || negb (truthy (opt_prop b "name")))%bool
     then send (Error 400 "campusId, universityId, name are required")
     else if (isCampusAdmin userProfile
              && negb (strict_eq campusId (opt_prop userProfile "campusId")))%bool
     then send (Error 403 "Not allowed for this campus")
     else
       let doc := restaurant_doc b in
       insertedId <- insertOne Restaurants doc ;;
       pure (Json 201
               (JObj (doc ++ [("_id", JStr (id_text insertedId))])%list))).

(** DELETE /api/restaurants/:id *)
Definition delete_restaurants (req : Request) (user : User)
    (userProfile : JsVal) : Action Reply :=
  catching (Detailed 500 "Failed to delete restaurant")
    (getDb ;;;
     match ObjectId (param req) with
     | None => send (Error 400 "Invalid restaurant ID format")
     | Some _id =>
         existing <- findOne Restaurants (FAll [FId _id]) ;;
         match existing with
         | None => send (Error 404 "Restaurant not found")
         | Some r =>
             if (isCampusAdmin userProfile
                 && negb (strict_eq (get (doc_fields r) "campusId")
                                    (opt_prop userProfile "campusId")))%bool
             then send (Error 403 "Not allowed")
             else
               deleteOne Restaurants (FAll [FId _id]) ;;;
               pure (Ended 204)
         end
     end).

(** *** Campus settings *)

(** The settings answered for a campus that has none stored. *)
Definition default_settings (campusId : string) : JsVal :=
  JObj [("campusId", JStr campusId);
        ("deliveryChargePerPerson", JNum 150);
        ("accountTitle", JStr "Maratib Ali");
        ("bankName", JStr "SadaPay");
        ("accountNumber", JStr "03330374616")].

(** GET /api/campus-settings/:campusId *)
Definition get_campus_settings (req : Request) (user : User)
    (userProfile : JsVal) : Action Reply :=
  catching (Error 500 "Failed to fetch campus settings")
    (getDb ;;;
     let campusId := param req in
     if (isCampusAdmin userProfile
         && negb (strict_eq (opt_prop userProfile "campusId") (JStr campusId)))%bool
     then send (Error 403
                  "You can only view settings for your assigned campus")
     else
       settings <- findOne CampusSettings
                     (FAll [FField "campusId" (JStr campusId)]) ;;
       match settings with
       | None => pure (Json 200 (default_settings campusId))
       | Some d => pure (Json 200 (doc_json d))
       end).

(** GET /api/campus-settings *)
Definition get_all_campus_settings (req : Request) (user : User)
    (userProfile : JsVal) : Action Reply :=
  catching (Error 500 "Failed to fetch campus settings")
    (if negb (isSuperAdmin userProfile)
     then send (Error 403 "Only super admin can view all campus settings")
     else
       getDb ;;;
       settings <- find CampusSettings (FAll []) ;;
       pure (Json 200 (JArr (map doc_json settings)))).

End Handlers.

(** The endpoints: the listings of universities, campuses and
    restaurants are public, the others sit behind the two middlewares. *)
Definition GET_api_universities := get_universities.
Definition POST_api_universities env fault :=
  guarded env (post_universities env fault).
Definition PATCH_api_universities_id env fault :=
  guarded env (patch_universities fault).
Definition DELETE_api_universities_id env fault :=
  guarded env (delete_universities fault).
Definition GET_api_campuses := get_campuses.
Definition POST_api_campuses env fault :=
  guarded env (post_campuses env fault).
Definition PATCH_api_campuses_id env fault :=
  guarded env (patch_campuses fault).
Definition DELETE_api_campuses_id env fault :=
  guarded env (delete_campuses fault).
Definition GET_api_restaurants := get_restaurants.
Definition GET_api_restaurants_id := get_restaurant.
Definition POST_api_restaurants env fault :=
  guarded env (post_restaurants env fault).
Definition DELETE_api_restaurants_id env fault :=
  guarded env (delete_restaurants fault).
Definition GET_api_campus_settings_id env fault :=
  guarded env (get_campus_settings fault).
Definition GET_api_campus_settings env fault :=
  guarded env (get_all_campus_settings fault).

End Catalog.

(** ** The provisioned validators (src/unnamed/part_001) *)

Module Provision.
Import Js Mongo.

(** The BSON types the schemas name. *)
Inductive BsonType : Type :=
| TString
| TNull
| TBool
| TInt
| TLong
| TDouble
| TDecimal
| TDate
| TObjectId
| TArray
| TObject.

Definition type_eqb (a b : BsonType) : bool :=
  match a, b with
  | TString, TString | TNull, TNull | TBool, TBool | TInt, TInt
  | TLong, TLong | TDouble, TDouble | TDecimal, TDecimal | TDate, TDate
  | TObjectId, TObjectId | TArray, TArray | TObject, TObject => true
  | _, _ => false
  end.

(** The schema of one property: [{ bsonType: t }], [{ bsonType: [...] }]
    or [{ enum: [...] }]. *)
Inductive Property : Type :=
| bsonType (ts : list BsonType)
| enum (vs : list JsVal).

(** A [$jsonSchema] of the script: every one has [bsonType: 'object'];
    [additionalProperties] is [true] where the schema does not set it. *)
Record Validator : Type := mkValidator {
  required : list string;
  properties : list (string * Property);
  additionalProperties : bool
}.

Definition text := bsonType [TString].
Definition text_or_null := bsonType [TString; TNull].
Definition numeric := bsonType [TDouble; TInt; TLong; TDecimal].

Definition menuItemsValidator : Validator :=
  mkValidator
    ["name"; "price"; "restaurantId"; "createdAt"]
    [("name", text);
     ("price", numeric);
     ("restaurantId", text);
     ("campusId", text_or_null);
     ("universityId", text_or_null);
     ("photoURL", text_or_null);
     ("description", text_or_null);
     ("isAvailable", bsonType [TBool; TNull]);
     ("createdAt", bsonType [TDate]);
     ("updatedAt", bsonType [TDate; TNull])]
    false.

Definition ordersValidator : Validator :=
  mkValidator
    ["universityName"; "campusName"; "firstName"; "phone"; "gender";
     "grandTotal"; "createdAt"]
    [("universityName", text);
     ("campusName", text);
     ("firstName", text);
     ("lastName", text_or_null);
     ("phone", text);
     ("email", text_or_null);
     ("gender", enum [JStr "male"; JStr "female"]);
     ("persons", bsonType [TInt; TLong]);
     ("deliveryCharge", numeric);
     ("itemTotal", numeric);
     ("grandTotal", numeric);
     ("cartItems", text_or_null);
     ("timestamp", text_or_null);
     ("accountTitle", text_or_null);
     ("bankName", text_or_null);
     ("screenshotURL", text_or_null);
     ("specialInstruction", text_or_null);
     ("createdAt", bsonType [TDate]);
     ("universityId", text_or_null);
     ("campusId", text_or_null);
     ("status", enum [JStr "pending"; JStr "accepted"; JStr "preparing";
                      JStr "ready"; JStr "out-for-delivery"; JStr "delivered";
                      JStr "cancelled"; JNull])]
    true.

Definition universitiesValidator : Validator :=
  mkValidator ["name"] [("name", text)] false.

Definition campusesValidator : Validator :=
  mkValidator ["name"; "universityId"]
              [("name", text); ("universityId", text)] false.

Definition restaurantsValidator : Validator :=
  mkValidator
    ["name"; "campusId"; "universityId"]
    [("name", text);
     ("campusId", text);
     ("universityId", text);
     ("location", text_or_null);
     ("cuisine", text_or_null);
     ("openTime", text_or_null);
     ("closeTime", text_or_null);
     ("is24x7", bsonType [TBool; TNull])]
    false.

Definition martItemsValidator : Validator :=
  mkValidator
    ["name"; "price"; "campusId"; "createdAt"]
    [("name", text);
     ("price", numeric);
     ("campusId", text);
     ("photoURL", text_or_null);
     ("description", text_or_null);
     ("category", text_or_null);
     ("stock", bsonType [TInt; TLong; TNull]);
     ("createdAt", bsonType [TDate]);
     ("updatedAt", bsonType [TDate; TNull])]
    false.

(** *** What the server checks *)

(** A stored field value: a value the driver wrote from a JavaScript
    value, a date, or an object identifier. *)
Inductive Stored : Type :=
| Value (v : JsVal)
| Date (ms : Z)
| ObjId (hex : string).

(** A number is written as a 32-bit integer when it is one, else as a
    double. *)
Definition int32 (n : Z) : bool := ((- 2147483648 <=? n) && (n <=? 2147483647))%bool.

Definition type_of (x : Stored) : BsonType :=
  match x with
  | Date _ => TDate
  | ObjId _ => TObjectId
  | Value v =>
      match v with
      | JUndefined | JNull => TNull
      | JBool _ => TBool
      | JNum n => if int32 n then TInt else TDouble
      | JInf _ | JNaN => TDouble
      | JStr _ => TString
      | JArr _ => TArray
      | JObj _ => TObject
      end
  end.

Definition satisfies (p : Property) (x : Stored) : bool :=
  match p with
  | bsonType ts => existsb (type_eqb (type_of x)) ts
  | enum vs =>
      match x with
      | Value v => existsb (bson_eqb v) vs
      | _ => false
      end
  end.

Fixpoint property_of (k : string) (ps : list (string * Property))
  : option Property :=
  match ps with
  | [] => None
  | (k', p) :: r => if String.eqb k k' then Some p else property_of k r
  end.

(** One field of a document against the schema: its property schema
    when it has one; a field without one is an additional property.  The
    server checks [_id] like every other field. *)
Definition field_ok (v : Validator) (kx : string * Stored) : bool :=
  match property_of (fst kx) (properties v) with
  | Some p => satisfies p (snd kx)
  | None => additionalProperties v
  end.

(** The document passes the validator: the required fields are there,
    and every field is allowed and of an allowed type. *)
Definition validates (v : Validator) (doc : list (string * Stored)) : bool :=
  (forallb (fun k => existsb (fun kx => String.eqb k (fst kx)) doc) (required v)
   && forallb (field_ok v) doc)%bool.

Definition id_stored (d : DocId) : Stored :=
  match d with
  | Oid hex => ObjId hex
  | Sid s => Value (JStr s)
  end.

(** An order as the collection holds it. *)
Definition order_document (o : Order) : list (string * Stored) :=
  ("_id", id_stored (_id o)) :: ("createdAt", Date (createdAt o))
  :: map (fun kv => (fst kv, Value (snd kv))) (fields o).

(** A document of a reference collection as the collection holds it. *)
Definition reference_document (d : Restaurant) : list (string * Stored) :=
  ("_id", id_stored (restaurant_id d))
  :: map (fun kv => (fst kv, Value (snd kv))) (restaurant_fields d).

End Provision.

(** ** Vocabulary of the statements *)

Module Spec.
Import Js Mongo Server.

(** [req.body || {}] *)
Definition request_body (req : Request) : JsVal := or_else (body req) (JObj []).

(** No storage fault at all for this request. *)
Definition no_fault (env : Env) : Prop := forall op, db_fault env op = false.

(** The secret the verification service is called with, when it is
    called: a token is supplied and a secret is configured. *)
Definition gate_consults (env : Env) (token : JsVal) : option string :=
  match RECAPTCHA_SECRET_KEY env with
  | Some secret =>
      if (truthy token && truthy (JStr secret))%bool then Some secret else None
  | None => None
  end.

(** The human-verification gate lets the request through: the service
    is not consulted, or it reports success. *)
Definition gate_open (env : Env) (token : JsVal) : bool :=
  match gate_consults env token with
  | Some secret =>
      match siteverify env secret token with
      | Replied success => truthy success
      | CallFailed => false
      end
  | None => true
  end.

(** The campus check refuses the request. *)
Definition campus_denied (userProfile b : JsVal) : bool :=
  let assignedCampusId := opt_prop userProfile "campusId" in
  let campusId := opt_prop b "campusId" in
  (negb (truthy assignedCampusId) || negb (truthy campusId)
   || negb (strict_eq campusId assignedCampusId))%bool.

Definition required_fields : list string :=
  ["firstName"; "phone"; "gender"; "grandTotal"].

(** One of the mandatory fields is absent or otherwise falsy. *)
Definition missing_required (b : JsVal) : bool :=
  existsb (fun k => negb (truthy (opt_prop b k))) required_fields.

Definition add_events (s : State) (l : list Event) : State :=
  mkState (orders s) (restaurants s) (trace s ++ l).

Definition gate_events (env : Env) (token : JsVal) : list Event :=
  match gate_consults env token with
  | Some secret => [EvSiteVerify secret token]
  | None => []
  end.

Definition failure (code : Z) (msg : string) : option Response :=
  Some (mkResponse code (PError msg)).

(** The order-creation handler as a decision list. *)
Definition post_orders_outcome (env : Env) (req : Request) (user : User)
    (userProfile : JsVal) (s : State) : option Response * State :=
  let b := request_body req in
  let token := opt_prop b "recaptchaToken" in
  let doc := orderDoc env b user userProfile in
  let id := Oid (new_oid env) in
  let s1 := add_events s [EvDb OpConnect] in
  let s2 := add_events s1 (gate_events env token) in
  let s3 := add_events s2 [EvDb (OpInsertOne (now env) doc)] in
  if db_fault env OpConnect then (failure 500 "Failed to create order", s1)
  else if negb (gate_open env token)
  then (failure 400 "reCAPTCHA verification failed", s2)
  else if negb (truthy (opt_prop userProfile "campusId"))
  then (failure 403 "No campus assigned to user profile", s2)
  else if campus_denied userProfile b
  then (failure 403
          "You can only place orders from your assigned campus. Please switch back to your campus in the navbar.",
        s2)
  else if missing_required b
  then (failure 400 "Missing required order fields", s2)
  else if (db_fault env (OpInsertOne (now env) doc)
           || existsb (fun o => docid_eqb id (_id o)) (orders s))%bool
  then (failure 500 "Failed to create order", s3)
  else (Some (mkResponse 201 (PInserted id)),
        mkState (orders s ++ [mkOrder id (now env) (bson_doc doc)])
                (restaurants s) (trace s3)).

(** Status code of the response, when there is one. *)
Definition status_of (out : option Response * State) : option Z :=
  option_map status_code (fst out).

Definition is_site_verify (e : Event) : bool :=
  match e with EvSiteVerify _ _ => true | EvDb _ => false end.

(** The calls to the verification service recorded in a trace. *)
Definition site_verify_calls (t : list Event) : list Event :=
  filter is_site_verify t.

(** Trimming and de-duplicating alone, as a reading of the
    restaurant-name rule that keeps blank names. *)
Definition trimmed_dedup (names : list JsVal) : list string :=
  dedup [] (map (fun x => trim (to_string x)) names).

(** A list of orders is newest first. *)
Definition newest_first (l : list Order) : Prop :=
  StronglySorted (fun a b => createdAt b <= createdAt a) l.

(** A value that is neither an array nor an object. *)
Definition scalar (v : JsVal) : bool :=
  match v with JArr _ | JObj _ => false | _ => true end.

(** An identifier assigned in a profile: a plain value that is not
    [null]. *)
Definition assigned (v : JsVal) : bool := (scalar v && negb (nullish v))%bool.

(** The order belongs to campus [c]. *)
Definition campus_is (c : string) (o : Order) : Prop :=
  get (fields o) "campusId" = JStr c.

(** The field [k] of the order is the string [c]. *)
Definition has_text (k c : string) (o : Order) : bool :=
  match get (fields o) k with JStr x => String.eqb x c | _ => false end.


(** The campus list-orders restricts the profile to. *)
Definition scope (userProfile : JsVal) (campus : option string) : Prop :=
  match campus with
  | None => isSuperAdmin userProfile = true
  | Some c => isSuperAdmin userProfile = false
              /\ opt_prop userProfile "campusId" = JStr c
  end.

(** No stored order holds an array in its field [k]. *)
Definition no_array_in (k : string) (s : State) : Prop :=
  Forall (fun o => isArray (get (fields o) k) = false) (orders s).

(** The limit [k] does not cut a result of [n] documents. *)
Definition within_limit (k : Z) (n : nat) : Prop :=
  k = 0 \/ (n <= Z.to_nat (Z.abs k))%nat.

(** [Number(limit)] with the default of the endpoint. *)
Definition requested_limit (default : Z) (req : Request) : JsVal :=
  to_number (or_default default (query_limit req)).


(** The request carries, as [Bearer <token>], a token that the identity
    provider verifies as the token of [user]. *)
Definition authenticated (env : Env) (req : Request) (user : User) : Prop :=
  exists token email,
    authorization req = Some ("Bearer " ++ token)
    /\ token <> ""
    /\ verifyIdToken env token = Some (uid user, email)
    /\ user_email user = or_else email JNull.

(** The identifier [id] of a request denotes the stored identifier [d]
    under one of the two interpretations: as the legacy string itself,
    or as the rendering of an object identifier. *)
Definition id_denotes (id : string) (d : DocId) : Prop :=
  d = Sid id \/ ObjectId id = Some d.

(** The order lies in the campus of the profile, as the status-update
    filter of a campus admin tests it. *)
Definition in_campus_of (userProfile : JsVal) (o : Order) : Prop :=
  field_matches "campusId" (opt_prop userProfile "campusId") (fields o) = true.

(** [req.body.status] of a status update. *)
Definition requested_status (req : Request) : JsVal :=
  opt_prop (request_body req) "status".

(** The status update found an order and set its status: the first
    order of the store that the request identifier denotes within the
    campus of the profile gets the requested status and is returned with
    200; every other order is as before. *)
Definition update_applied (userProfile : JsVal) (req : Request) (s : State)
    (out : option Response * State) : Prop :=
  exists pre x post,
    orders s = (pre ++ x :: post)%list
    /\ id_denotes (param req) (_id x)
    /\ in_campus_of userProfile x
    /\ (forall y, In y pre ->
          ~ (id_denotes (param req) (_id y) /\ in_campus_of userProfile y))
    /\ orders (snd out)
       = (pre ++ set_field "status" (requested_status req) x :: post)%list
    /\ fst out
       = Some (mkResponse 200
                 (POrder (set_field "status" (requested_status req) x))).

(** A line item belongs to the restaurant: it carries its identifier or
    its name. *)
Definition belongs_to (restaurantId : string) (restaurantName : JsVal)
    (item : JsVal) : bool :=
  (strict_eq (opt_prop item "restaurantId") (JStr restaurantId)
   || strict_eq (opt_prop item "restaurantName") restaurantName)%bool.

(** The line item carries the restaurant identifier [restaurantId]. *)
Definition carries (restaurantId : string) (item : JsVal) : Prop :=
  prop item "restaurantId" = Some (JStr restaurantId).

Definition number_of (v : JsVal) : Z :=
  match v with JNum n => n | _ => 0 end.


(** Price times quantity of a line item. *)
Definition line_total (item : JsVal) : Z :=
  number_of (opt_prop item "price") * number_of (opt_prop item "quantity").

(** Sum of price times quantity over line items. *)
Definition sum_line_totals (items : list JsVal) : Z :=
  fold_right Z.add 0 (map line_total items).



(** The restaurant record the listing looks up for [id]. *)
Definition restaurant_of (s : State) (id : string) : option Restaurant :=
  find_restaurant
    (match ObjectId id with Some d => [d] | None => [] end ++ [Sid id])%list
    (restaurants s).

(** The number of orders the restaurant listing selects. *)
Definition restaurant_listed_count (id : string) (restaurantName : JsVal)
    (s : State) : nat :=
  List.length (filter (matches (restaurant_filter id restaurantName)) (orders s)).



End Spec.

(** ** Vocabulary of the further properties *)

Module Terms.
Import Js Mongo Server Catalog Provision.

(** The documents of the two collections are the same in both states;
    only the record of calls may differ. *)
Definition same_store (s s' : State) : Prop :=
  orders s' = orders s /\ restaurants s' = restaurants s.

(** No two orders of the store share an identifier. *)
Definition distinct_ids (s : State) : Prop := NoDup (map _id (orders s)).

(** The store after more calls to the database, its documents
    untouched. *)
Definition logged (s : Store) (l : list Call) : Store :=
  mkStore (base s) (universities s) (campuses s) (campusSettings s)
          (calls s ++ l).

(** No storage fault at all for the reference-data calls. *)
Definition reliable (fault : Call -> bool) : Prop := forall c, fault c = false.

(** The orders and the four reference collections are the same in both
    stores. *)
Definition same_documents (s s' : Store) : Prop :=
  orders (base s') = orders (base s) /\ forall c, docs c s' = docs c s.

(** Every collection but [c], and the orders, are the same in both
    stores. *)
Definition same_but (c : Coll) (s s' : Store) : Prop :=
  orders (base s') = orders (base s)
  /\ forall c', c' <> c -> docs c' s' = docs c' s.

(** The identifier [id] of a request denotes the stored document [d]. *)
Definition denotes (id : string) (d : Document) : Prop :=
  Spec.id_denotes id (doc_id d).

(** The document passes the optional query parameter [q] on the field
    [key]: no parameter and an empty one let every document through, any
    other one the documents matching [{key: q}]. *)
Definition asked_for (key : string) (q : option string) (d : Document)
  : Prop :=
  match q with
  | None => True
  | Some u => u = "" \/ field_matches key (JStr u) (doc_fields d) = true
  end.

(** The handler [h] relates every store to the store it leaves. *)
Definition keeps {A} (P : Store -> Store -> Prop) (h : Action A) : Prop :=
  forall s, P s (snd (h s)).

(** A string that is not empty. *)
Definition filled (v : JsVal) : bool := (is_string v && truthy v)%bool.

(** A string, or a value the handler replaces by [null]. *)
Definition text_or_none (v : JsVal) : bool :=
  (is_string v || negb (truthy v))%bool.

Definition number (v : JsVal) : bool :=
  match v with JNum _ | JInf _ | JNaN => true | _ => false end.

(** A number the driver writes as a 32-bit integer. *)
Definition small_integer (v : JsVal) : bool :=
  match v with JNum n => int32 n | _ => false end.

Definition male_or_female (v : JsVal) : bool :=
  match v with
  | JStr s => (String.eqb s "male" || String.eqb s "female")%bool
  | _ => false
  end.

Definition all (l : list bool) : bool := forallb (fun b => b) l.

(** The typing the orders validator asks of a request body, field by
    field of the order document. *)
Definition order_well_typed (b : JsVal) (user : User) (userProfile : JsVal)
  : bool :=
  let f := opt_prop b in
  all [ text_or_none (or_else (f "universityId")
                              (opt_prop userProfile "universityId"));
        (is_string (f "campusId") || nullish (f "campusId"))%bool;
        filled (f "universityName");
        filled (f "campusName");
        is_string (f "firstName");
        text_or_none (f "lastName");
        is_string (f "phone");
        text_or_none (or_else (f "email") (user_email user));
        male_or_female (f "gender");
        small_integer (f "persons");
        number (f "deliveryCharge");
        number (f "itemTotal");
        number (f "grandTotal");
        text_or_none (f "cartItemsFormatted");
        text_or_none (f "accountTitle");
        text_or_none (f "bankName");
        text_or_none (f "screenshotURL");
        text_or_none (f "specialInstruction") ].

(** The status code of an answer, when there is one. *)
Definition code (out : option Reply * Store) : option Z :=
  option_map code_of (fst out).

End Terms.

(** ** Sample data *)

Module Samples.
Import Js Mongo Server.

Definition profile_of (role : string) (campusId : string) : JsVal :=
  JObj [("role", JStr role); ("campusId", JStr campusId)].

Definition student : JsVal := profile_of "user" "C1".
Definition campus_admin : JsVal := profile_of "campusAdmin" "C1".
Definition super_admin : JsVal := JObj [("role", JStr "superAdmin")].
Definition manager : JsVal :=
  JObj [("role", JStr "restaurantManager"); ("campusId", JStr "C1");
        ("restaurantId", JStr "r1")].

Definition alice : User := mkUser "uid-alice" (JStr "alice@example.edu").

(** A server that reads the one operator document [{ $ne: v }], as the
    field not matching [v], and selects nothing by any other object. *)
Definition reads_ne (path : string) (ops : Doc) (o : Order) : bool :=
  match ops with
  | [("$ne", v)] => negb (field_matches path v (fields o))
  | _ => false
  end.

(** A deployment with no reCAPTCHA secret, whose verification service
    would refuse every token, and a store without faults. *)
Definition env_plain : Env :=
  mkEnv None (fun _ _ => Replied (JBool false))
        (fun _ => Some ("uid-alice", JStr "alice@example.edu"))
        (Some (fun _ => FsData student))
        (fun _ => false) reads_ne 1000 "2025-01-01T00:00:00.000Z"
        "507f1f77bcf86cd799439011".

(** The same deployment with a secret configured. *)
Definition env_captcha : Env :=
  mkEnv (Some "secret") (fun _ _ => Replied (JBool false))
        (fun _ => Some ("uid-alice", JStr "alice@example.edu"))
        (Some (fun _ => FsData student))
        (fun _ => false) reads_ne 1000 "2025-01-01T00:00:00.000Z"
        "507f1f77bcf86cd799439011".

(** A later request, whose inserted document gets another identifier. *)
Definition env_later : Env :=
  mkEnv None (fun _ _ => Replied (JBool false))
        (fun _ => Some ("uid-alice", JStr "alice@example.edu"))
        (Some (fun _ => FsData manager))
        (fun _ => false) reads_ne 2000 "2025-01-01T00:00:01.000Z"
        "507f1f77bcf86cd799439012".

Definition cart : JsVal :=
  JArr [JObj [("restaurantId", JStr "r1"); ("name", JStr "Zinger");
              ("price", JNum 10); ("quantity", JNum 2)];
        JObj [("restaurantId", JStr "r2"); ("name", JStr "Fries");
              ("price", JNum 5); ("quantity", JNum 3)]].

Definition order_body (campusId : string) (extra : Doc) : JsVal :=
  JObj ([("campusId", JStr campusId); ("firstName", JStr "Alice");
         ("phone", JStr "0300"); ("gender", JStr "female");
         ("grandTotal", JNum 35); ("cartItems", cart)] ++ extra)%list.

Definition request_of (b : JsVal) : Request :=
  mkRequest (Some "Bearer token") "" JUndefined JUndefined b.

(** A well-formed order for campus C1. *)
Definition req_order : Request := request_of (order_body "C1" []).

(** An order for another campus, sent with a verification token. *)
Definition req_other_campus_with_token : Request :=
  request_of (order_body "C2" [("recaptchaToken", JStr "tok")]).

(** A well-formed order sent with a verification token. *)
Definition req_order_with_token : Request :=
  request_of (order_body "C1" [("recaptchaToken", JStr "tok")]).

(** An order for another campus. *)
Definition req_other_campus : Request := request_of (order_body "C2" []).

(** An order without [gender]. *)
Definition req_no_gender : Request :=
  request_of (JObj [("campusId", JStr "C1"); ("firstName", JStr "Alice");
                    ("phone", JStr "0300"); ("grandTotal", JNum 35)]).

(** Orders with restaurant names: one blank among them, only blanks. *)
Definition req_names (names : list JsVal) : Request :=
  request_of (order_body "C1" [("restaurantNames", JArr names)]).

Definition empty_store : State :=
  mkState [] [mkRestaurant (Sid "r1") [("name", JStr "KFC")]] [].

(** The store after [req_order] has been accepted. *)
Definition store_one : State :=
  snd (run (post_orders env_plain req_order alice student) empty_store).

Definition patch_request (id : string) (status : JsVal) : Request :=
  mkRequest (Some "Bearer token") id JUndefined JUndefined
            (JObj [("status", status)]).

Definition list_request (status limit : JsVal) : Request :=
  mkRequest (Some "Bearer token") "" status limit JUndefined.

Definition restaurant_request (restaurantId : string) : Request :=
  mkRequest (Some "Bearer token") restaurantId JUndefined JUndefined
            JUndefined.

(** Two orders of campus C1 and one of campus C2, one with a legacy
    string identifier. *)
Definition legacy_order (id : DocId) (created : Z) (campusId status : string)
  : Order :=
  mkOrder id created
          [("campusId", JStr campusId); ("cartItems", JStr "1x Zinger");
           ("cartItemsArray", JArr []); ("status", JStr status)].

Definition store_three : State :=
  mkState [legacy_order (Sid "legacy-1") 100 "C1" "pending";
           legacy_order (Oid "507f1f77bcf86cd799439011") 300 "C1" "delivered";
           legacy_order (Sid "legacy-2") 200 "C2" "pending"]
          [] [].

End Samples.

(** ** More sample data *)

Module Samples2.
Import Js Mongo Server Catalog Samples.

(** An order whose cart holds [null] next to a line of restaurant r1. *)
Definition cart_with_null : JsVal :=
  JArr [JNull;
        JObj [("restaurantId", JStr "r1"); ("name", JStr "Zinger");
              ("price", JNum 10); ("quantity", JNum 2)]].

Definition req_null_line : Request :=
  request_of (JObj [("campusId", JStr "C1"); ("firstName", JStr "Alice");
                    ("phone", JStr "0300"); ("gender", JStr "female");
                    ("grandTotal", JNum 20); ("cartItems", cart_with_null)]).



(** [GET /api/orders?status[$ne]=delivered] *)
Definition not_delivered : Request :=
  list_request (JObj [("$ne", JStr "delivered")]) JUndefined.

(** A database that never fails. *)
Definition sound : Call -> bool := fun _ => false.

(** Reference data: one university under a legacy string identifier, two
    campuses, the restaurant of the order samples and one stored under an
    object identifier, and the settings of campus C1. *)
Definition reference : Store :=
  mkStore
    (mkState (orders store_three)
             [mkDocument (Sid "r1")
                [("campusId", JStr "C1"); ("name", JStr "KFC")];
              mkDocument (Oid "507f1f77bcf86cd7994390aa")
                [("campusId", JStr "C2"); ("name", JStr "Subway")]]
             [])
    [mkDocument (Sid "u1") [("name", JStr "LUMS")]]
    [mkDocument (Sid "C1") [("universityId", JStr "u1"); ("name", JStr "Main")];
     mkDocument (Sid "C2") [("universityId", JStr "u2"); ("name", JStr "City")]]
    [mkDocument (Oid "507f1f77bcf86cd7994390bb")
       [("campusId", JStr "C1"); ("deliveryChargePerPerson", JNum 100)]]
    [].

(** A request with a route parameter and a body. *)
Definition request (id : string) (b : JsVal) : Request :=
  mkRequest (Some "Bearer token") id JUndefined JUndefined b.

(** Renaming university u1 and campus C2, with blanks around the name. *)
Definition rename_u1 : Request :=
  request "u1" (JObj [("name", JStr "  Lahore U ")]).

Definition rename_c2 : Request :=
  request "C2" (JObj [("name", JStr " City 2 ")]).

(** A plain user asks for a restaurant in campus C9. *)
Definition create_restaurant : Request :=
  request "" (JObj [("campusId", JStr "C9"); ("universityId", JStr "u1");
                    ("name", JStr "Cafe 9"); ("is24x7", JBool false)]).

(** A deployment whose profile store knows the caller as a super
    admin. *)
Definition env_admin : Env :=
  mkEnv None (fun _ _ => Replied (JBool false))
        (fun _ => Some ("uid-alice", JStr "alice@example.edu"))
        (Some (fun _ => FsData super_admin))
        (fun _ => false) reads_ne 3000 "2025-01-01T00:00:02.000Z"
        "507f1f77bcf86cd799439013".

(** A new campus of university u1. *)
Definition create_campus : Request :=
  request "" (JObj [("universityId", JStr "u1"); ("name", JStr "North")]).

End Samples2.

(** * Lemmas *)

Import Js Mongo Server Spec.
Local Open Scope handler_scope.

(** Case analysis on every test of a decision list. *)
Ltac case_tests :=
  repeat match goal with
         | |- context [if ?c then _ else _] => destruct c
         end.

(** ** Order creation, step by step *)

Lemma add_events_nil s : add_events s [] = s.
Proof. destruct s; unfold add_events; cbn. now rewrite app_nil_r. Qed.

Section Steps.

Variable env : Env.

Lemma db_op_run op s :
  db_op env op s
  = (if db_fault env op then Thrown else Next tt, add_events s [EvDb op]).
Proof. unfold db_op, add_events. now destruct (db_fault env op). Qed.

Lemma recaptcha_gate_run token s :
  recaptcha_gate env token s
  = (if gate_open env token then Next tt
     else Sent (mkResponse 400 (PError "reCAPTCHA verification failed")),
     add_events s (gate_events env token)).
Proof.
  unfold recaptcha_gate, gate_open, gate_events, gate_consults.
  destruct (RECAPTCHA_SECRET_KEY env) as [secret|];
    [|now rewrite add_events_nil].
  destruct (truthy token && truthy (JStr secret))%bool;
    [|now rewrite add_events_nil].
  unfold bind, emit, ret, send_error, add_events.
  destruct (siteverify env secret token) as [success|]; [|reflexivity].
  now destruct (truthy success).
Qed.

Lemma insertOne_run created doc s :
  insertOne env created doc s
  = let id := Oid (new_oid env) in
    let s' := add_events s [EvDb (OpInsertOne created doc)] in
    if (db_fault env (OpInsertOne created doc)
        || existsb (fun o => docid_eqb id (_id o)) (orders s))%bool
    then (Thrown, s')
    else (Next id,
          mkState (orders s ++ [mkOrder id created (bson_doc doc)])
                  (restaurants s) (trace s')).
Proof.
  unfold insertOne, bind. rewrite db_op_run.
  destruct (db_fault env (OpInsertOne created doc)); [reflexivity|].
  cbn [orb add_events orders restaurants trace].
  now destruct (existsb _ (orders s)).
Qed.

Lemma post_orders_run req user userProfile s :
  run (post_orders env req user userProfile) s
  = post_orders_outcome env req user userProfile s.
Proof.
  unfold post_orders_outcome, post_orders, run, try_catch, bind, getDb.
  fold (request_body req).
  set (b := request_body req).
  set (doc := orderDoc env b user userProfile).
  rewrite db_op_run.
  destruct (db_fault env OpConnect); [reflexivity|].
  rewrite recaptcha_gate_run.
  destruct (gate_open env (opt_prop b "recaptchaToken")); [|reflexivity].
  cbn [negb].
  unfold campus_denied, missing_required, required_fields, send_error, failure.
  cbn [existsb].
  destruct (truthy (opt_prop userProfile "campusId")); cbn [negb orb];
    [|reflexivity].
  destruct (truthy (opt_prop b "campusId")); cbn [negb orb]; [|reflexivity].
  destruct (strict_eq (opt_prop b "campusId") (opt_prop userProfile "campusId"));
    cbn [negb orb]; [|reflexivity].
  destruct (truthy (opt_prop b "firstName")); cbn [negb orb]; [|reflexivity].
  destruct (truthy (opt_prop b "phone")); cbn [negb orb]; [|reflexivity].
  destruct (truthy (opt_prop b "gender")); cbn [negb orb]; [|reflexivity].
  destruct (truthy (opt_prop b "grandTotal")); cbn [negb orb]; [|reflexivity].
  rewrite insertOne_run.
  cbn [add_events orders restaurants trace].
  destruct (db_fault env (OpInsertOne (now env) doc)); cbn [orb]; [reflexivity|].
  now destruct (existsb _ (orders s)).
Qed.

End Steps.

(** ** Elementary facts about values *)

Lemma strict_eq_eq a b : strict_eq a b = true -> a = b.
Proof.
  destruct a, b; cbn; try discriminate; try reflexivity; intros H.
  - apply Bool.eqb_prop in H. now subst.
  - apply Z.eqb_eq in H. now subst.
  - apply Bool.eqb_prop in H. now subst.
  - apply String.eqb_eq in H. now subst.
Qed.

Lemma lookup_app k (d1 d2 : Doc) :
  lookup k (d1 ++ d2)%list
  = match lookup k d1 with Some v => Some v | None => lookup k d2 end.
Proof.
  induction d1 as [|[k' v] d1 IH]; cbn; [reflexivity|].
  now destruct (String.eqb k k').
Qed.

Lemma lookup_bson_doc k d :
  lookup k (bson_doc d) = option_map bson_value (lookup k d).
Proof.
  induction d as [|[k' v] d IH]; cbn; [reflexivity|].
  now destruct (String.eqb k k').
Qed.

Lemma bson_value_truthy v : truthy v = true -> bson_value v = v.
Proof. now destruct v. Qed.

(** The campus identifier written into an order document. *)
Lemma orderDoc_campusId env b user userProfile :
  lookup "campusId" (bson_doc (orderDoc env b user userProfile))
  = Some (bson_value (opt_prop b "campusId")).
Proof. reflexivity. Qed.

(** ** The human-verification gate *)

Lemma site_verify_calls_app t1 t2 :
  site_verify_calls (t1 ++ t2) = (site_verify_calls t1 ++ site_verify_calls t2)%list.
Proof. apply filter_app. Qed.

Lemma gate_consults_none env token :
  gate_consults env token = None
  <-> truthy token = false
      \/ RECAPTCHA_SECRET_KEY env = None
      \/ RECAPTCHA_SECRET_KEY env = Some "".
Proof.
  unfold gate_consults.
  destruct (RECAPTCHA_SECRET_KEY env) as [secret|]; [|tauto].
  destruct (truthy token); cbn [andb truthy].
  - destruct secret as [|c r]; cbn.
    + tauto.
    + split; [discriminate|]. intros [H|[H|H]]; discriminate.
  - tauto.
Qed.

(** ** Mandatory fields *)

Lemma missing_required_intro b k :
  In k required_fields -> truthy (opt_prop b k) = false ->
  missing_required b = true.
Proof.
  intros Hk Hf. unfold missing_required. apply existsb_exists.
  exists k. split; [exact Hk|]. now rewrite Hf.
Qed.

(** ** The restaurant-name list *)

Lemma existsb_eqb_In x seen :
  existsb (String.eqb x) seen = true <-> In x seen.
Proof.
  rewrite existsb_exists. split.
  - intros [y [Hy He]]. apply String.eqb_eq in He. now subst.
  - intros H. exists x. split; [exact H|apply String.eqb_refl].
Qed.

Lemma dedup_In seen l n :
  In n (dedup seen l) <-> In n l /\ ~ In n seen.
Proof.
  revert seen. induction l as [|x r IH]; intros seen; cbn [dedup].
  - cbn. tauto.
  - destruct (existsb (String.eqb x) seen) eqn:E.
    + apply existsb_eqb_In in E. rewrite IH. cbn [In].
      split; [tauto|]. intros [[->|H] Hn]; [contradiction|tauto].
    + assert (Hx : ~ In x seen).
      { intros H. apply existsb_eqb_In in H. congruence. }
      cbn [In]. rewrite IH. cbn [In].
      destruct (string_dec x n) as [->|Hne]; [tauto|].
      split.
      * intros [H|[H1 H2]]; [contradiction|]. split; [tauto|].
        intros H3. apply H2. now right.
      * intros [[H|H] H2]; [contradiction|]. right. split; [exact H|].
        intros [H3|H3]; [contradiction|contradiction].
Qed.

Lemma dedup_NoDup seen l : NoDup (dedup seen l).
Proof.
  revert seen. induction l as [|x r IH]; intros seen; cbn [dedup].
  - constructor.
  - destruct (existsb (String.eqb x) seen); [apply IH|].
    constructor; [|apply IH].
    rewrite dedup_In. cbn [In]. tauto.
Qed.

Lemma nonempty_true n : nonempty n = true <-> n <> "".
Proof.
  unfold nonempty. destruct (String.eqb n "") eqn:E; cbn.
  - apply String.eqb_eq in E. split; [discriminate|contradiction].
  - apply String.eqb_neq in E. tauto.
Qed.

(** The cleaned list holds each name once, and holds exactly the trimmed
    names that are not blank. *)
Lemma clean_names_spec names :
  NoDup (clean_names names)
  /\ forall n, In n (clean_names names)
               <-> n <> "" /\ exists y, In y names /\ n = trim (to_string y).
Proof.
  unfold clean_names. split; [apply dedup_NoDup|].
  intros n. rewrite dedup_In, filter_In, in_map_iff, nonempty_true.
  cbn [In]. split.
  - intros [[[y [Hy Hi]] Hn] _]. split; [exact Hn|]. now exists y.
  - intros [Hn [y [Hi Hy]]]. repeat split; [|exact Hn|tauto]. now exists y.
Qed.

Lemma orderDoc_restaurantNames env b user userProfile :
  lookup "restaurantNames" (bson_doc (orderDoc env b user userProfile))
  = match opt_prop b "restaurantNames" with
    | JArr (x :: l) => Some (JArr (map JStr (clean_names (x :: l))))
    | _ => None
    end.
Proof.
  rewrite lookup_bson_doc. unfold orderDoc.
  rewrite lookup_app.
  match goal with
  | |- context [lookup "restaurantNames" (?a :: ?r)] =>
      change (lookup "restaurantNames" (a :: r)) with (@None JsVal)
  end.
  rewrite lookup_app. unfold restaurantNames_entry.
  destruct (opt_prop b "restaurantNames") as [| |?|?|?| |?|[|x l]|?];
    reflexivity.
Qed.

(** ** Queries: sorting, limiting, matching *)

Lemma insert_desc_perm o l : Permutation (insert_desc o l) (o :: l).
Proof.
  induction l as [|x r IH]; cbn; [apply Permutation_refl|].
  destruct (createdAt x <=? createdAt o); [apply Permutation_refl|].
  rewrite IH. apply perm_swap.
Qed.

Lemma sort_desc_perm l : Permutation (sort_desc l) l.
Proof.
  induction l as [|x r IH]; cbn; [constructor|].
  rewrite insert_desc_perm. now constructor.
Qed.

Lemma insert_desc_sorted o l :
  newest_first l -> newest_first (insert_desc o l).
Proof.
  unfold newest_first. induction l as [|x r IH]; intros Hs; cbn.
  - repeat constructor.
  - destruct (createdAt x <=? createdAt o) eqn:E.
    + apply Z.leb_le in E. constructor; [exact Hs|].
      inversion Hs as [|? ? Hr Hx]; subst.
      constructor; [exact E|].
      rewrite Forall_forall in Hx |- *. intros y Hy.
      specialize (Hx y Hy). cbn in Hx. lia.
    + apply Z.leb_gt in E.
      inversion Hs as [|? ? Hr Hx]; subst.
      constructor; [now apply IH|].
      rewrite Forall_forall in Hx |- *. intros y Hy.
      apply (Permutation_in _ (insert_desc_perm o r)) in Hy.
      destruct Hy as [<-|Hy]; [lia|now apply Hx].
Qed.

Lemma sort_desc_sorted l : newest_first (sort_desc l).
Proof.
  induction l as [|x r IH]; cbn; [constructor|].
  now apply insert_desc_sorted.
Qed.

Lemma newest_first_app l r :
  newest_first (l ++ r) ->
  newest_first l
  /\ forall a b, In a l -> In b r -> createdAt b <= createdAt a.
Proof.
  unfold newest_first. induction l as [|x l IH]; cbn; intros Hs.
  - split; [constructor|]. intros a b [].
  - inversion Hs as [|? ? Hr Hx]; subst.
    destruct (IH Hr) as [Hl Hc]. split.
    + constructor; [exact Hl|].
      rewrite Forall_forall in Hx |- *. intros y Hy. apply Hx.
      apply in_or_app. now left.
    + intros a b [<-|Ha] Hb; [|now apply Hc].
      rewrite Forall_forall in Hx. apply Hx. apply in_or_app. now right.
Qed.

(** What a sorted, limited query returns: matching documents of the
    collection, newest first; a matching document that is left out is
    not newer than any returned one; nothing is left out when the limit
    does not cut; at most the limit is returned. *)
Lemma find_sorted_spec f k coll :
  exists l,
    find_sorted f (JNum k) coll = Some l
    /\ newest_first l
    /\ (forall o, In o l -> In o coll /\ matches f o = true)
    /\ (forall o, In o coll -> matches f o = true ->
                  In o l \/ forall o', In o' l -> createdAt o <= createdAt o')
    /\ (within_limit k (List.length (filter (matches f) coll)) ->
        forall o, In o coll -> matches f o = true -> In o l)
    /\ (k <> 0 -> (List.length l <= Z.to_nat (Z.abs k))%nat).
Proof.
  set (full := sort_desc (filter (matches f) coll)).
  assert (Hin : forall o, In o full <-> In o coll /\ matches f o = true).
  { intros o. rewrite <- filter_In. split; apply Permutation_in.
    - apply sort_desc_perm.
    - apply Permutation_sym, sort_desc_perm. }
  assert (Hlen : List.length full = List.length (filter (matches f) coll)).
  { apply Permutation_length, sort_desc_perm. }
  assert (Hsorted : newest_first full) by apply sort_desc_sorted.
  unfold find_sorted, limit. fold full.
  destruct (Z.eq_dec k 0) as [->|Hk].
  - exists full. repeat split; try tauto.
    + apply Hin; assumption.
    + apply Hin; assumption.
    + left. apply Hin. tauto.
    + intros _ o Ho Hm. apply Hin. tauto.
  - set (n := Z.to_nat (Z.abs k)).
    exists (firstn n full).
    assert (Hsplit : full = (firstn n full ++ skipn n full)%list)
      by (symmetry; apply firstn_skipn).
    rewrite Hsplit in Hsorted.
    destruct (newest_first_app _ _ Hsorted) as [Hs1 Hs2].
    split; [now destruct k|].
    split; [exact Hs1|].
    split; [intros o Ho; apply Hin; rewrite Hsplit; apply in_or_app; now left|].
    split.
    { intros o Ho Hm. assert (Hf : In o full) by (apply Hin; tauto).
      rewrite Hsplit in Hf. apply in_app_or in Hf.
      destruct Hf as [Hf|Hf]; [now left|right].
      intros o' Ho'. now apply Hs2. }
    split.
    { intros [H0|Hle] o Ho Hm; [contradiction|].
      rewrite firstn_all2; [apply Hin; tauto|]. rewrite Hlen. exact Hle. }
    intros _. apply firstn_le_length.
Qed.

(** *** Matching on a top-level field *)

Lemma candidates_campusId d :
  candidates "campusId" d
  = match lookup "campusId" d with Some x => [x] | None => [] end.
Proof. reflexivity. Qed.

(** On a document whose field is not an array, the filter [{k: c}] for a
    string [c] selects the documents whose field is that string. *)
Lemma text_filter_spec k c o :
  k = "campusId" \/ k = "status" ->
  isArray (get (fields o) k) = false ->
  field_matches k (JStr c) (fields o) = has_text k c o.
Proof.
  intros Hk. unfold field_matches, has_text, get.
  assert (Hc : candidates k (fields o)
               = match lookup k (fields o) with Some x => [x] | None => [] end)
    by (destruct Hk as [->| ->]; reflexivity).
  rewrite Hc.
  destruct (lookup k (fields o)) as [x|]; cbn; [|reflexivity].
  intros Ha. rewrite !orb_false_r. unfold value_matches.
  destruct x; cbn in *; try reflexivity; try discriminate Ha;
    now rewrite orb_false_r.
Qed.

(** ** Listing orders *)

Lemma find_orders_run env f n s :
  find_orders env f n s
  = (if db_fault env (OpFind f n) then Thrown
     else match find_sorted f n (orders s) with
          | Some l => Next l
          | None => Thrown
          end,
     add_events s [EvDb (OpFind f n)]).
Proof.
  unfold find_orders, bind. rewrite db_op_run.
  destruct (db_fault env (OpFind f n)); [reflexivity|].
  cbn [add_events orders].
  now destruct (find_sorted f n (orders s)).
Qed.


Lemma has_role_role userProfile role :
  has_role userProfile role = true -> opt_prop userProfile "role" = JStr role.
Proof. unfold has_role. apply strict_eq_eq. Qed.

Lemma campus_admin_not_super userProfile :
  isCampusAdmin userProfile = true -> isSuperAdmin userProfile = false.
Proof.
  intros H. apply has_role_role in H.
  unfold isSuperAdmin, has_role. now rewrite H.
Qed.


Lemma has_text_spec k c o :
  has_text k c o = true <-> get (fields o) k = JStr c.
Proof.
  unfold has_text. destruct (get (fields o) k); try (split; discriminate).
  rewrite String.eqb_eq. split; congruence.
Qed.

(** Whatever the status parameter is, also an object that the server
    reads as query operators, the filter of a caller who is no super
    admin selects orders of the caller's campus only. *)
Lemma list_filter_campus env userProfile status c o :
  isSuperAdmin userProfile = false ->
  opt_prop userProfile "campusId" = JStr c ->
  isArray (get (fields o) "campusId") = false ->
  matches (list_filter env userProfile status) o = true ->
  campus_is c o.
Proof.
  intros Hs Hc Ha Hm. unfold list_filter in Hm. rewrite Hs, Hc in Hm.
  assert (H : matches (FField "campusId" (JStr c)) o = true).
  { destruct (truthy status); cbn [app matches forallb] in Hm;
      apply andb_true_iff in Hm; tauto. }
  cbn [matches] in H.
  rewrite (text_filter_spec "campusId" c o) in H by (auto; now left).
  now apply has_text_spec.
Qed.

(** A list that list-orders answers is made of stored orders that its
    filter selects. *)
Lemma get_orders_answer env req user userProfile s l :
  fst (run (get_orders env req user userProfile) s)
  = Some (mkResponse 200 (POrders l)) ->
  forall o, In o l ->
    In o (orders s)
    /\ matches (list_filter env userProfile (query_status req)) o = true.
Proof.
  unfold run, get_orders, try_catch, bind, getDb.
  rewrite db_op_run.
  destruct (db_fault env OpConnect); [discriminate|].
  rewrite find_orders_run.
  destruct (db_fault env _); [discriminate|].
  cbn [add_events orders].
  destruct (find_sorted _ _ _) as [l'|] eqn:E; [|discriminate].
  cbn [fst ret]. intros H. injection H as <-.
  destruct (to_number (or_default 50 (query_limit req)))
    as [| | |k| | | | |] eqn:En;
    try (unfold find_sorted, limit in E; discriminate E).
  destruct (find_sorted_spec
              (list_filter env userProfile (query_status req)) k (orders s))
    as [l'' [Hl [_ [Hin _]]]].
  rewrite E in Hl. injection Hl as <-. exact Hin.
Qed.


(** ** Roles and the middlewares *)




(** A handler under [try_catch] always answers, and so does every
    endpoint: no exception escapes. *)
Lemma try_catch_responds code msg h s :
  fst (run (try_catch code msg h) s) <> None.
Proof.
  unfold run, try_catch. destruct (h s) as [[r|r|] s']; discriminate.
Qed.

Lemma verifyFirebaseToken_cases env req s :
  (exists user, verifyFirebaseToken env req s = (Next user, s))
  \/ exists r, verifyFirebaseToken env req s = (Sent r, s).
Proof.
  unfold verifyFirebaseToken, send_error, ret.
  destruct (String.eqb _ ""); [right; now eexists|].
  destruct (verifyIdToken env _) as [[u email]|];
    [left|right]; now eexists.
Qed.

Lemma loadUserProfile_cases env user s :
  (exists userProfile, loadUserProfile env user s = (Next userProfile, s))
  \/ exists r, loadUserProfile env user s = (Sent r, s).
Proof.
  unfold loadUserProfile, send_error, ret.
  destruct (firestore env) as [users|]; [|right; now eexists].
  destruct (users (uid user)) as [| |userProfile];
    try (right; now eexists).
  destruct (recognized_role userProfile); [left|right]; now eexists.
Qed.

Lemma route_responds env handler req s :
  (forall user userProfile s',
      fst (run (handler req user userProfile) s') <> None) ->
  fst (run (route env handler req) s) <> None.
Proof.
  intros H. unfold route, run, bind.
  destruct (verifyFirebaseToken_cases env req s) as [[user ->]|[r ->]];
    [|discriminate].
  destruct (loadUserProfile_cases env user s) as [[userProfile ->]|[r ->]];
    [|discriminate].
  apply H.
Qed.

Lemma endpoints_respond env req s :
  fst (run (POST_api_orders env req) s) <> None
  /\ fst (run (GET_api_orders env req) s) <> None
  /\ fst (run (PATCH_api_orders_id env req) s) <> None
  /\ fst (run (GET_api_orders_restaurant env req) s) <> None.
Proof.
  repeat split; apply route_responds; intros; apply try_catch_responds.
Qed.

(** ** Updating the status of an order *)

Lemma update_status_run env f v s :
  update_status env f v s
  = (if db_fault env (OpUpdateOne f "status" v) then Thrown
     else Next (snd (updateOne f "status" (bson_value v) (orders s))),
     if db_fault env (OpUpdateOne f "status" v)
     then add_events s [EvDb (OpUpdateOne f "status" v)]
     else mkState (fst (updateOne f "status" (bson_value v) (orders s)))
                  (restaurants s)
                  (trace s ++ [EvDb (OpUpdateOne f "status" v)])).
Proof.
  unfold update_status, bind. rewrite db_op_run.
  destruct (db_fault env _); [reflexivity|].
  cbn [add_events orders restaurants trace].
  now destruct (updateOne f "status" (bson_value v) (orders s)).
Qed.

Lemma find_order_run env f s :
  find_order env f s
  = (if db_fault env (OpFindOne f) then Thrown
     else Next (findOne f (orders s)),
     add_events s [EvDb (OpFindOne f)]).
Proof.
  unfold find_order, bind. rewrite db_op_run.
  now destruct (db_fault env _).
Qed.

Lemma updateOne_no_match f k v coll :
  (forall o, In o coll -> matches f o = false) ->
  updateOne f k v coll = (coll, O).
Proof.
  induction coll as [|o r IH]; intros H; cbn; [reflexivity|].
  rewrite (H o (or_introl eq_refl)).
  rewrite IH; [reflexivity|]. intros x Hx. apply H. now right.
Qed.

(** The first matching document, and what [updateOne] and a following
    [findOne] do with it when the update keeps it matching. *)
Lemma updateOne_first_match f k v coll o :
  In o coll -> matches f o = true ->
  (forall x, matches f (set_field k v x) = matches f x) ->
  exists pre x post,
    coll = (pre ++ x :: post)%list
    /\ (forall y, In y pre -> matches f y = false)
    /\ matches f x = true
    /\ updateOne f k v coll = ((pre ++ set_field k v x :: post)%list, 1%nat)
    /\ findOne f (pre ++ set_field k v x :: post)%list = Some (set_field k v x).
Proof.
  intros Hin Hm Hkeep. unfold findOne.
  induction coll as [|a r IH]; [destruct Hin|].
  destruct (matches f a) eqn:Ea.
  - exists [], a, r. cbn. rewrite Ea, Hkeep, Ea. repeat split; tauto.
  - destruct Hin as [->|Hin]; [congruence|].
    destruct (IH Hin) as [pre [x [post [Hc [Hpre [Hx [Hu Hf]]]]]]].
    exists (a :: pre), x, post. cbn. rewrite Ea, Hu, Hf, Hc.
    repeat split; try tauto.
    intros y [<-|Hy]; [exact Ea|now apply Hpre].
Qed.

Lemma lookup_set_other k k' v d :
  String.eqb k k' = false -> lookup k (set k' v d) = lookup k d.
Proof.
  intros Hk. induction d as [|[a x] d IH]; cbn.
  - now rewrite Hk.
  - destruct (String.eqb k' a) eqn:E; cbn.
    + apply String.eqb_eq in E. subst a. now rewrite Hk.
    + now rewrite IH.
Qed.

Lemma lookup_set_same k v d : lookup k (set k v d) = Some v.
Proof.
  induction d as [|[a x] d IH]; cbn.
  - now rewrite String.eqb_refl.
  - destruct (String.eqb k a) eqn:E; cbn.
    + now rewrite String.eqb_refl.
    + now rewrite E.
Qed.

Lemma candidates_cartItems d :
  candidates "cartItems.restaurantId" d
  = match lookup "cartItems" d with
    | Some x => resolve ["restaurantId"] x
    | None => []
    end.
Proof. reflexivity. Qed.

(** Setting the status does not move a document in or out of the
    filters of the status update. *)
Lemma campus_filter_keeps ids q v o :
  matches (FAll [FOr (map FId ids); FField "campusId" q])
          (set_field "status" v o)
  = matches (FAll [FOr (map FId ids); FField "campusId" q]) o.
Proof.
  cbn [matches forallb]. f_equal.
  - induction ids as [|d ids IH]; cbn; [reflexivity|]. now rewrite IH.
  - f_equal. unfold field_matches. rewrite !candidates_campusId.
    cbn [set_field fields]. now rewrite lookup_set_other.
Qed.

Lemma id_filters_map id :
  id_filters id
  = map FId (match ObjectId id with Some d => [d] | None => [] end
             ++ [Sid id])%list.
Proof. unfold id_filters. now destruct (ObjectId id). Qed.

Lemma docid_eqb_eq a b : docid_eqb a b = true <-> a = b.
Proof.
  destruct a as [x|x], b as [y|y]; cbn; rewrite ?String.eqb_eq;
    split; intros H; try discriminate H; congruence.
Qed.

(** The dual-identifier part of the filter matches exactly the documents
    the request identifier denotes. *)
Lemma id_filters_denotes id o :
  matches (FOr (id_filters id)) o = true <-> id_denotes id (_id o).
Proof.
  unfold id_filters, id_denotes.
  destruct (ObjectId id) as [d|]; cbn [app matches existsb].
  - rewrite orb_false_r, orb_true_iff, !docid_eqb_eq.
    split; (intros [H|H]; [right|left]; congruence).
  - rewrite orb_false_r, docid_eqb_eq.
    split; [intros H; left; congruence|].
    intros [H|H]; [congruence|discriminate].
Qed.

Lemma role_unique userProfile r1 r2 :
  has_role userProfile r1 = true -> String.eqb r2 r1 = false ->
  has_role userProfile r2 = false.
Proof.
  intros H E. apply has_role_role in H. unfold has_role. rewrite H. cbn.
  now rewrite String.eqb_sym.
Qed.

(** The status update of a caller whose filter is [f], once the guards
    are passed. *)
Lemma patch_order_with_filter env req user userProfile s f :
  no_fault env ->
  isSuperAdmin userProfile = false ->
  truthy (requested_status req) = true ->
  (if isCampusAdmin userProfile
   then f = FAll [FOr (id_filters (param req));
                  FField "campusId" (opt_prop userProfile "campusId")]
   else isRestaurantManager userProfile = true
        /\ f = FAll [FOr (id_filters (param req));
                     FField "cartItems.restaurantId"
                            (opt_prop userProfile "restaurantId")]) ->
  let upd := updateOne f "status" (requested_status req) (orders s) in
  fst (run (patch_order env req user userProfile) s)
  = (if Nat.eqb (snd upd) 0 then failure 404 "Order not found"
     else match findOne f (fst upd) with
          | Some d => Some (mkResponse 200 (POrder d))
          | None => failure 404 "Order not found after update"
          end)
  /\ orders (snd (run (patch_order env req user userProfile) s)) = fst upd.
Proof.
  intros Hf Hs Ht Hfilter upd. subst upd.
  unfold run, patch_order, try_catch, bind, getDb.
  rewrite Hs, db_op_run, Hf.
  fold (request_body req). fold (requested_status req). rewrite Ht.
  cbn [negb].
  assert (Hb : bson_value (requested_status req) = requested_status req)
    by now apply bson_value_truthy.
  destruct (isCampusAdmin userProfile).
  - subst f. unfold ret. rewrite update_status_run, Hf, Hb.
    destruct (updateOne _ _ _ _) as [coll n]. cbn [fst snd].
    destruct (Nat.eqb n 0); [split; reflexivity|].
    rewrite find_order_run, Hf. cbn [add_events orders].
    destruct (findOne _ coll); split; reflexivity.
  - destruct Hfilter as [Hm ->]. rewrite Hm.
    unfold ret. rewrite update_status_run, Hf, Hb.
    destruct (updateOne _ _ _ _) as [coll n]. cbn [fst snd].
    destruct (Nat.eqb n 0); [split; reflexivity|].
    rewrite find_order_run, Hf. cbn [add_events orders].
    destruct (findOne _ coll); split; reflexivity.
Qed.

Lemma campus_update_filter_matches userProfile id o :
  matches (FAll [FOr (id_filters id);
                 FField "campusId" (opt_prop userProfile "campusId")]) o = true
  <-> id_denotes id (_id o) /\ in_campus_of userProfile o.
Proof.
  change (matches (FAll [FOr (id_filters id);
                         FField "campusId" (opt_prop userProfile "campusId")]) o)
    with (matches (FOr (id_filters id)) o
          && (field_matches "campusId" (opt_prop userProfile "campusId")
                            (fields o) && true))%bool.
  rewrite andb_true_r, andb_true_iff, id_filters_denotes. reflexivity.
Qed.

Lemma update_filter_needs_id id scope o :
  ~ id_denotes id (_id o) ->
  matches (FAll [FOr (id_filters id); scope]) o = false.
Proof.
  intros H.
  change (matches (FAll [FOr (id_filters id); scope]) o)
    with (matches (FOr (id_filters id)) o && (matches scope o && true))%bool.
  destruct (matches (FOr (id_filters id)) o) eqn:E; [|reflexivity].
  apply id_filters_denotes in E. contradiction.
Qed.

(** ** The filter of a restaurant manager *)

Lemma resolve_scalar k x : scalar x = true -> resolve [k] x = [].
Proof. now destruct x. Qed.

(** On a document whose [cartItems] field is a string (or any value that
    is not an array or object) the manager's filter on
    [cartItems.restaurantId] selects nothing. *)
Lemma manager_filter_no_match q d :
  nullish q = false ->
  scalar (get d "cartItems") = true ->
  field_matches "cartItems.restaurantId" q d = false.
Proof.
  intros Hq Hs. unfold field_matches, get in *. rewrite candidates_cartItems.
  destruct (lookup "cartItems" d) as [x|].
  - rewrite (resolve_scalar _ _ Hs). cbn. now rewrite Hq.
  - cbn. now rewrite Hq.
Qed.

(** ** The restaurant listing *)

Lemma find_restaurant_by_run env ids s :
  find_restaurant_by env ids s
  = (if db_fault env (OpFindRestaurant ids) then Thrown
     else Next (find_restaurant ids (restaurants s)),
     add_events s [EvDb (OpFindRestaurant ids)]).
Proof.
  unfold find_restaurant_by, bind. rewrite db_op_run.
  now destruct (db_fault env _).
Qed.

Lemma item_of_restaurant_some rid rname item :
  nullish item = false ->
  item_of_restaurant rid rname item = Some (belongs_to rid rname item).
Proof. now destruct item. Qed.

Lemma item_of_restaurant_none rid rname item :
  nullish item = true -> item_of_restaurant rid rname item = None.
Proof. now destruct item. Qed.

(** The callback filter succeeds exactly on lists without [null], and
    then keeps the items that belong to the restaurant. *)
Lemma filter_items_spec rid rname l :
  filter_items (item_of_restaurant rid rname) l
  = if forallb (fun item => negb (nullish item)) l
    then Some (filter (belongs_to rid rname) l) else None.
Proof.
  induction l as [|x r IH]; cbn [filter_items forallb filter];
    [reflexivity|].
  destruct (nullish x) eqn:Hx; cbn [negb andb].
  - now rewrite item_of_restaurant_none.
  - rewrite (item_of_restaurant_some _ _ _ Hx), IH.
    destruct (forallb _ r); destruct (belongs_to rid rname x); reflexivity.
Qed.







Lemma get_set_same k v d : get (set k v d) k = v.
Proof. unfold get. now rewrite lookup_set_same. Qed.

Lemma get_set_other k k' v d :
  String.eqb k k' = false -> get (set k' v d) k = get d k.
Proof. intros H. unfold get. now rewrite lookup_set_other. Qed.


Lemma map_views_spec f l :
  (Forall (fun o => exists v, f o = Some v) l -> exists vs, map_views f l = Some vs)
  /\ forall vs, map_views f l = Some vs ->
       (forall o, In o l -> exists v, f o = Some v /\ In v vs)
       /\ (forall v, In v vs -> exists o, In o l /\ f o = Some v).
Proof.
  induction l as [|o r [IH1 IH2]]; cbn.
  - split; [intros _; now eexists|].
    intros vs [= <-]. split; intros ? [].
  - split.
    + intros H. inversion H as [|? ? [v Hv] Hr]; subst.
      destruct (IH1 Hr) as [vs Hvs]. rewrite Hv, Hvs. now eexists.
    + intros vs. destruct (f o) as [v|] eqn:Efo; [|discriminate].
      destruct (map_views f r) as [vs'|]; [|discriminate].
      intros [= <-]. destruct (IH2 vs' eq_refl) as [Ha Hb]. split.
      * intros o' [<-|Ho'].
        -- exists v. split; [exact Efo|now left].
        -- destruct (Ha o' Ho') as [v' [H1 H2]]. exists v'.
           split; [exact H1|now right].
      * intros v' [<-|Hv'].
        -- exists o. split; [now left|exact Efo].
        -- destruct (Hb v' Hv') as [o' [H1 H2]]. exists o'.
           split; [now right|exact H2].
Qed.

(** The restaurant listing of the manager of an existing restaurant, as
    the query and the views it is made of. *)
Lemma restaurant_orders_run env req user userProfile s r k :
  no_fault env ->
  isRestaurantManager userProfile = true ->
  opt_prop userProfile "restaurantId" = JStr (param req) ->
  restaurant_of s (param req) = Some r ->
  requested_limit 1000 req = JNum k ->
  let rname := get (restaurant_fields r) "name" in
  exists l,
    find_sorted (restaurant_filter (param req) rname) (JNum k) (orders s)
    = Some l
    /\ fst (run (restaurant_orders env req user userProfile) s)
       = match map_views (restaurant_view (param req) rname) l with
         | Some vs => Some (mkResponse 200 (POrders vs))
         | None => failure 500 "Failed to fetch orders"
         end.
Proof.
  intros Hf Hm Hid Hr Hk rname.
  destruct (find_sorted_spec (restaurant_filter (param req) rname) k (orders s))
    as [l [Hl _]].
  exists l. split; [exact Hl|].
  unfold run, restaurant_orders, try_catch, bind, getDb.
  rewrite Hm, Hid. cbn [negb strict_eq]. rewrite String.eqb_refl.
  cbn [negb]. rewrite db_op_run, Hf, find_restaurant_by_run, Hf.
  cbn [add_events restaurants].
  unfold restaurant_of in Hr. rewrite Hr.
  rewrite find_orders_run, Hf. cbn [add_events orders].
  fold rname. fold (requested_limit 1000 req). rewrite Hk, Hl.
  unfold ret.
  now destruct (map_views (restaurant_view (param req) rname) l).
Qed.

Lemma candidates_cartItemsArray d :
  candidates "cartItemsArray.restaurantId" d
  = match lookup "cartItemsArray" d with
    | Some x => resolve ["restaurantId"] x
    | None => []
    end.
Proof. reflexivity. Qed.

(** An order with a line item that carries the restaurant identifier is
    selected by the filter of the listing. *)
Lemma restaurant_filter_selects rid rname o items item :
  get (fields o) "cartItemsArray" = JArr items ->
  In item items ->
  carries rid item ->
  matches (restaurant_filter rid rname) o = true.
Proof.
  intros Hc Hi Hcar. unfold restaurant_filter. cbn [matches existsb].
  apply orb_true_iff. left. unfold field_matches.
  rewrite candidates_cartItemsArray. unfold get in Hc.
  destruct (lookup "cartItemsArray" (fields o)) as [x|]; [|discriminate].
  subst x. apply orb_true_iff. left. apply existsb_exists.
  exists (JStr rid). split.
  - cbn [resolve]. apply in_flat_map. exists item. split; [exact Hi|].
    unfold carries, prop in Hcar.
    destruct item as [| | | | | | | |d]; try discriminate Hcar.
    injection Hcar as Hg. unfold get in Hg.
    destruct (lookup "restaurantId" d) as [y|]; [|discriminate].
    subst y. now left.
  - unfold value_matches. cbn. now rewrite String.eqb_refl.
Qed.

Lemma orderDoc_cartItemsArray env b user userProfile :
  get (bson_doc (orderDoc env b user userProfile)) "cartItemsArray"
  = if isArray (opt_prop b "cartItems") then opt_prop b "cartItems"
    else JArr [].
Proof.
  unfold get.
  change (lookup "cartItemsArray" (bson_doc (orderDoc env b user userProfile)))
    with (Some (bson_value (if isArray (opt_prop b "cartItems")
                            then opt_prop b "cartItems" else JArr []))).
  now destruct (opt_prop b "cartItems").
Qed.

(** An accepted order creation appends one document to the store. *)
Lemma post_orders_created env req user userProfile s id :
  fst (run (post_orders env req user userProfile) s)
  = Some (mkResponse 201 (PInserted id)) ->
  snd (run (post_orders env req user userProfile) s)
  = mkState (orders s
             ++ [mkOrder id (now env)
                   (bson_doc (orderDoc env (request_body req) user userProfile))])
            (restaurants s)
            (trace (snd (run (post_orders env req user userProfile) s))).
Proof.
  rewrite post_orders_run. unfold post_orders_outcome, failure.
  case_tests; cbn [fst snd]; try discriminate.
  intros H. injection H as <-. reflexivity.
Qed.


(** ** The middlewares in front of every handler *)

Lemma substring_all s : substring 0 (String.length s) s = s.
Proof. induction s as [|c s IH]; cbn; [reflexivity|now rewrite IH]. Qed.

Lemma prefix_split p h :
  String.prefix p h = true ->
  h = (p ++ substring (String.length p) (String.length h - String.length p) h)%string.
Proof.
  revert h. induction p as [|a p IH]; intros h H.
  - cbn. now rewrite Nat.sub_0_r, substring_all.
  - destruct h as [|b h]; [discriminate|]. cbn in H.
    destruct (ascii_dec a b) as [->|]; [|discriminate].
    cbn. f_equal. now apply IH.
Qed.

Lemma prefix_app p t : String.prefix p (p ++ t) = true.
Proof.
  induction p as [|a p IH]; cbn; [now destruct t|].
  destruct (ascii_dec a a); [exact IH|contradiction].
Qed.

Lemma substring_app p t :
  substring (String.length p) (String.length (p ++ t) - String.length p) (p ++ t)
  = t.
Proof.
  induction p as [|a p IH]; cbn.
  - now rewrite Nat.sub_0_r, substring_all.
  - exact IH.
Qed.

(** The token [verifyFirebaseToken] reads from the request: the rest of
    the Authorization header after [Bearer ]. *)
Lemma bearer_token env req token s :
  authorization req = Some ("Bearer " ++ token)%string ->
  verifyFirebaseToken env req s
  = if String.eqb token ""
    then (Sent (mkResponse 401 (PError "Missing Authorization Bearer token")), s)
    else match verifyIdToken env token with
         | Some (u, email) => (Next (mkUser u (or_else email JNull)), s)
         | None => (Sent (mkResponse 401 (PError "Invalid or expired token")), s)
         end.
Proof.
  intros H. unfold verifyFirebaseToken, starts_with. rewrite H.
  rewrite prefix_app.
  change 7%nat with (String.length "Bearer ").
  rewrite substring_app.
  destruct (String.eqb token ""); [reflexivity|].
  now destruct (verifyIdToken env token) as [[u email]|].
Qed.

Lemma no_bearer_token env req s :
  (forall token, authorization req <> Some ("Bearer " ++ token)%string) ->
  verifyFirebaseToken env req s
  = (Sent (mkResponse 401 (PError "Missing Authorization Bearer token")), s).
Proof.
  intros H. unfold verifyFirebaseToken, starts_with.
  destruct (authorization req) as [h|]; [|reflexivity].
  destruct (String.prefix "Bearer " h) eqn:E; [|reflexivity].
  apply prefix_split in E. exfalso.
  apply (H (substring (String.length "Bearer ")
              (String.length h - String.length "Bearer ") h)).
  f_equal. exact E.
Qed.

(** A request is authenticated exactly when the token check hands it on,
    and then it is handed on with the user of the token. *)
Lemma authenticated_verify env req user s :
  authenticated env req user ->
  verifyFirebaseToken env req s = (Next user, s).
Proof.
  intros [token [email [Ha [Hne [Hv He]]]]].
  rewrite (bearer_token env req token s Ha).
  apply String.eqb_neq in Hne. rewrite Hne, Hv.
  destruct user as [u e]. cbn in He. now subst e.
Qed.

(** The token check lets the request through with the user whose token
    the request carries, or answers 401; the state is untouched. *)
Lemma verify_outcomes env req s :
  (exists user, authenticated env req user
                /\ verifyFirebaseToken env req s = (Next user, s))
  \/ exists msg, verifyFirebaseToken env req s
                 = (Sent (mkResponse 401 (PError msg)), s).
Proof.
  destruct (authorization req) as [h|] eqn:Eh.
  2:{ right. eexists. apply no_bearer_token. intros t Ht.
      rewrite Eh in Ht. discriminate. }
  destruct (String.prefix "Bearer " h) eqn:E.
  - apply prefix_split in E.
    set (t := substring (String.length "Bearer ")
                (String.length h - String.length "Bearer ") h) in E.
    assert (Ha : authorization req = Some ("Bearer " ++ t)%string)
      by (rewrite Eh; now f_equal).
    rewrite (bearer_token env req t s Ha).
    destruct (String.eqb t "") eqn:Et; [right; now eexists|].
    apply String.eqb_neq in Et.
    destruct (verifyIdToken env t) as [[u email]|] eqn:Ev;
      [left|right; now eexists].
    exists (mkUser u (or_else email JNull)). split; [|reflexivity].
    exists t, email. auto.
  - right. eexists. apply no_bearer_token. intros t Ht.
    rewrite Eh in Ht. injection Ht as Ht.
    pose proof (prefix_app "Bearer " t) as E'.
    change ("Bearer " ++ t)%string
      with (String "B" (String "e" (String "a" (String "r" (String "e"
             (String "r" (String " " t))))))) in E'.
    congruence.
Qed.

(** The profile check lets the request through with the stored profile,
    whose role is a recognized one, or answers 403 or 500; the state is
    untouched. *)
Lemma profile_outcomes env user s :
  (exists userProfile users,
      firestore env = Some users
      /\ users (uid user) = FsData userProfile
      /\ recognized_role userProfile = true
      /\ loadUserProfile env user s = (Next userProfile, s))
  \/ exists r, loadUserProfile env user s = (Sent r, s)
               /\ In (status_code r) [403; 500].
Proof.
  unfold loadUserProfile, send_error, ret.
  destruct (firestore env) as [users|].
  2:{ right. eexists. split; [reflexivity|]. cbn. auto. }
  destruct (users (uid user)) as [| |userProfile] eqn:Hu.
  1,2: right; eexists; (split; [reflexivity|]); cbn; auto.
  destruct (recognized_role userProfile) eqn:Hr; cbn [negb].
  - left. exists userProfile, users. auto.
  - right. eexists. split; [reflexivity|]. cbn. auto.
Qed.

(** The three ways a request leaves the middlewares: answered 401,
    answered 403 or 500 for want of a usable profile, or handed to the
    handler with the user whose token it carries and the profile stored
    for that user, whose role is a recognized one. *)
Lemma route_cases env handler req s :
  (exists r, run (route env handler req) s = (Some r, s)
             /\ In (status_code r) [401; 403; 500])
  \/ exists user userProfile users,
       authenticated env req user
       /\ firestore env = Some users
       /\ users (uid user) = FsData userProfile
       /\ recognized_role userProfile = true
       /\ run (route env handler req) s = run (handler req user userProfile) s.
Proof.
  unfold route, run, bind.
  destruct (verify_outcomes env req s) as [[user [Ha ->]]|[msg ->]].
  2:{ left. eexists. split; [reflexivity|]. cbn. auto. }
  destruct (profile_outcomes env user s)
    as [[userProfile [users [Hf [Hu [Hr ->]]]]]|[r [-> Hc]]].
  - right. exists user, userProfile, users. auto.
  - left. exists r. split; [reflexivity|]. cbn in *. tauto.
Qed.

(** The role of a profile that passed the profile check. *)
Lemma recognized_role_In userProfile :
  recognized_role userProfile = true ->
  In (opt_prop userProfile "role")
     [JStr "user"; JStr "campusAdmin"; JStr "superAdmin";
      JStr "restaurantManager"].
Proof.
  intros Hr. unfold recognized_role in Hr.
  repeat (apply orb_true_iff in Hr; destruct Hr as [Hr|Hr]);
    apply has_role_role in Hr; rewrite Hr; cbn; auto.
Qed.


(** ** The restaurant a request stands for *)





(** Beyond 2^53 the total of the handler is the rounded one: a line of
    2^53 and a line of 1 add up to 2^53. *)
Lemma items_total_rounded :
  let line (p : Z) := JObj [("price", JNum p); ("quantity", JNum 1)] in
  items_total [line (2 ^ 53); line 1] = JNum (2 ^ 53)
  /\ sum_line_totals [line (2 ^ 53); line 1] = 2 ^ 53 + 1.
Proof. split; reflexivity. Qed.

(** * The claims *)

(** ** C1: campus enforcement at order creation *)

(** C1, as stated, fails: a request for another campus that also carries
    a verification token the service refuses is answered 400 by the
    human-verification gate, which runs before the campus check; it is
    not answered 403. *)
Lemma C1_counterexample :
  (campus_denied Samples.student
     (request_body Samples.req_other_campus_with_token) = true
   /\ fst (run (post_orders Samples.env_captcha
                  Samples.req_other_campus_with_token Samples.alice
                  Samples.student) Samples.empty_store)
      = failure 400 "reCAPTCHA verification failed")
  /\ ~ (forall env req user userProfile s,
          campus_denied userProfile (request_body req) = true ->
          status_of (run (post_orders env req user userProfile) s) = Some 403).
Proof.
  split; [repeat split; reflexivity|].
  intros H.
  specialize (H Samples.env_captcha Samples.req_other_campus_with_token
                Samples.alice Samples.student Samples.empty_store
                eq_refl).
  vm_compute in H. discriminate H.
Qed.

(** C1 (amended): when the campus check fails (the profile has no
    assigned campus id, or the request's campusId is absent or differs
    from it) no order document is inserted, and the answer is 403
    whenever the request reaches the campus check, that is when the
    store is reachable and human verification is skipped or passes;
    every order document the endpoint inserts carries the campusId of
    the submitting profile. *)
Theorem C1_campus_enforced env req user userProfile s :
  let b := request_body req in
  let out := run (post_orders env req user userProfile) s in
  (campus_denied userProfile b = true ->
     orders (snd out) = orders s
     /\ (db_fault env OpConnect = false ->
         gate_open env (opt_prop b "recaptchaToken") = true ->
         status_of out = Some 403))
  /\ (orders (snd out) = orders s
      \/ exists o,
           orders (snd out) = (orders s ++ [o])%list
           /\ get (fields o) "campusId" = opt_prop userProfile "campusId"
           /\ truthy (opt_prop userProfile "campusId") = true).
Proof.
  intros b out. subst out. rewrite post_orders_run.
  unfold post_orders_outcome. fold b.
  destruct (db_fault env OpConnect) eqn:Hc.
  { split; [intros _; split; [reflexivity|discriminate]|now left]. }
  destruct (gate_open env (opt_prop b "recaptchaToken")) eqn:Hg; cbn [negb].
  2:{ split; [intros _; split; [reflexivity|discriminate]|now left]. }
  destruct (truthy (opt_prop userProfile "campusId")) eqn:Ha; cbn [negb].
  2:{ split; [intros _; split; [reflexivity|reflexivity]|now left]. }
  destruct (campus_denied userProfile b) eqn:Hd.
  { split; [intros _; split; [reflexivity|reflexivity]|now left]. }
  split; [discriminate|].
  destruct (missing_required b); [now left|].
  destruct (db_fault env _ || existsb _ (orders s))%bool; [now left|].
  right. eexists. split; [reflexivity|]. split; [|reflexivity].
  cbn [fields]. unfold get. rewrite orderDoc_campusId.
  unfold campus_denied in Hd. rewrite Ha in Hd. cbn [negb orb] in Hd.
  destruct (truthy (opt_prop b "campusId")) eqn:Hb; [|discriminate].
  destruct (strict_eq (opt_prop b "campusId") (opt_prop userProfile "campusId"))
    eqn:He; [|discriminate].
  rewrite (bson_value_truthy _ Hb). now apply strict_eq_eq.
Qed.

(** A request for another campus with no verification token: 403, and
    the store keeps its orders. *)
Lemma C1_witness :
  campus_denied Samples.student (request_body Samples.req_other_campus) = true
  /\ orders (snd (run (post_orders Samples.env_captcha Samples.req_other_campus
                         Samples.alice Samples.student) Samples.store_one))
     = orders Samples.store_one
  /\ status_of (run (post_orders Samples.env_captcha Samples.req_other_campus
                       Samples.alice Samples.student) Samples.store_one)
     = Some 403.
Proof.
  split; [reflexivity|].
  destruct (C1_campus_enforced Samples.env_captcha Samples.req_other_campus
              Samples.alice Samples.student Samples.store_one) as [H _].
  destruct (H eq_refl) as [H1 H2].
  split; [exact H1|]. apply H2; reflexivity.
Defined.

(** ** C2: super admins never update an order *)

(** C2: a status update by a superAdmin profile is answered 403 and
    leaves the whole state as it was: no order changes and nothing is
    asked of the database, whatever the identifier and the store. *)
Theorem C2_super_admin_denied env req user userProfile s :
  isSuperAdmin userProfile = true ->
  run (patch_order env req user userProfile) s
  = (failure 403
       "Super admins cannot update order status. Only campus admins and restaurant managers can update orders.",
     s).
Proof.
  intros H. unfold run, patch_order, try_catch. now rewrite H.
Qed.

Lemma C2_witness :
  isSuperAdmin Samples.super_admin = true
  /\ run (patch_order Samples.env_plain
            (Samples.patch_request "legacy-1" (JStr "accepted"))
            Samples.alice Samples.super_admin) Samples.store_three
     = (failure 403
          "Super admins cannot update order status. Only campus admins and restaurant managers can update orders.",
        Samples.store_three).
Proof.
  split; [reflexivity|].
  apply (C2_super_admin_denied Samples.env_plain
           (Samples.patch_request "legacy-1" (JStr "accepted"))
           Samples.alice Samples.super_admin Samples.store_three).
  reflexivity.
Defined.

(** ** C3: status update by a restaurant manager *)

(** C3 (the code at the failing inputs): with no storage fault, a status
    update that carries a status and is made by a restaurant manager with
    an assigned restaurant id is answered 404 and changes nothing, on
    every store whose orders keep [cartItems] as a string, the form in
    which order creation writes it, whatever line items the orders hold
    in [cartItemsArray]: the filter of the manager tests
    [cartItems.restaurantId], not [cartItemsArray.restaurantId]. *)
Theorem C3_manager_update_not_found env req user userProfile s :
  no_fault env ->
  isRestaurantManager userProfile = true ->
  truthy (requested_status req) = true ->
  assigned (opt_prop userProfile "restaurantId") = true ->
  Forall (fun o => scalar (get (fields o) "cartItems") = true) (orders s) ->
  fst (run (patch_order env req user userProfile) s)
  = failure 404 "Order not found"
  /\ orders (snd (run (patch_order env req user userProfile) s)) = orders s.
Proof.
  intros Hf Hm Ht Hq Hsc. rewrite Forall_forall in Hsc.
  apply andb_true_iff in Hq. destruct Hq as [_ Hq].
  apply negb_true_iff in Hq.
  pose proof (role_unique _ _ "campusAdmin" Hm eq_refl) as Hc.
  pose proof (role_unique _ _ "superAdmin" Hm eq_refl) as Hs.
  destruct (patch_order_with_filter env req user userProfile s
              (FAll [FOr (id_filters (param req));
                     FField "cartItems.restaurantId"
                            (opt_prop userProfile "restaurantId")])
              Hf Hs Ht) as [Hr Hst].
  { unfold isCampusAdmin. rewrite Hc. now split. }
  rewrite updateOne_no_match in Hr, Hst.
  - now split.
  - intros o Ho. cbn [matches forallb].
    rewrite (manager_filter_no_match _ _ Hq (Hsc o Ho)).
    now rewrite andb_false_r.
  - intros o Ho. cbn [matches forallb].
    rewrite (manager_filter_no_match _ _ Hq (Hsc o Ho)).
    now rewrite andb_false_r.
Qed.

(** The failing input: the store holds one order, created through the
    endpoint with a structured cart whose first line item is of
    restaurant r1; the manager of r1 sends its identifier with the status
    accepted and is answered 404. *)
Lemma C3_witness :
  (exists o x items,
      orders Samples.store_one = [o]
      /\ id_denotes "507f1f77bcf86cd799439011" (_id o)
      /\ get (fields o) "cartItemsArray" = JArr (x :: items)
      /\ carries "r1" x)
  /\ fst (run (patch_order Samples.env_later
                 (Samples.patch_request "507f1f77bcf86cd799439011"
                                        (JStr "accepted"))
                 Samples.alice Samples.manager) Samples.store_one)
     = failure 404 "Order not found"
  /\ orders (snd (run (patch_order Samples.env_later
                         (Samples.patch_request "507f1f77bcf86cd799439011"
                                                (JStr "accepted"))
                         Samples.alice Samples.manager) Samples.store_one))
     = orders Samples.store_one.
Proof.
  split.
  - eexists. eexists. eexists. split; [reflexivity|].
    split; [right; reflexivity|]. split; reflexivity.
  - apply (C3_manager_update_not_found Samples.env_later
             (Samples.patch_request "507f1f77bcf86cd799439011" (JStr "accepted"))
             Samples.alice Samples.manager Samples.store_one).
    + intros op. reflexivity.
    + reflexivity.
    + reflexivity.
    + reflexivity.
    + repeat constructor.
Defined.

(** ** C4: the human-verification gate *)

(** C4, as stated, fails: with no secret configured a supplied token is
    not checked.  The service, which would have refused the token, is
    never called and the order is created. *)
Lemma C4_counterexample :
  (truthy (opt_prop (request_body Samples.req_order_with_token)
                    "recaptchaToken") = true
   /\ RECAPTCHA_SECRET_KEY Samples.env_plain = None
   /\ fst (run (post_orders Samples.env_plain Samples.req_order_with_token
                  Samples.alice Samples.student) Samples.empty_store)
      = Some (mkResponse 201 (PInserted (Oid "507f1f77bcf86cd799439011")))
   /\ site_verify_calls
        (trace (snd (run (post_orders Samples.env_plain
                            Samples.req_order_with_token Samples.alice
                            Samples.student) Samples.empty_store)))
      = [])
  /\ ~ (forall env req user userProfile s,
          no_fault env ->
          truthy (opt_prop (request_body req) "recaptchaToken") = true ->
          site_verify_calls
            (trace (snd (run (post_orders env req user userProfile) s)))
          <> []).
Proof.
  split; [repeat split; reflexivity|].
  intros H.
  apply (H Samples.env_plain Samples.req_order_with_token Samples.alice
           Samples.student Samples.empty_store).
  - intros op. reflexivity.
  - reflexivity.
  - reflexivity.
Qed.

(** C4 (amended): human verification is performed exactly when a token
    is supplied and a secret is configured, and skipped when either is
    missing.  When it is performed (the store being reachable) the
    service is called with the secret and the token, and a reply that is
    not a success, or a failed call, is answered 400 with no order
    inserted; when it is skipped the service is not called. *)
Theorem C4_verification_gate env req user userProfile s :
  let token := opt_prop (request_body req) "recaptchaToken" in
  let out := run (post_orders env req user userProfile) s in
  (forall secret,
      db_fault env OpConnect = false ->
      gate_consults env token = Some secret ->
      site_verify_calls (trace (snd out))
      = (site_verify_calls (trace s) ++ [EvSiteVerify secret token])%list
      /\ (gate_open env token = false ->
          fst out = failure 400 "reCAPTCHA verification failed"
          /\ orders (snd out) = orders s))
  /\ (gate_consults env token = None ->
      site_verify_calls (trace (snd out)) = site_verify_calls (trace s))
  /\ (gate_consults env token = None
      <-> truthy token = false
          \/ RECAPTCHA_SECRET_KEY env = None
          \/ RECAPTCHA_SECRET_KEY env = Some "").
Proof.
  intros token out. subst out. rewrite post_orders_run.
  unfold post_orders_outcome. fold token.
  split; [|split; [|apply gate_consults_none]].
  - intros secret Hc Hs. rewrite Hc.
    unfold gate_events. rewrite Hs.
    destruct (gate_open env token); cbn [negb].
    + split; [|discriminate].
      case_tests;
        cbn [snd add_events trace];
        repeat rewrite site_verify_calls_app; cbn;
        now rewrite ?app_nil_r.
    + cbn [snd fst add_events trace orders].
      repeat rewrite site_verify_calls_app. cbn. rewrite app_nil_r. auto.
  - intros Hs. unfold gate_events. rewrite Hs.
    case_tests;
      cbn [snd add_events trace];
      repeat rewrite site_verify_calls_app; cbn;
      now rewrite ?app_nil_r.
Qed.

(** With a secret configured, a token the service refuses: the service
    is called, the answer is 400 and nothing is inserted.  With no secret
    the same token is not checked. *)
Lemma C4_witness :
  (site_verify_calls
     (trace (snd (run (post_orders Samples.env_captcha
                         Samples.req_order_with_token Samples.alice
                         Samples.student) Samples.empty_store)))
   = [EvSiteVerify "secret" (JStr "tok")]
   /\ fst (run (post_orders Samples.env_captcha Samples.req_order_with_token
                  Samples.alice Samples.student) Samples.empty_store)
      = failure 400 "reCAPTCHA verification failed")
  /\ site_verify_calls
       (trace (snd (run (post_orders Samples.env_plain
                           Samples.req_order_with_token Samples.alice
                           Samples.student) Samples.empty_store)))
     = [].
Proof.
  split.
  - destruct (C4_verification_gate Samples.env_captcha
                Samples.req_order_with_token Samples.alice Samples.student
                Samples.empty_store) as [H _].
    destruct (H "secret" eq_refl eq_refl) as [H1 H2].
    split; [exact H1|]. apply H2. reflexivity.
  - destruct (C4_verification_gate Samples.env_plain
                Samples.req_order_with_token Samples.alice Samples.student
                Samples.empty_store) as [_ [H _]].
    apply H. reflexivity.
Defined.

(** ** C5: mandatory fields *)

(** C5: when one of firstName, phone, gender, grandTotal is absent from
    the request (or is otherwise falsy: null, empty, zero), no order
    document is inserted, and a request that passes the campus check
    (the store is reachable, the verification gate lets it through, the
    campus matches) is answered 400, Missing required order fields. *)
Theorem C5_required_fields env req user userProfile s k :
  let b := request_body req in
  let out := run (post_orders env req user userProfile) s in
  In k required_fields ->
  truthy (opt_prop b k) = false ->
  orders (snd out) = orders s
  /\ (db_fault env OpConnect = false ->
      gate_open env (opt_prop b "recaptchaToken") = true ->
      campus_denied userProfile b = false ->
      fst out = failure 400 "Missing required order fields").
Proof.
  intros b out Hk Hf. subst out.
  pose proof (missing_required_intro b k Hk Hf) as Hm.
  rewrite post_orders_run. unfold post_orders_outcome. fold b.
  rewrite Hm.
  split.
  - case_tests; reflexivity.
  - intros Hc Hg Hd. rewrite Hc, Hg, Hd. cbn [negb].
    unfold campus_denied in Hd.
    destruct (truthy (opt_prop userProfile "campusId")); [reflexivity|].
    discriminate Hd.
Qed.

(** The order without [gender]: 400 and no record. *)
Lemma C5_witness :
  orders (snd (run (post_orders Samples.env_plain Samples.req_no_gender
                      Samples.alice Samples.student) Samples.store_one))
  = orders Samples.store_one
  /\ fst (run (post_orders Samples.env_plain Samples.req_no_gender
                 Samples.alice Samples.student) Samples.store_one)
     = failure 400 "Missing required order fields".
Proof.
  destruct (C5_required_fields Samples.env_plain Samples.req_no_gender
              Samples.alice Samples.student Samples.store_one "gender")
    as [H1 H2].
  - cbn. tauto.
  - reflexivity.
  - split; [exact H1|]. apply H2; reflexivity.
Defined.

(** ** C6: the dual-identifier lookup of the status update *)

(** C6, as stated, fails: not every status-update request whose
    identifier matches no order is answered 404.  A caller with the role
    [user] is answered 403 by the role guard, and a campus admin who
    sends no status 400, before any lookup.  Nor is every order found by
    its own identifier: the campus admin of C1 who sends the legacy
    identifier of an order of campus C2 is answered 404. *)
Lemma C6_counterexample :
  (has_role Samples.student "user" = true
   /\ fst (run (patch_order Samples.env_plain
                  (Samples.patch_request "nope" (JStr "accepted"))
                  Samples.alice Samples.student) Samples.empty_store)
      = failure 403 "Unauthorized"
   /\ fst (run (patch_order Samples.env_plain
                  (Samples.patch_request "nope" JUndefined)
                  Samples.alice Samples.campus_admin) Samples.empty_store)
      = failure 400 "Missing status"
   /\ In (Samples.legacy_order (Sid "legacy-2") 200 "C2" "pending")
         (orders Samples.store_three)
   /\ fst (run (patch_order Samples.env_plain
                  (Samples.patch_request "legacy-2" (JStr "accepted"))
                  Samples.alice Samples.campus_admin) Samples.store_three)
      = failure 404 "Order not found")
  /\ ~ (forall env req user userProfile s,
          no_fault env ->
          truthy (requested_status req) = true ->
          (forall o, In o (orders s) -> ~ id_denotes (param req) (_id o)) ->
          status_of (run (patch_order env req user userProfile) s) = Some 404).
Proof.
  split; [repeat split; try reflexivity; cbn; tauto|].
  intros H.
  specialize (H Samples.env_plain (Samples.patch_request "nope" (JStr "accepted"))
                Samples.alice Samples.student Samples.empty_store
                (fun op => eq_refl) eq_refl (fun o (Ho : False) => match Ho with end)).
  vm_compute in H. discriminate H.
Qed.

(** C6 (amended): for a status-update request that carries a status,
    with no storage fault.  Made by a campus admin (whose campus id is a
    plain value), it finds an order of the admin's campus whose stored
    identifier is the legacy plain string the request supplies, and one
    stored under an object identifier whose 24-digit rendering the
    request supplies: the first such order gets the status and is
    returned with 200.  Made by a campus admin or a restaurant manager
    with an identifier that denotes no stored order under either
    interpretation, it is answered 404 and no order changes. *)
Theorem C6_dual_identifier_lookup env req user userProfile s :
  no_fault env ->
  truthy (requested_status req) = true ->
  let out := run (patch_order env req user userProfile) s in
  (isCampusAdmin userProfile = true ->
   scalar (opt_prop userProfile "campusId") = true ->
   forall o, In o (orders s) -> in_campus_of userProfile o ->
     (_id o = Sid (param req) -> update_applied userProfile req s out)
     /\ (forall h, _id o = Oid h -> ObjectId h = Some (Oid h) ->
                   param req = h -> update_applied userProfile req s out))
  /\ (isCampusAdmin userProfile = true \/ isRestaurantManager userProfile = true ->
      (forall o, In o (orders s) -> ~ id_denotes (param req) (_id o)) ->
      fst out = failure 404 "Order not found"
      /\ orders (snd out) = orders s).
Proof.
  intros Hf Ht out. split.
  - intros Ha _ o Ho Hc.
    assert (Hfound : id_denotes (param req) (_id o) ->
                     update_applied userProfile req s out).
    { intros Hd. subst out.
      set (f := FAll [FOr (id_filters (param req));
                      FField "campusId" (opt_prop userProfile "campusId")]).
      destruct (patch_order_with_filter env req user userProfile s f Hf
                  (campus_admin_not_super _ Ha) Ht) as [Hr Hs].
      { now rewrite Ha. }
      destruct (updateOne_first_match f "status" (requested_status req)
                  (orders s) o Ho) as [pre [x [post [Hc' [Hpre [Hx [Hu Hfo]]]]]]].
      { apply campus_update_filter_matches. now split. }
      { intros y. subst f. rewrite id_filters_map. apply campus_filter_keeps. }
      rewrite Hu in Hr, Hs. cbn [fst snd Nat.eqb] in Hr, Hs.
      rewrite Hfo in Hr.
      apply campus_update_filter_matches in Hx. destruct Hx as [Hx1 Hx2].
      exists pre, x, post. repeat split; try assumption.
      intros y Hy Hboth.
      assert (Hy' : matches f y = true)
        by (apply campus_update_filter_matches; exact Hboth).
      rewrite (Hpre y Hy) in Hy'. discriminate Hy'. }
    split.
    + intros Hid. apply Hfound. now left.
    + intros h Hid Hwf Hp. apply Hfound. right. now rewrite Hp, Hid.
  - intros Hrole Hnone. subst out.
    assert (Hs : isSuperAdmin userProfile = false).
    { destruct Hrole as [H|H]; [now apply campus_admin_not_super|].
      now apply (role_unique _ _ _ H). }
    set (scope := if isCampusAdmin userProfile
                  then FField "campusId" (opt_prop userProfile "campusId")
                  else FField "cartItems.restaurantId"
                              (opt_prop userProfile "restaurantId")).
    destruct (patch_order_with_filter env req user userProfile s
                (FAll [FOr (id_filters (param req)); scope]) Hf Hs Ht)
      as [Hr Hst].
    { subst scope. destruct (isCampusAdmin userProfile) eqn:Ea; [reflexivity|].
      destruct Hrole as [H|H]; [discriminate|]. now split. }
    rewrite updateOne_no_match in Hr, Hst.
    + now split.
    + intros o Ho. apply update_filter_needs_id. now apply Hnone.
    + intros o Ho. apply update_filter_needs_id. now apply Hnone.
Qed.

(** The campus admin of C1 updates the legacy order by its string
    identifier, and the order stored under an object identifier by the
    rendering of that identifier; an unknown identifier is answered
    404. *)
Lemma C6_witness :
  update_applied Samples.campus_admin
    (Samples.patch_request "legacy-1" (JStr "accepted")) Samples.store_three
    (run (patch_order Samples.env_plain
            (Samples.patch_request "legacy-1" (JStr "accepted"))
            Samples.alice Samples.campus_admin) Samples.store_three)
  /\ update_applied Samples.campus_admin
       (Samples.patch_request "507f1f77bcf86cd799439011" (JStr "accepted"))
       Samples.store_three
       (run (patch_order Samples.env_plain
               (Samples.patch_request "507f1f77bcf86cd799439011"
                                      (JStr "accepted"))
               Samples.alice Samples.campus_admin) Samples.store_three)
  /\ fst (run (patch_order Samples.env_plain
                 (Samples.patch_request "nope" (JStr "accepted"))
                 Samples.alice Samples.campus_admin) Samples.store_three)
     = failure 404 "Order not found".
Proof.
  split; [|split].
  - destruct (C6_dual_identifier_lookup Samples.env_plain
                (Samples.patch_request "legacy-1" (JStr "accepted"))
                Samples.alice Samples.campus_admin Samples.store_three
                (fun op => eq_refl) eq_refl) as [H _].
    apply (H eq_refl eq_refl
             (Samples.legacy_order (Sid "legacy-1") 100 "C1" "pending")).
    + cbn. tauto.
    + reflexivity.
    + reflexivity.
  - destruct (C6_dual_identifier_lookup Samples.env_plain
                (Samples.patch_request "507f1f77bcf86cd799439011"
                                       (JStr "accepted"))
                Samples.alice Samples.campus_admin Samples.store_three
                (fun op => eq_refl) eq_refl) as [H _].
    apply (H eq_refl eq_refl
             (Samples.legacy_order (Oid "507f1f77bcf86cd799439011") 300 "C1"
                                   "delivered"))
      with (h := "507f1f77bcf86cd799439011").
    + cbn. tauto.
    + reflexivity.
    + reflexivity.
    + reflexivity.
    + reflexivity.
  - destruct (C6_dual_identifier_lookup Samples.env_plain
                (Samples.patch_request "nope" (JStr "accepted"))
                Samples.alice Samples.campus_admin Samples.store_three
                (fun op => eq_refl) eq_refl) as [_ H].
    apply H.
    + now left.
    + intros o [<-|[<-|[<-|[]]]] [H1|H1]; discriminate H1.
Defined.

(** ** C7: the list of a campus admin *)




(** ** C8: reading an order back through the restaurant listing *)




(** ** C9: the restaurant-name list of an order *)

(** C9, as stated, fails in two ways.  A blank name is dropped, not kept
    as an empty string: the names "a" and " " are stored as the one
    name "a", where trimming and de-duplicating alone give "a" and the
    empty string.  And a list of blank names only is stored as an empty
    array. *)
Lemma C9_counterexample :
  (lookup "restaurantNames"
     (orderDoc Samples.env_plain
        (request_body (Samples.req_names [JStr "a"; JStr " "]))
        Samples.alice Samples.student)
   = Some (JArr [JStr "a"])
   /\ trimmed_dedup [JStr "a"; JStr " "] = ["a"; ""]
   /\ lookup "restaurantNames"
        (orderDoc Samples.env_plain
           (request_body (Samples.req_names [JStr " "; JStr ""]))
           Samples.alice Samples.student)
      = Some (JArr []))
  /\ ~ (forall env b user userProfile names,
          opt_prop b "restaurantNames" = JArr names ->
          names <> [] ->
          lookup "restaurantNames" (orderDoc env b user userProfile)
          = Some (JArr (map JStr (trimmed_dedup names))))
  /\ ~ (forall env b user userProfile,
          lookup "restaurantNames" (orderDoc env b user userProfile)
          <> Some (JArr [])).
Proof.
  split; [repeat split; reflexivity|].
  split; intros H.
  - specialize (H Samples.env_plain
                  (request_body (Samples.req_names [JStr "a"; JStr " "]))
                  Samples.alice Samples.student [JStr "a"; JStr " "]
                  eq_refl).
    vm_compute in H. assert (H' := H ltac:(discriminate)). discriminate H'.
  - apply (H Samples.env_plain
             (request_body (Samples.req_names [JStr " "; JStr ""]))
             Samples.alice Samples.student).
    reflexivity.
Qed.

(** C9 (amended): in every order document the endpoint inserts, when the
    request supplies an array of restaurant names of which at least one
    is not blank (not empty once converted to a string and trimmed), the
    stored list holds, each once, exactly the supplied names converted
    to strings and trimmed that are not blank, and so is not empty; when
    the request supplies no restaurant-name list (or a value that is not
    an array, or an empty array) the field is omitted from the document.
    Nothing is said of an array of blank names only. *)
Theorem C9_restaurant_names env req user userProfile s id :
  let b := request_body req in
  let out := run (post_orders env req user userProfile) s in
  fst out = Some (mkResponse 201 (PInserted id)) ->
  exists o,
    orders (snd out) = (orders s ++ [o])%list
    /\ _id o = id
    /\ match opt_prop b "restaurantNames" with
       | JArr (x :: l) =>
           (exists y, In y (x :: l) /\ trim (to_string y) <> "") ->
           exists names,
             lookup "restaurantNames" (fields o) = Some (JArr (map JStr names))
             /\ names <> []
             /\ NoDup names
             /\ forall n, In n names
                          <-> n <> ""
                              /\ exists y, In y (x :: l)
                                           /\ n = trim (to_string y)
       | _ => lookup "restaurantNames" (fields o) = None
       end.
Proof.
  intros b out. subst out. rewrite post_orders_run.
  unfold post_orders_outcome, failure. fold b.
  case_tests; cbn [fst snd]; try discriminate.
  intros H. injection H as <-.
  eexists. split; [reflexivity|]. split; [reflexivity|].
  cbn [fields]. rewrite orderDoc_restaurantNames.
  destruct (opt_prop b "restaurantNames") as [| |?|?|?| |?|[|x l]|?];
    try reflexivity.
  intros [y [Hy Hne]].
  destruct (clean_names_spec (x :: l)) as [Hnd Hin].
  exists (clean_names (x :: l)). split; [reflexivity|].
  split; [|split; [exact Hnd|exact Hin]].
  intros Hnil.
  assert (Hy' : In (trim (to_string y)) (clean_names (x :: l))).
  { apply Hin. split; [exact Hne|]. now exists y. }
  rewrite Hnil in Hy'. contradiction Hy'.
Qed.

(** The names " KFC ", "KFC", a blank and "Subway" are stored as KFC and
    Subway. *)
Lemma C9_witness :
  exists o,
    orders (snd (run (post_orders Samples.env_plain
                        (Samples.req_names [JStr " KFC "; JStr "KFC";
                                            JStr "  "; JStr "Subway"])
                        Samples.alice Samples.student) Samples.empty_store))
    = [o]
    /\ exists names,
         lookup "restaurantNames" (fields o) = Some (JArr (map JStr names))
         /\ names <> []
         /\ (forall n, In n names <-> n = "KFC" \/ n = "Subway").
Proof.
  destruct (C9_restaurant_names Samples.env_plain
              (Samples.req_names [JStr " KFC "; JStr "KFC"; JStr "  ";
                                  JStr "Subway"])
              Samples.alice Samples.student Samples.empty_store
              (Oid "507f1f77bcf86cd799439011") eq_refl)
    as [o [Ho [_ Hn]]].
  exists o. split; [exact Ho|].
  cbn in Hn. destruct Hn as [names [Hl [Hne [_ Hin]]]].
  { exists (JStr "KFC"). split; [tauto|discriminate]. }
  exists names. split; [exact Hl|]. split; [exact Hne|].
  intros n. rewrite Hin. split.
  - intros [Hn [y [[<-|[<-|[<-|[<-|[]]]]] ->]]]; cbn in *; auto;
      now contradiction Hn.
  - intros [-> | ->]; (split; [discriminate|]).
    + exists (JStr "KFC"). cbn. tauto.
    + exists (JStr "Subway"). cbn. tauto.
Defined.

(** ** C10: list-orders is open to every recognized role *)





(** * Further properties of the order endpoints *)

Import Admin.

(** ** Helper lemmas *)

Lemma strict_eq_refl_str a p : strict_eq a (JStr p) = false <-> a <> JStr p.
Proof.
  split.
  - intros H E. subst a. cbn in H. rewrite String.eqb_refl in H. discriminate.
  - intros H. destruct (strict_eq a (JStr p)) eqn:E; [|reflexivity].
    apply strict_eq_eq in E. contradiction.
Qed.

(** X1: the restaurant listing is open to the manager of that very
    restaurant only.  A caller whose role is not restaurantManager, or
    whose profile names another restaurant (or none), is answered 403,
    and nothing is asked of the database: the state is as before. *)
Theorem X1_restaurant_listing_guard env req user userProfile s :
  isRestaurantManager userProfile = false
  \/ opt_prop userProfile "restaurantId" <> JStr (param req) ->
  status_of (run (restaurant_orders env req user userProfile) s) = Some 403
  /\ snd (run (restaurant_orders env req user userProfile) s) = s.
Proof.
  intros H. unfold restaurant_orders, try_catch, run, status_of.
  destruct (isRestaurantManager userProfile) eqn:Hm; cbn [negb].
  - destruct H as [H|H]; [discriminate|].
    apply strict_eq_refl_str in H. rewrite H. cbn. auto.
  - cbn. auto.
Qed.

Lemma X1_witness :
  status_of (run (restaurant_orders Samples.env_later
                    (Samples.restaurant_request "r2") Samples.alice
                    Samples.manager) Samples.store_one) = Some 403
  /\ snd (run (restaurant_orders Samples.env_later
                 (Samples.restaurant_request "r2") Samples.alice
                 Samples.manager) Samples.store_one) = Samples.store_one.
Proof.
  apply X1_restaurant_listing_guard. right. cbn. discriminate.
Defined.

(** ** What order creation writes *)

(** An accepted creation passed every check of the handler. *)
Lemma post_orders_accepted env req user userProfile s id :
  fst (run (post_orders env req user userProfile) s)
  = Some (mkResponse 201 (PInserted id)) ->
  id = Oid (new_oid env)
  /\ existsb (fun o => docid_eqb id (_id o)) (orders s) = false
  /\ missing_required (request_body req) = false
  /\ campus_denied userProfile (request_body req) = false.
Proof.
  rewrite post_orders_run. unfold post_orders_outcome, failure.
  destruct (db_fault env OpConnect); [discriminate|].
  destruct (negb (gate_open env _)); [discriminate|].
  destruct (negb (truthy _)); [discriminate|].
  destruct (campus_denied userProfile (request_body req)); [discriminate|].
  destruct (missing_required (request_body req)); [discriminate|].
  destruct (db_fault env _); [discriminate|]. cbn [orb].
  destruct (existsb _ (orders s)) eqn:E; [discriminate|].
  cbn [fst]. intros H. injection H as <-. auto.
Qed.

Lemma lookup_restaurantNames_entry k v :
  String.eqb k "restaurantNames" = false ->
  lookup k (restaurantNames_entry v) = None.
Proof.
  intros H. unfold restaurantNames_entry.
  destruct v as [| |?|?|?| |?|[|x l]|?]; try reflexivity.
  cbn [lookup]. now rewrite H.
Qed.

Lemma missing_required_false b k :
  missing_required b = false -> In k required_fields ->
  truthy (opt_prop b k) = true.
Proof.
  unfold missing_required. intros H Hk.
  destruct (truthy (opt_prop b k)) eqn:E; [reflexivity|].
  assert (existsb (fun k => negb (truthy (opt_prop b k))) required_fields = true)
    as H'.
  { apply existsb_exists. exists k. split; [exact Hk|]. now rewrite E. }
  congruence.
Qed.

Lemma existsb_docid_In id (l : list Order) :
  existsb (fun o => docid_eqb id (_id o)) l = true <-> In id (map _id l).
Proof.
  rewrite existsb_exists, in_map_iff. split.
  - intros [o [Ho E]]. apply docid_eqb_eq in E. eauto.
  - intros [o [E Ho]]. exists o. split; [exact Ho|]. now apply docid_eqb_eq.
Qed.

(** X2: what an accepted order creation leaves in the store.  When POST
    /api/orders answers 201 with an identifier, exactly one document has
    been appended to the orders and the restaurants are untouched; the
    new document carries the returned identifier, which no earlier order
    has; its creation date and timestamp are those of the server clock,
    its status is pending whatever the request says, and the four
    mandatory fields are stored as sent, none of them falsy. *)
Theorem X2_created_order env req user userProfile s id :
  fst (run (post_orders env req user userProfile) s)
  = Some (mkResponse 201 (PInserted id)) ->
  exists o,
    orders (snd (run (post_orders env req user userProfile) s))
    = (orders s ++ [o])%list
    /\ restaurants (snd (run (post_orders env req user userProfile) s))
       = restaurants s
    /\ _id o = id
    /\ ~ In id (map _id (orders s))
    /\ createdAt o = now env
    /\ get (fields o) "status" = JStr "pending"
    /\ get (fields o) "timestamp" = JStr (now_iso env)
    /\ forall k, In k required_fields ->
         get (fields o) k = opt_prop (request_body req) k
         /\ truthy (get (fields o) k) = true.
Proof.
  intros H. pose proof (post_orders_accepted _ _ _ _ _ _ H) as [Hid [Hn [Hm _]]].
  rewrite (post_orders_created _ _ _ _ _ _ H). cbn [orders restaurants].
  eexists. split; [reflexivity|]. cbn [_id createdAt fields].
  split; [reflexivity|]. split; [reflexivity|].
  split; [rewrite <- existsb_docid_In; congruence|].
  split; [reflexivity|].
  split; [|split].
  - unfold get. rewrite lookup_bson_doc. unfold orderDoc.
    rewrite lookup_app.
    match goal with
    | |- context [lookup "status" (?a :: ?r)] =>
        change (lookup "status" (a :: r)) with (@None JsVal)
    end.
    rewrite lookup_app, lookup_restaurantNames_entry by reflexivity.
    reflexivity.
  - unfold get. rewrite lookup_bson_doc. unfold orderDoc.
    rewrite lookup_app.
    match goal with
    | |- context [lookup "timestamp" (?a :: ?r)] =>
        change (lookup "timestamp" (a :: r)) with (@None JsVal)
    end.
    rewrite lookup_app, lookup_restaurantNames_entry by reflexivity.
    reflexivity.
  - intros k Hk. pose proof (missing_required_false _ _ Hm Hk) as Ht.
    assert (get (bson_doc (orderDoc env (request_body req) user userProfile)) k
            = opt_prop (request_body req) k) as E.
    { cbn in Hk. unfold get.
      destruct Hk as [<-|[<-|[<-|[<-|[]]]]];
        match goal with
        | |- context [lookup ?k (bson_doc (orderDoc ?e ?b ?u ?p))] =>
            change (lookup k (bson_doc (orderDoc e b u p)))
              with (Some (bson_value (opt_prop b k)))
        end;
        now rewrite (bson_value_truthy _ Ht). }
    rewrite E. auto.
Qed.

Lemma X2_witness :
  fst (run (post_orders Samples.env_plain Samples.req_order Samples.alice
              Samples.student) Samples.empty_store)
  = Some (mkResponse 201 (PInserted (Oid "507f1f77bcf86cd799439011")))
  /\ exists o,
       orders (snd (run (post_orders Samples.env_plain Samples.req_order
                           Samples.alice Samples.student) Samples.empty_store))
       = (orders Samples.empty_store ++ [o])%list
       /\ restaurants (snd (run (post_orders Samples.env_plain Samples.req_order
                                   Samples.alice Samples.student)
                              Samples.empty_store))
          = restaurants Samples.empty_store
       /\ _id o = Oid "507f1f77bcf86cd799439011"
       /\ ~ In (Oid "507f1f77bcf86cd799439011")
               (map _id (orders Samples.empty_store))
       /\ createdAt o = now Samples.env_plain
       /\ get (fields o) "status" = JStr "pending"
       /\ get (fields o) "timestamp" = JStr (now_iso Samples.env_plain)
       /\ forall k, In k required_fields ->
            get (fields o) k = opt_prop (request_body Samples.req_order) k
            /\ truthy (get (fields o) k) = true.
Proof.
  split; [reflexivity|]. apply X2_created_order. reflexivity.
Defined.

Lemma orderDoc_cartItems env b user userProfile :
  get (bson_doc (orderDoc env b user userProfile)) "cartItems"
  = bson_value
      (or_else (opt_prop b "cartItemsFormatted")
         (if is_string (opt_prop b "cartItems") then opt_prop b "cartItems"
          else stringify (opt_prop b "cartItems"))).
Proof. reflexivity. Qed.

Lemma stringify_text v :
  (exists t, bson_value (stringify v) = JStr t) \/ bson_value (stringify v) = JNull.
Proof.
  unfold stringify. destruct (json_text v); cbn; eauto.
Qed.

(** X3: how an accepted order creation stores the cart.  The structured
    cart is kept under cartItemsArray (the array as sent, or the empty
    array when the cart is not an array), and cartItems holds a text: the
    client's cartItemsFormatted when it is given, else the cart itself when
    it is a string, else its JSON rendering (null when there is none).
    Hence, unless the client sends an array or an object as
    cartItemsFormatted, the stored cartItems is never a list of line items,
    and the filter on cartItems.restaurantId that the status update builds
    for a restaurant manager selects no order created here. *)
Theorem X3_created_cart env req user userProfile s id :
  fst (run (post_orders env req user userProfile) s)
  = Some (mkResponse 201 (PInserted id)) ->
  let cart := opt_prop (request_body req) "cartItems" in
  let formatted := opt_prop (request_body req) "cartItemsFormatted" in
  exists o,
    orders (snd (run (post_orders env req user userProfile) s))
    = (orders s ++ [o])%list
    /\ get (fields o) "cartItemsArray" = (if isArray cart then cart else JArr [])
    /\ (truthy formatted = true -> get (fields o) "cartItems" = formatted)
    /\ (truthy formatted = false ->
        (is_string cart = true -> get (fields o) "cartItems" = cart)
        /\ (is_string cart = false ->
            get (fields o) "cartItems" = bson_value (stringify cart))
        /\ ((exists t, get (fields o) "cartItems" = JStr t)
            \/ get (fields o) "cartItems" = JNull))
    /\ (scalar formatted = true ->
        forall q, nullish q = false ->
          field_matches "cartItems.restaurantId" q (fields o) = false).
Proof.
  intros H cart formatted.
  rewrite (post_orders_created _ _ _ _ _ _ H). cbn [orders].
  eexists. split; [reflexivity|]. cbn [fields].
  rewrite orderDoc_cartItemsArray, orderDoc_cartItems.
  fold cart formatted. unfold or_else.
  split; [reflexivity|].
  split; [|split].
  - intros Ht. rewrite Ht. now apply bson_value_truthy.
  - intros Hf. rewrite Hf. split; [|split].
    + intros Hs. rewrite Hs. destruct cart; try discriminate. reflexivity.
    + intros Hs. now rewrite Hs.
    + destruct (is_string cart) eqn:Hs.
      * destruct cart; try discriminate. left. eexists. reflexivity.
      * apply stringify_text.
  - intros Hsc q Hq. apply manager_filter_no_match; [exact Hq|].
    rewrite orderDoc_cartItems. fold cart formatted. unfold or_else.
    destruct (truthy formatted).
    + now destruct formatted.
    + destruct (is_string cart) eqn:Hs.
      * now destruct cart.
      * destruct (stringify_text cart) as [[t ->]| ->]; reflexivity.
Qed.

Lemma X3_witness :
  fst (run (post_orders Samples.env_plain Samples.req_order Samples.alice
              Samples.student) Samples.empty_store)
  = Some (mkResponse 201 (PInserted (Oid "507f1f77bcf86cd799439011")))
  /\ exists o,
       orders Samples.store_one = (orders Samples.empty_store ++ [o])%list
       /\ get (fields o) "cartItemsArray" = Samples.cart
       /\ (exists t, get (fields o) "cartItems" = JStr t)
       /\ field_matches "cartItems.restaurantId" (JStr "r1") (fields o) = false.
Proof.
  split; [reflexivity|].
  destruct (X3_created_cart Samples.env_plain Samples.req_order Samples.alice
              Samples.student Samples.empty_store
              (Oid "507f1f77bcf86cd799439011") eq_refl)
    as [o [Ho [Ha [_ [Hf Hm]]]]].
  exists o. split; [exact Ho|]. split; [exact Ha|].
  split.
  - destruct (Hf eq_refl) as [_ [Hs _]]. rewrite (Hs eq_refl).
    eexists. reflexivity.
  - apply Hm; reflexivity.
Defined.

(** ** What a status update can change *)

Lemma updateOne_shape f k v coll :
  updateOne f k v coll = (coll, O)
  \/ exists pre x post,
       coll = (pre ++ x :: post)%list
       /\ matches f x = true
       /\ updateOne f k v coll = ((pre ++ set_field k v x :: post)%list, 1%nat).
Proof.
  induction coll as [|o r IH]; [now left|].
  cbn [updateOne]. destruct (matches f o) eqn:E.
  - right. exists [], o, r. auto.
  - destruct IH as [->|[pre [x [post [-> [Hx ->]]]]]]; [now left|].
    right. exists (o :: pre), x, post. auto.
Qed.

Lemma snd_run h s : snd (run h s) = snd (h s).
Proof. unfold run. now destruct (h s) as [[r|r|] s']. Qed.

Lemma snd_try_catch code msg h s : snd (try_catch code msg h s) = snd (h s).
Proof. unfold try_catch. now destruct (h s) as [[r|r|] s']. Qed.

(** The update and the read-back of the status update. *)
Lemma update_then_find_store env f v s :
  bson_value v = v ->
  let h := (matchedCount <- update_status env f v ;;
            if Nat.eqb matchedCount 0 then send_error 404 "Order not found"
            else
              doc <- find_order env f ;;
              match doc with
              | None => send_error 404 "Order not found after update"
              | Some d => ret (mkResponse 200 (POrder d))
              end)%handler in
  restaurants (snd (h s)) = restaurants s
  /\ (orders (snd (h s)) = orders s
      \/ orders (snd (h s)) = fst (updateOne f "status" v (orders s))).
Proof.
  intros Hb h. subst h. unfold bind. rewrite update_status_run, Hb.
  destruct (db_fault env (OpUpdateOne _ _ _)); [cbn; auto|].
  destruct (updateOne f "status" v (orders s)) as [coll n]. cbn [fst snd].
  destruct (Nat.eqb n 0); [cbn; auto|].
  rewrite find_order_run.
  destruct (db_fault env (OpFindOne f)); [cbn; auto|].
  cbn [add_events orders]. destruct (findOne f coll); cbn; auto.
Qed.

(** The store after a status update: the restaurants are as before, and
    the orders are as before or the result of the one [updateOne] the
    handler sends, whose filter starts with the dual-identifier test. *)
Lemma patch_order_store env req user userProfile s :
  restaurants (snd (run (patch_order env req user userProfile) s))
  = restaurants s
  /\ (orders (snd (run (patch_order env req user userProfile) s)) = orders s
      \/ exists scope,
           orders (snd (run (patch_order env req user userProfile) s))
           = fst (updateOne (FAll [FOr (id_filters (param req)); scope])
                            "status" (requested_status req) (orders s))).
Proof.
  set (P := fun s' : State =>
         restaurants s' = restaurants s
         /\ (orders s' = orders s
             \/ exists scope,
                  orders s'
                  = fst (updateOne (FAll [FOr (id_filters (param req)); scope])
                                   "status" (requested_status req) (orders s)))).
  change (P (snd (run (patch_order env req user userProfile) s))).
  assert (P0 : forall l, P (add_events s l)) by (intros l; split; auto).
  rewrite snd_run. unfold patch_order. rewrite snd_try_catch.
  destruct (isSuperAdmin userProfile); [apply (P0 [])|].
  unfold bind at 1, getDb. rewrite db_op_run.
  destruct (db_fault env OpConnect); [apply P0|].
  fold (request_body req). fold (requested_status req).
  destruct (truthy (requested_status req)) eqn:Ht; cbn [negb]; [|apply P0].
  assert (Hb : bson_value (requested_status req) = requested_status req)
    by now apply bson_value_truthy.
  destruct (isCampusAdmin userProfile);
    [|destruct (isRestaurantManager userProfile); [|apply P0]].
  all: unfold bind at 1, ret; cbv beta iota;
    match goal with
    | |- context [update_status ?e ?f _] =>
        destruct (update_then_find_store e f _
                    (add_events s [EvDb OpConnect]) Hb) as [H1 [H2|H2]]
    end;
    (split; [exact H1|]); [left; exact H2|right; eexists; exact H2].
Qed.

(** The orders after a status update: as before, or as before except
    for one order the request identifier denotes, whose status is set. *)
Lemma patch_order_one env req user userProfile s :
  orders (snd (run (patch_order env req user userProfile) s)) = orders s
  \/ exists pre x post,
       orders s = (pre ++ x :: post)%list
       /\ id_denotes (param req) (_id x)
       /\ orders (snd (run (patch_order env req user userProfile) s))
          = (pre ++ set_field "status" (requested_status req) x :: post)%list.
Proof.
  destruct (patch_order_store env req user userProfile s)
    as [_ [Ho|[scope Ho]]]; [now left|].
  destruct (updateOne_shape (FAll [FOr (id_filters (param req)); scope])
              "status" (requested_status req) (orders s))
    as [E|[pre [x [post [E1 [Hx E2]]]]]].
  - left. now rewrite Ho, E.
  - right. exists pre, x, post. split; [exact E1|].
    split; [|now rewrite Ho, E2].
    destruct (id_filters_denotes (param req) x) as [Hd _]. apply Hd.
    change (matches (FAll [FOr (id_filters (param req)); scope]) x)
      with (matches (FOr (id_filters (param req))) x
            && (matches scope x && true))%bool in Hx.
    now apply andb_true_iff in Hx.
Qed.

Lemma patch_order_ids env req user userProfile s :
  map _id (orders (snd (run (patch_order env req user userProfile) s)))
  = map _id (orders s)
  /\ map createdAt (orders (snd (run (patch_order env req user userProfile) s)))
     = map createdAt (orders s).
Proof.
  destruct (patch_order_one env req user userProfile s)
    as [->|[pre [x [post [E1 [_ ->]]]]]]; [auto|].
  rewrite E1, !map_app. cbn [map]. auto.
Qed.

(** X4: a status update touches at most one order, and only its status.
    Whoever calls PATCH /api/orders/:id, and whatever the answer (also
    when it is an error), the restaurants are unchanged and the orders
    are either all unchanged, or unchanged except for one order, denoted
    by the request identifier, whose status field is set to the requested
    status; no order is added, removed, moved or given another
    identifier or date. *)
Theorem X4_update_touches_one_status env req user userProfile s :
  restaurants (snd (run (patch_order env req user userProfile) s))
  = restaurants s
  /\ (orders (snd (run (patch_order env req user userProfile) s)) = orders s
      \/ exists pre x post,
           orders s = (pre ++ x :: post)%list
           /\ id_denotes (param req) (_id x)
           /\ orders (snd (run (patch_order env req user userProfile) s))
              = (pre ++ set_field "status" (requested_status req) x :: post)%list)
  /\ map _id (orders (snd (run (patch_order env req user userProfile) s)))
     = map _id (orders s)
  /\ map createdAt (orders (snd (run (patch_order env req user userProfile) s)))
     = map createdAt (orders s).
Proof.
  split; [apply patch_order_store|].
  split; [apply patch_order_one|]. apply patch_order_ids.
Qed.

(** ** Requests the middlewares turn away *)

(** X5: no endpoint behind [verifyFirebaseToken] is reached without a
    verified bearer token.  When the Authorization header is missing, is
    not of the form Bearer <token>, carries an empty token, or carries a
    token the identity provider rejects, the answer is 401 and the state
    is untouched: the profile is not loaded, the handler does not run and
    the database is not called.  This holds for every handler mounted
    behind the middleware. *)
Theorem X5_unauthenticated env handler req s :
  (forall token,
      authorization req = Some ("Bearer " ++ token)%string ->
      token = "" \/ verifyIdToken env token = None) ->
  status_of (run (route env handler req) s) = Some 401
  /\ snd (run (route env handler req) s) = s.
Proof.
  intros H. unfold route, run, bind, status_of.
  destruct (authorization req) as [h|] eqn:Eh.
  - destruct (String.prefix "Bearer " h) eqn:E.
    + apply prefix_split in E.
      set (t := substring (String.length "Bearer ")
                  (String.length h - String.length "Bearer ") h) in E.
      rewrite (bearer_token env req t s) by (rewrite Eh; now f_equal).
      destruct (H t) as [->|Hv]; [now f_equal|now cbn|].
      rewrite Hv. now destruct (String.eqb t "").
    + rewrite no_bearer_token; [now cbn|].
      intros t Ht. rewrite Eh in Ht. injection Ht as Ht.
      pose proof (prefix_app "Bearer " t) as E'.
      change ("Bearer " ++ t)%string
        with (String "B" (String "e" (String "a" (String "r" (String "e"
               (String "r" (String " " t))))))) in E'.
      congruence.
  - rewrite no_bearer_token; [now cbn|]. intros t Ht. rewrite Eh in Ht. discriminate.
Qed.

Lemma X5_witness :
  status_of (run (GET_api_orders_all Samples.env_plain
                    (mkRequest (Some "Basic YWxpY2U6cHc=") "" JUndefined JUndefined
                               JUndefined))
                 Samples.store_three) = Some 401
  /\ snd (run (GET_api_orders_all Samples.env_plain
                 (mkRequest (Some "Basic YWxpY2U6cHc=") "" JUndefined JUndefined
                            JUndefined))
              Samples.store_three) = Samples.store_three.
Proof.
  apply (X5_unauthenticated Samples.env_plain
           (get_all_orders Samples.env_plain)).
  intros token H. cbn in H. discriminate H.
Defined.

(** X6: a handler behind the two middlewares runs only for a request
    that carries, as Bearer token, a token the identity provider verifies
    as that of some user, when the profile store holds a profile for that
    very user with one of the four roles (user, campusAdmin, superAdmin,
    restaurantManager); the handler then runs with that user and that
    profile.  Every other request is answered 401, 403 or 500 by the
    middlewares and leaves the state untouched: no handler code runs and
    the database is not called. *)
Theorem X6_handler_needs_role env handler req s :
  (exists user userProfile users,
      authenticated env req user
      /\ firestore env = Some users
      /\ users (uid user) = FsData userProfile
      /\ In (opt_prop userProfile "role")
            [JStr "user"; JStr "campusAdmin"; JStr "superAdmin";
             JStr "restaurantManager"]
      /\ run (route env handler req) s = run (handler req user userProfile) s)
  \/ (snd (run (route env handler req) s) = s
      /\ exists code,
           status_of (run (route env handler req) s) = Some code
           /\ In code [401; 403; 500]).
Proof.
  destruct (route_cases env handler req s)
    as [[r [Hr Hc]]|[user [userProfile [users [Ha [Hf [Hu [Hr Hrun]]]]]]]].
  - right. rewrite Hr. split; [reflexivity|]. exists (status_code r). auto.
  - left. exists user, userProfile, users. repeat split; auto.
    now apply recognized_role_In.
Qed.

(** ** Requests that only read *)

Import Terms.

Lemma same_store_events s l : same_store s (add_events s l).
Proof. split; reflexivity. Qed.

Lemma get_orders_store env req user userProfile s :
  same_store s (snd (run (get_orders env req user userProfile) s)).
Proof.
  rewrite snd_run. unfold get_orders. rewrite snd_try_catch.
  unfold bind, getDb. rewrite db_op_run.
  destruct (db_fault env OpConnect); [apply same_store_events|].
  rewrite find_orders_run.
  destruct (db_fault env _); [split; reflexivity|].
  cbn [add_events orders]. destruct (find_sorted _ _ _); split; reflexivity.
Qed.

Lemma get_all_orders_store env req user userProfile s :
  same_store s (snd (run (get_all_orders env req user userProfile) s)).
Proof.
  rewrite snd_run. unfold get_all_orders. rewrite snd_try_catch.
  destruct (isSuperAdmin userProfile); cbn [negb]; [|split; reflexivity].
  unfold bind, getDb. rewrite db_op_run.
  destruct (db_fault env OpConnect); [apply same_store_events|].
  rewrite find_orders_run.
  destruct (db_fault env _); [split; reflexivity|].
  cbn [add_events orders]. destruct (find_sorted _ _ _); split; reflexivity.
Qed.

Lemma restaurant_orders_store env req user userProfile s :
  same_store s (snd (run (restaurant_orders env req user userProfile) s)).
Proof.
  rewrite snd_run. unfold restaurant_orders. rewrite snd_try_catch.
  destruct (isRestaurantManager userProfile); cbn [negb]; [|split; reflexivity].
  destruct (strict_eq _ _); cbn [negb]; [|split; reflexivity].
  unfold bind, getDb. rewrite db_op_run.
  destruct (db_fault env OpConnect); [apply same_store_events|].
  rewrite find_restaurant_by_run.
  destruct (db_fault env _); [split; reflexivity|].
  cbn [add_events restaurants].
  destruct (find_restaurant _ _); [|split; reflexivity].
  rewrite find_orders_run.
  destruct (db_fault env _); [split; reflexivity|].
  cbn [add_events orders].
  destruct (find_sorted _ _ _); [|split; reflexivity].
  destruct (map_views _ _); split; reflexivity.
Qed.

Lemma route_store env handler req s (P : State -> Prop) :
  P s ->
  (forall user userProfile, P (snd (run (handler req user userProfile) s))) ->
  P (snd (run (route env handler req) s)).
Proof.
  intros H0 H.
  destruct (route_cases env handler req s)
    as [[r [-> _]]|[user [userProfile [users [_ [_ [_ [_ ->]]]]]]]].
  - exact H0.
  - apply H.
Qed.

(** X7: the three listing endpoints only read.  Whatever the request,
    the caller and the answer (also a 401, 403, 404 or 500), GET
    /api/orders, GET /api/orders/all and GET
    /api/orders/restaurant/:restaurantId leave every order and every
    restaurant document as it was. *)
Theorem X7_listings_read_only env req s :
  same_store s (snd (run (GET_api_orders env req) s))
  /\ same_store s (snd (run (GET_api_orders_all env req) s))
  /\ same_store s (snd (run (GET_api_orders_restaurant env req) s)).
Proof.
  repeat split.
  1,2: apply (route_store env (get_orders env) req s
                (fun s' => _ s' = _ s)); [reflexivity|];
    intros; apply get_orders_store.
  1,2: apply (route_store env (get_all_orders env) req s
                (fun s' => _ s' = _ s)); [reflexivity|];
    intros; apply get_all_orders_store.
  1,2: apply (route_store env (restaurant_orders env) req s
                (fun s' => _ s' = _ s)); [reflexivity|];
    intros; apply restaurant_orders_store.
Qed.

(** ** Identifiers stay distinct *)

Lemma post_orders_store env req user userProfile s :
  restaurants (snd (run (post_orders env req user userProfile) s))
  = restaurants s
  /\ (orders (snd (run (post_orders env req user userProfile) s)) = orders s
      \/ exists o,
           orders (snd (run (post_orders env req user userProfile) s))
           = (orders s ++ [o])%list
           /\ ~ In (_id o) (map _id (orders s))).
Proof.
  rewrite post_orders_run. unfold post_orders_outcome.
  destruct (db_fault env OpConnect); [cbn; auto|].
  destruct (negb (gate_open env _)); [cbn; auto|].
  destruct (negb (truthy _)); [cbn; auto|].
  destruct (campus_denied userProfile (request_body req)); [cbn; auto|].
  destruct (missing_required (request_body req)); [cbn; auto|].
  destruct (db_fault env _); [cbn; auto|]. cbn [orb].
  destruct (existsb _ (orders s)) eqn:E; [cbn; auto|].
  cbn [snd orders restaurants]. split; [reflexivity|].
  right. eexists. split; [reflexivity|]. cbn [_id].
  rewrite <- existsb_docid_In. congruence.
Qed.

Lemma NoDup_snoc {A} (l : list A) x : NoDup l -> ~ In x l -> NoDup (l ++ [x]).
Proof.
  intros Hl Hx. apply (Permutation_NoDup (l := x :: l)).
  - apply Permutation_cons_append.
  - now constructor.
Qed.

(** X8: order identifiers stay distinct.  If no two orders of the store
    share an identifier, this is still so after any request to any of the
    five order endpoints, whatever its answer: creation refuses an
    identifier that is in use, the status update rewrites one order in
    place, and the listings change nothing. *)
Theorem X8_ids_stay_distinct env req s :
  distinct_ids s ->
  distinct_ids (snd (run (POST_api_orders env req) s))
  /\ distinct_ids (snd (run (PATCH_api_orders_id env req) s))
  /\ distinct_ids (snd (run (GET_api_orders env req) s))
  /\ distinct_ids (snd (run (GET_api_orders_all env req) s))
  /\ distinct_ids (snd (run (GET_api_orders_restaurant env req) s)).
Proof.
  intros H. unfold distinct_ids in *.
  repeat split.
  - apply (route_store env (post_orders env) req s
             (fun s' => NoDup (map _id (orders s')))); [exact H|].
    intros user userProfile.
    destruct (post_orders_store env req user userProfile s)
      as [_ [->|[o [-> Ho]]]]; [exact H|].
    rewrite map_app. cbn [map]. now apply NoDup_snoc.
  - apply (route_store env (patch_order env) req s
             (fun s' => NoDup (map _id (orders s')))); [exact H|].
    intros user userProfile.
    destruct (patch_order_ids env req user userProfile s) as [-> _]. exact H.
  - apply (route_store env (get_orders env) req s
             (fun s' => NoDup (map _id (orders s')))); [exact H|].
    intros user userProfile.
    destruct (get_orders_store env req user userProfile s) as [-> _]. exact H.
  - apply (route_store env (get_all_orders env) req s
             (fun s' => NoDup (map _id (orders s')))); [exact H|].
    intros user userProfile.
    destruct (get_all_orders_store env req user userProfile s) as [-> _].
    exact H.
  - apply (route_store env (restaurant_orders env) req s
             (fun s' => NoDup (map _id (orders s')))); [exact H|].
    intros user userProfile.
    destruct (restaurant_orders_store env req user userProfile s) as [-> _].
    exact H.
Qed.

Lemma X8_witness :
  distinct_ids Samples.store_one
  /\ distinct_ids (snd (run (POST_api_orders Samples.env_plain
                               Samples.req_order) Samples.store_one))
  /\ distinct_ids (snd (run (PATCH_api_orders_id Samples.env_plain
                               Samples.req_order) Samples.store_one))
  /\ distinct_ids (snd (run (GET_api_orders Samples.env_plain
                               Samples.req_order) Samples.store_one))
  /\ distinct_ids (snd (run (GET_api_orders_all Samples.env_plain
                               Samples.req_order) Samples.store_one))
  /\ distinct_ids (snd (run (GET_api_orders_restaurant Samples.env_plain
                               Samples.req_order) Samples.store_one)).
Proof.
  assert (H : distinct_ids Samples.store_one).
  { unfold distinct_ids. cbn. constructor; [intros []|constructor]. }
  split; [exact H|]. apply X8_ids_stay_distinct. exact H.
Defined.

(** ** A cart with a null line *)

Lemma restaurant_view_null rid rname o items :
  get (fields o) "cartItemsArray" = JArr items ->
  In JNull items ->
  restaurant_view rid rname o = None.
Proof.
  intros Ha Hn. unfold restaurant_view. rewrite Ha.
  destruct items as [|x l]; [destruct Hn|].
  rewrite filter_items_spec.
  destruct (forallb (fun item => negb (nullish item)) (x :: l)) eqn:E;
    [|reflexivity].
  rewrite forallb_forall in E. specialize (E JNull Hn). discriminate E.
Qed.

(** X9: one order with a null line item breaks the listing of a
    restaurant.  POST /api/orders stores whatever array it is sent as
    the structured cart, without looking at its elements.  If an accepted
    order carries both a line of the restaurant and a line that is null,
    then (with no storage fault, and a limit that does not cut the
    listing) the manager's GET /api/orders/restaurant/:restaurantId is
    answered 500, Failed to fetch orders, instead of the orders of the
    restaurant: reading the restaurant of the null line throws. *)
Theorem X9_null_line_breaks_listing
    envA reqA userA profileA s0 id env req user userProfile r k items item :
  let s := snd (run (post_orders envA reqA userA profileA) s0) in
  let rname := get (restaurant_fields r) "name" in
  fst (run (post_orders envA reqA userA profileA) s0)
  = Some (mkResponse 201 (PInserted id)) ->
  opt_prop (request_body reqA) "cartItems" = JArr items ->
  In item items ->
  carries (param req) item ->
  In JNull items ->
  no_fault env ->
  isRestaurantManager userProfile = true ->
  opt_prop userProfile "restaurantId" = JStr (param req) ->
  restaurant_of s (param req) = Some r ->
  requested_limit 1000 req = JNum k ->
  within_limit k (restaurant_listed_count (param req) rname s) ->
  fst (run (restaurant_orders env req user userProfile) s)
  = failure 500 "Failed to fetch orders".
Proof.
  intros s rname Hpost Hcart Hitem Hcar Hnull Hf Hm Hid Hr Hk Hlim.
  destruct (restaurant_orders_run env req user userProfile s r k Hf Hm Hid Hr Hk)
    as [l [Hl Hrun]].
  fold rname in Hl, Hrun. rewrite Hrun.
  destruct (find_sorted_spec (restaurant_filter (param req) rname) k (orders s))
    as [l' [Hl' [_ [_ [_ [Hall _]]]]]].
  rewrite Hl in Hl'. injection Hl' as <-.
  set (o := mkOrder id (now envA)
              (bson_doc (orderDoc envA (request_body reqA) userA profileA))).
  assert (Ho : In o (orders s)).
  { subst s. rewrite (post_orders_created _ _ _ _ _ _ Hpost).
    cbn [orders]. apply in_or_app. right. now left. }
  assert (Harr : get (fields o) "cartItemsArray" = JArr items).
  { subst o. cbn [fields]. rewrite orderDoc_cartItemsArray, Hcart.
    reflexivity. }
  assert (Hsel : matches (restaurant_filter (param req) rname) o = true)
    by now apply (restaurant_filter_selects _ _ _ _ _ Harr Hitem).
  assert (Hol : In o l) by now apply Hall.
  destruct (map_views (restaurant_view (param req) rname) l) as [vs|] eqn:Hvs;
    [|reflexivity].
  destruct (map_views_spec (restaurant_view (param req) rname) l) as [_ Hmap].
  destruct (Hmap vs Hvs) as [Ha _].
  destruct (Ha o Hol) as [v [Hview _]].
  rewrite (restaurant_view_null _ _ _ _ Harr Hnull) in Hview. discriminate.
Qed.

Lemma X9_witness :
  fst (run (post_orders Samples.env_later Samples2.req_null_line Samples.alice
              Samples.student) Samples.store_one)
  = Some (mkResponse 201 (PInserted (Oid "507f1f77bcf86cd799439012")))
  /\ fst (run (restaurant_orders Samples.env_later
                 (Samples.restaurant_request "r1") Samples.alice
                 Samples.manager)
            (snd (run (post_orders Samples.env_later Samples2.req_null_line
                         Samples.alice Samples.student) Samples.store_one)))
     = failure 500 "Failed to fetch orders".
Proof.
  split; [reflexivity|].
  apply (X9_null_line_breaks_listing
           Samples.env_later Samples2.req_null_line Samples.alice
           Samples.student Samples.store_one (Oid "507f1f77bcf86cd799439012")
           Samples.env_later (Samples.restaurant_request "r1") Samples.alice
           Samples.manager (mkRestaurant (Sid "r1") [("name", JStr "KFC")])
           1000
           [JNull;
            JObj [("restaurantId", JStr "r1"); ("name", JStr "Zinger");
                  ("price", JNum 10); ("quantity", JNum 2)]]
           (JObj [("restaurantId", JStr "r1"); ("name", JStr "Zinger");
                  ("price", JNum 10); ("quantity", JNum 2)])).
  - reflexivity.
  - reflexivity.
  - right. now left.
  - reflexivity.
  - now left.
  - intros op. reflexivity.
  - reflexivity.
  - reflexivity.
  - reflexivity.
  - reflexivity.
  - right. cbn. lia.
Defined.

(** ** Who may update a status *)

(** X10: only campus admins and restaurant managers change an order.  A
    status update by a caller of any other role (user, superAdmin) is
    never answered 200 and changes no order; when the store can be
    reached and a status is sent, the answer is 403. *)
Theorem X10_update_needs_admin_or_manager env req user userProfile s :
  isCampusAdmin userProfile = false ->
  isRestaurantManager userProfile = false ->
  status_of (run (patch_order env req user userProfile) s) <> Some 200
  /\ orders (snd (run (patch_order env req user userProfile) s)) = orders s
  /\ (db_fault env OpConnect = false ->
      truthy (requested_status req) = true ->
      status_of (run (patch_order env req user userProfile) s) = Some 403).
Proof.
  intros Hc Hm. unfold status_of, run, patch_order, try_catch.
  rewrite Hc, Hm.
  destruct (isSuperAdmin userProfile).
  { cbn. repeat split; auto; discriminate. }
  unfold bind, getDb. rewrite db_op_run.
  fold (request_body req). fold (requested_status req).
  destruct (db_fault env OpConnect).
  { cbn. repeat split; try discriminate. }
  destruct (truthy (requested_status req)); cbn;
    repeat split; auto; discriminate.
Qed.

Lemma X10_witness :
  status_of (run (patch_order Samples.env_plain
                    (Samples.patch_request "legacy-1" (JStr "delivered"))
                    Samples.alice Samples.student) Samples.store_three)
  <> Some 200
  /\ orders (snd (run (patch_order Samples.env_plain
                         (Samples.patch_request "legacy-1" (JStr "delivered"))
                         Samples.alice Samples.student) Samples.store_three))
     = orders Samples.store_three
  /\ status_of (run (patch_order Samples.env_plain
                       (Samples.patch_request "legacy-1" (JStr "delivered"))
                       Samples.alice Samples.student) Samples.store_three)
     = Some 403.
Proof.
  destruct (X10_update_needs_admin_or_manager Samples.env_plain
              (Samples.patch_request "legacy-1" (JStr "delivered"))
              Samples.alice Samples.student Samples.store_three
              eq_refl eq_refl) as [H1 [H2 H3]].
  split; [exact H1|]. split; [exact H2|]. apply H3; reflexivity.
Defined.

(** ** The listing of all orders *)

Lemma filter_all (l : list Order) : filter (matches (FAll [])) l = l.
Proof.
  induction l as [|o l IH]; [reflexivity|].
  cbn [filter]. change (matches (FAll []) o) with true. cbv iota.
  now rewrite IH.
Qed.

Lemma get_all_orders_run env req user userProfile s k :
  no_fault env ->
  isSuperAdmin userProfile = true ->
  requested_limit 1000 req = JNum k ->
  exists l,
    find_sorted (FAll []) (JNum k) (orders s) = Some l
    /\ fst (run (get_all_orders env req user userProfile) s)
       = Some (mkResponse 200 (POrders l)).
Proof.
  intros Hf Hs Hk.
  destruct (find_sorted_spec (FAll []) k (orders s)) as [l [Hl _]].
  exists l. split; [exact Hl|].
  unfold run, get_all_orders, try_catch, bind, getDb.
  rewrite Hs. cbn [negb].
  rewrite db_op_run, Hf, find_orders_run, Hf.
  fold (requested_limit 1000 req). rewrite Hk.
  cbn [add_events orders]. now rewrite Hl.
Qed.

(** X11: GET /api/orders/all.  The listing of all orders is for super
    admins only: every other caller is answered 403, Super admin only,
    and nothing is asked of the database.  A super admin gets, with no
    storage fault and a limit that [Number] turns into an integer (1000
    when none is given), 200 with orders of the store, newest first and
    without regard to campus or status; an order that is left out is not
    newer than any listed one, at most the limit is returned, and when
    the limit does not cut, the list is the whole store reordered. *)
Theorem X11_all_orders_listing env req user userProfile s :
  (isSuperAdmin userProfile = false ->
   run (get_all_orders env req user userProfile) s
   = (failure 403 "Super admin only", s))
  /\ forall k,
       isSuperAdmin userProfile = true ->
       no_fault env ->
       requested_limit 1000 req = JNum k ->
       exists l,
         fst (run (get_all_orders env req user userProfile) s)
         = Some (mkResponse 200 (POrders l))
         /\ newest_first l
         /\ (forall o, In o l -> In o (orders s))
         /\ (forall o, In o (orders s) ->
               In o l \/ forall o', In o' l -> createdAt o <= createdAt o')
         /\ (k <> 0 -> (List.length l <= Z.to_nat (Z.abs k))%nat)
         /\ (within_limit k (List.length (orders s)) ->
             Permutation l (orders s)).
Proof.
  split.
  { intros H. unfold run, get_all_orders, try_catch. now rewrite H. }
  intros k Hs Hf Hk.
  destruct (get_all_orders_run env req user userProfile s k Hf Hs Hk)
    as [l [Hl Hrun]].
  destruct (find_sorted_spec (FAll []) k (orders s))
    as [l' [Hl' [Hsorted [Hin [Hout [_ Hlen]]]]]].
  rewrite Hl in Hl'. injection Hl' as <-.
  exists l. split; [exact Hrun|]. split; [exact Hsorted|].
  split; [intros o Ho; now apply Hin|].
  split; [intros o Ho; now apply Hout|].
  split; [exact Hlen|].
  intros Hlim. unfold find_sorted in Hl. rewrite filter_all in Hl.
  assert (l = sort_desc (orders s)) as ->; [|apply sort_desc_perm].
  unfold limit in Hl.
  destruct (Z.eq_dec k 0) as [->|Hk0]; [now injection Hl as <-|].
  destruct Hlim as [->|Hlim]; [contradiction|].
  assert (Some (firstn (Z.to_nat (Z.abs k)) (sort_desc (orders s))) = Some l)
    as Hl2 by (destruct k; [contradiction| |]; exact Hl).
  injection Hl2 as <-. apply firstn_all2.
  now rewrite (Permutation_length (sort_desc_perm (orders s))).
Qed.

Lemma X11_witness :
  run (get_all_orders Samples.env_plain (Samples.list_request JUndefined JUndefined)
         Samples.alice Samples.campus_admin) Samples.store_three
  = (failure 403 "Super admin only", Samples.store_three)
  /\ exists l,
       fst (run (get_all_orders Samples.env_plain
                   (Samples.list_request JUndefined JUndefined) Samples.alice
                   Samples.super_admin) Samples.store_three)
       = Some (mkResponse 200 (POrders l))
       /\ map createdAt l = [300; 200; 100]
       /\ Permutation l (orders Samples.store_three).
Proof.
  split.
  - apply (X11_all_orders_listing Samples.env_plain
             (Samples.list_request JUndefined JUndefined) Samples.alice
             Samples.campus_admin Samples.store_three).
    reflexivity.
  - destruct (X11_all_orders_listing Samples.env_plain
                (Samples.list_request JUndefined JUndefined) Samples.alice
                Samples.super_admin Samples.store_three) as [_ H].
    destruct (H 1000) as [l [H1 [_ [_ [_ [_ H2]]]]]].
    + reflexivity.
    + intros op. reflexivity.
    + reflexivity.
    + exists l. split; [exact H1|]. split.
      * cbn in H1. injection H1 as <-. reflexivity.
      * apply H2. right. cbn. lia.
Defined.

Lemma list_filter_all env userProfile status :
  isSuperAdmin userProfile = true -> truthy status = false ->
  list_filter env userProfile status = FAll [].
Proof. intros H1 H2. unfold list_filter. now rewrite H1, H2. Qed.

Lemma or_default_given n m limit :
  limit <> JUndefined -> or_default n limit = or_default m limit.
Proof. destruct limit; try reflexivity. intros H. now contradiction H. Qed.

(** X12: for a super admin, GET /api/orders/all is GET /api/orders
    without a status parameter, as long as a limit is given: the two
    requests are answered alike and ask the same of the database.  (With
    no limit parameter the two differ in their default, 50 against
    1000.) *)
Theorem X12_all_orders_alias env req user userProfile s :
  isSuperAdmin userProfile = true ->
  truthy (query_status req) = false ->
  query_limit req <> JUndefined ->
  run (get_all_orders env req user userProfile) s
  = run (get_orders env req user userProfile) s.
Proof.
  intros Hs Hst Hl. unfold get_all_orders, get_orders.
  rewrite Hs, (list_filter_all _ _ _ Hs Hst).
  now rewrite (or_default_given 1000 50 _ Hl).
Qed.

Lemma X12_witness :
  run (get_all_orders Samples.env_plain
         (Samples.list_request JUndefined (JStr "2"))
         Samples.alice Samples.super_admin) Samples.store_three
  = run (get_orders Samples.env_plain
           (Samples.list_request JUndefined (JStr "2"))
           Samples.alice Samples.super_admin) Samples.store_three.
Proof.
  apply (X12_all_orders_alias Samples.env_plain
           (Samples.list_request JUndefined (JStr "2")) Samples.alice
           Samples.super_admin Samples.store_three);
    [reflexivity|reflexivity|discriminate].
Defined.

(** * The reference-data endpoints *)

Import Catalog.

(** ** The calls to the database, step by step *)

Section CatalogSteps.

Variable env : Env.
Variable fault : Call -> bool.

Lemma docs_logged c s l : docs c (logged s l) = docs c s.
Proof. now destruct c. Qed.

Lemma docs_with_docs c l s : docs c (with_docs c l s) = l.
Proof. now destruct c. Qed.

Lemma docs_with_docs_other c c' l s :
  c' <> c -> docs c' (with_docs c l s) = docs c' s.
Proof. destruct c, c'; intros H; try reflexivity; now contradiction H. Qed.

Lemma orders_with_docs c l s : orders (base (with_docs c l s)) = orders (base s).
Proof. now destruct c. Qed.

Lemma logged_nil s : logged s [] = s.
Proof. destruct s. unfold logged. cbn. now rewrite app_nil_r. Qed.

Lemma logged_logged s l1 l2 : logged (logged s l1) l2 = logged s (l1 ++ l2).
Proof. unfold logged. cbn. now rewrite app_assoc. Qed.

Lemma call_run c s :
  call fault c s = (if fault c then Raised else Go tt, logged s [c]).
Proof. unfold call. now destruct (fault c). Qed.

Lemma find_run c f s :
  find fault c f s
  = (if fault (Find c f) then Raised else Go (find_docs f (docs c s)),
     logged s [Find c f]).
Proof.
  unfold find, and_then. rewrite call_run.
  destruct (fault (Find c f)); [reflexivity|]. now rewrite docs_logged.
Qed.

Lemma findOne_run c f s :
  findOne fault c f s
  = (if fault (FindOne c f) then Raised else Go (find_doc f (docs c s)),
     logged s [FindOne c f]).
Proof.
  unfold findOne, and_then. rewrite call_run.
  destruct (fault (FindOne c f)); [reflexivity|]. now rewrite docs_logged.
Qed.

Lemma insertOne_docs c doc s :
  insertOne env fault c doc s
  = let id := Oid (new_oid env) in
    let s' := logged s [InsertOne c doc] in
    if (fault (InsertOne c doc)
        || existsb (fun d => docid_eqb id (doc_id d)) (docs c s))%bool
    then (Raised, s')
    else (Go id, with_docs c (docs c s ++ [mkDocument id (bson_doc doc)]) s').
Proof.
  unfold insertOne, and_then. rewrite call_run.
  destruct (fault (InsertOne c doc)); [reflexivity|].
  cbn [orb]. cbv zeta. rewrite docs_logged.
  now destruct (existsb _ (docs c s)).
Qed.

Lemma updateOne_docs c f update s :
  updateOne fault c f update s
  = let s' := logged s [UpdateOne c f update] in
    if fault (UpdateOne c f update) then (Raised, s')
    else (Go (snd (update_doc f (bson_doc update) (docs c s))),
          with_docs c (fst (update_doc f (bson_doc update) (docs c s))) s').
Proof.
  unfold updateOne, and_then. rewrite call_run.
  destruct (fault (UpdateOne c f update)); [reflexivity|].
  cbv zeta. rewrite docs_logged.
  now destruct (update_doc f (bson_doc update) (docs c s)).
Qed.

Lemma deleteOne_docs c f s :
  deleteOne fault c f s
  = let s' := logged s [DeleteOne c f] in
    if fault (DeleteOne c f) then (Raised, s')
    else (Go (snd (delete_doc f (docs c s))),
          with_docs c (fst (delete_doc f (docs c s))) s').
Proof.
  unfold deleteOne, and_then. rewrite call_run.
  destruct (fault (DeleteOne c f)); [reflexivity|].
  cbv zeta. rewrite docs_logged.
  now destruct (delete_doc f (docs c s)).
Qed.

End CatalogSteps.

(** ** Who may write the reference data *)

Lemma writes_refused env fault req user userProfile s h :
  isSuperAdmin userProfile = false ->
  In h [post_universities env fault; patch_universities fault;
        delete_universities fault; post_campuses env fault;
        patch_campuses fault; delete_campuses fault] ->
  exists msg, answer (h req user userProfile) s = (Some (Error 403 msg), s).
Proof.
  intros Hs Hh. cbn in Hh.
  destruct Hh as [<-|[<-|[<-|[<-|[<-|[<-|[]]]]]]];
    unfold post_universities, patch_universities, delete_universities,
      post_campuses, patch_campuses, delete_campuses, answer;
    rewrite Hs; cbn; now eexists.
Qed.

(** X13: universities and campuses are written by super admins only.
    For a caller whose role is not superAdmin, each of POST, PATCH and
    DELETE on /api/universities and /api/campuses is answered 403 and
    does nothing else: the whole store, and the record of database calls,
    is as before. *)
Theorem X13_reference_data_super_admin_only env fault req user userProfile s h :
  isSuperAdmin userProfile = false ->
  In h [post_universities env fault; patch_universities fault;
        delete_universities fault; post_campuses env fault;
        patch_campuses fault; delete_campuses fault] ->
  code (answer (h req user userProfile) s) = Some 403
  /\ snd (answer (h req user userProfile) s) = s.
Proof.
  intros Hs Hh.
  destruct (writes_refused env fault req user userProfile s h Hs Hh)
    as [msg ->].
  split; reflexivity.
Qed.

Lemma X13_witness :
  code (answer (delete_universities Samples2.sound
                  (Samples2.request "u1" JUndefined) Samples.alice
                  Samples.campus_admin) Samples2.reference)
  = Some 403
  /\ snd (answer (delete_universities Samples2.sound
                    (Samples2.request "u1" JUndefined) Samples.alice
                    Samples.campus_admin) Samples2.reference)
     = Samples2.reference.
Proof.
  apply (X13_reference_data_super_admin_only Samples.env_plain Samples2.sound).
  - reflexivity.
  - cbn. auto.
Defined.

(** ** Creating and listing *)

Lemma find_docs_all (l : list Document) : find_docs (FAll []) l = l.
Proof.
  unfold find_docs. induction l as [|d l IH]; [reflexivity|].
  cbn [filter]. change (doc_matches (FAll []) d) with true. cbv iota.
  now rewrite IH.
Qed.

Lemma existsb_doc_id_In id (l : list Document) :
  existsb (fun d => docid_eqb id (doc_id d)) l = true <-> In id (map doc_id l).
Proof.
  rewrite existsb_exists, in_map_iff. split.
  - intros [d [Hd E]]. apply docid_eqb_eq in E. eauto.
  - intros [d [E Hd]]. exists d. split; [exact Hd|]. now apply docid_eqb_eq.
Qed.

Lemma get_universities_run fault s :
  reliable fault ->
  answer (get_universities fault) s
  = (Some (Json 200 (JArr (map (normalized ["name"]) (universities s)))),
     logged s [Connect; Find Universities (FAll [])]).
Proof.
  intros Hf. unfold answer, get_universities, catching, recover, and_then, getDb.
  rewrite call_run, Hf, find_run, Hf, logged_logged.
  cbn [docs logged universities]. now rewrite find_docs_all.
Qed.

(** An accepted creation of a university passed every check of the
    handler. *)
Lemma post_universities_created env fault req user userProfile s v :
  fst (answer (post_universities env fault req user userProfile) s)
  = Some (Json 201 v) ->
  let name := opt_prop (body_or_empty req) "name" in
  isSuperAdmin userProfile = true
  /\ truthy name = true
  /\ v = JObj [("id", JStr (new_oid env)); ("name", name)]
  /\ ~ In (Oid (new_oid env)) (map doc_id (universities s))
  /\ snd (answer (post_universities env fault req user userProfile) s)
     = with_docs Universities
         (universities s ++ [mkDocument (Oid (new_oid env)) [("name", name)]])
         (logged s [Connect; InsertOne Universities [("name", name)]]).
Proof.
  intros H name. revert H.
  unfold answer, post_universities.
  destruct (isSuperAdmin userProfile); cbn [negb]; [|discriminate].
  unfold catching, recover, and_then, getDb. rewrite call_run.
  destruct (fault Connect); [discriminate|].
  fold name. destruct (truthy name) eqn:Ht; cbn [negb]; [|discriminate].
  rewrite insertOne_docs. cbv zeta.
  destruct (fault (InsertOne _ _)); [discriminate|]. cbn [orb].
  rewrite docs_logged. cbn [docs].
  destruct (existsb _ (universities s)) eqn:E; [discriminate|].
  cbn [fst snd pure]. intros [= <-].
  rewrite logged_logged.
  repeat split.
  - rewrite <- existsb_doc_id_In. congruence.
  - cbn [bson_doc map fst snd]. now rewrite (bson_value_truthy _ Ht).
Qed.

(** X14: a created university is listed.  When POST /api/universities
    answers 201, the caller is a super admin, the university has been
    appended to the collection with a new identifier and the name as
    sent, nothing else is changed, and a following GET /api/universities
    (with no storage fault) answers what it answered before, followed by
    the very entry the creation returned. *)
Theorem X14_created_university_is_listed
    env fault fault' req user userProfile s v :
  let s' := snd (answer (post_universities env fault req user userProfile) s) in
  fst (answer (post_universities env fault req user userProfile) s)
  = Some (Json 201 v) ->
  reliable fault' ->
  isSuperAdmin userProfile = true
  /\ same_but Universities s s'
  /\ (exists d, universities s' = (universities s ++ [d])%list
                /\ ~ In (doc_id d) (map doc_id (universities s))
                /\ get (doc_fields d) "name"
                   = opt_prop (body_or_empty req) "name")
  /\ exists l,
       fst (answer (get_universities fault') s) = Some (Json 200 (JArr l))
       /\ fst (answer (get_universities fault') s')
          = Some (Json 200 (JArr (l ++ [v]))).
Proof.
  intros s' H Hf. subst s'.
  destruct (post_universities_created _ _ _ _ _ _ _ H)
    as [Hs [Ht [Hv [Hid Hst]]]].
  rewrite Hst. split; [exact Hs|]. split; [|split].
  - split; [reflexivity|]. intros c Hc. destruct c; try reflexivity.
    now contradiction Hc.
  - eexists. split; [reflexivity|]. split; [exact Hid|]. reflexivity.
  - eexists. rewrite !get_universities_run by exact Hf.
    split; [reflexivity|]. cbn [fst with_docs universities].
    rewrite map_app. cbn [map]. now rewrite Hv.
Qed.

Lemma X14_witness :
  fst (answer (post_universities Samples.env_plain Samples2.sound
                 (Samples2.request "" (JObj [("name", JStr "NUST")]))
                 Samples.alice Samples.super_admin) Samples2.reference)
  = Some (Json 201 (JObj [("id", JStr "507f1f77bcf86cd799439011");
                          ("name", JStr "NUST")]))
  /\ fst (answer (get_universities Samples2.sound)
            (snd (answer (post_universities Samples.env_plain Samples2.sound
                            (Samples2.request "" (JObj [("name", JStr "NUST")]))
                            Samples.alice Samples.super_admin)
                         Samples2.reference)))
     = Some (Json 200
               (JArr [JObj [("id", JStr "u1"); ("name", JStr "LUMS")];
                      JObj [("id", JStr "507f1f77bcf86cd799439011");
                            ("name", JStr "NUST")]])).
Proof.
  split; [reflexivity|].
  destruct (X14_created_university_is_listed Samples.env_plain Samples2.sound
              Samples2.sound
              (Samples2.request "" (JObj [("name", JStr "NUST")]))
              Samples.alice Samples.super_admin Samples2.reference
              (JObj [("id", JStr "507f1f77bcf86cd799439011");
                     ("name", JStr "NUST")]))
    as [_ [_ [_ [l [H1 H2]]]]].
  - reflexivity.
  - intros c. reflexivity.
  - rewrite H2. cbn in H1. injection H1 as <-. reflexivity.
Defined.

(** ** Removing and renaming by identifier *)

Lemma doc_id_filters_denotes id d :
  doc_matches (FOr (id_filters id)) d = true <-> denotes id d.
Proof.
  unfold doc_matches, denotes.
  now rewrite (id_filters_denotes id (mkOrder (doc_id d) 0 (doc_fields d))).
Qed.

Lemma doc_id_filters_not id d :
  doc_matches (FOr (id_filters id)) d = false <-> ~ denotes id d.
Proof.
  rewrite <- doc_id_filters_denotes.
  destruct (doc_matches (FOr (id_filters id)) d); split; intros H;
    try reflexivity; try discriminate; try (intros E; discriminate E).
  now contradiction H.
Qed.

Lemma delete_doc_shape f coll :
  (delete_doc f coll = (coll, O)
   /\ forall d, In d coll -> doc_matches f d = false)
  \/ exists pre d post,
       coll = (pre ++ d :: post)%list
       /\ doc_matches f d = true
       /\ (forall y, In y pre -> doc_matches f y = false)
       /\ delete_doc f coll = ((pre ++ post)%list, 1%nat).
Proof.
  induction coll as [|x r IH].
  - left. split; [reflexivity|]. intros d [].
  - cbn [delete_doc]. destruct (doc_matches f x) eqn:E.
    + right. exists [], x, r. repeat split; auto. intros y [].
    + destruct IH as [[-> Hn]|[pre [d [post [-> [Hd [Hpre ->]]]]]]].
      * left. split; [reflexivity|]. intros d [<-|Hd]; auto.
      * right. exists (x :: pre), d, post. repeat split; auto.
        intros y [<-|Hy]; auto.
Qed.

Lemma update_doc_shape f update coll :
  (update_doc f update coll = (coll, O)
   /\ forall d, In d coll -> doc_matches f d = false)
  \/ exists pre d post,
       coll = (pre ++ d :: post)%list
       /\ doc_matches f d = true
       /\ (forall y, In y pre -> doc_matches f y = false)
       /\ update_doc f update coll
          = ((pre ++ mkDocument (doc_id d) (set_all update (doc_fields d))
                  :: post)%list, 1%nat).
Proof.
  induction coll as [|x r IH].
  - left. split; [reflexivity|]. intros d [].
  - cbn [update_doc]. destruct (doc_matches f x) eqn:E.
    + right. exists [], x, r. repeat split; auto. intros y [].
    + destruct IH as [[-> Hn]|[pre [d [post [-> [Hd [Hpre ->]]]]]]].
      * left. split; [reflexivity|]. intros d [<-|Hd]; auto.
      * right. exists (x :: pre), d, post. repeat split; auto.
        intros y [<-|Hy]; auto.
Qed.

Lemma find_doc_first f pre d post :
  (forall y, In y pre -> doc_matches f y = false) ->
  doc_matches f d = true ->
  find_doc f (pre ++ d :: post)%list = Some d.
Proof.
  intros Hpre Hd. unfold find_doc. induction pre as [|x pre IH]; cbn.
  - now rewrite Hd.
  - rewrite (Hpre x) by now left. apply IH. intros y Hy. apply Hpre. now right.
Qed.

Lemma same_but_with_docs c l s l' :
  same_but c s (with_docs c l (logged s l')).
Proof.
  split.
  - now rewrite orders_with_docs.
  - intros c' Hc. now rewrite docs_with_docs_other, docs_logged.
Qed.

Lemma same_but_logged c s l : same_but c s (logged s l).
Proof. split; [reflexivity|]. intros c' _. apply docs_logged. Qed.

(** The removal by identifier, with no storage fault. *)
Lemma delete_by_id_run fault c id missing s l :
  reliable fault ->
  let out := answer (delete_by_id fault c id missing) (logged s l) in
  same_but c s (snd out)
  /\ ((fst out = Some (Ended 204)
       /\ exists pre d post,
            docs c s = (pre ++ d :: post)%list
            /\ denotes id d
            /\ (forall y, In y pre -> ~ denotes id y)
            /\ docs c (snd out) = (pre ++ post)%list)
      \/ (fst out = Some (Error 404 missing)
          /\ docs c (snd out) = docs c s
          /\ forall d, In d (docs c s) -> ~ denotes id d)).
Proof.
  intros Hf out. subst out.
  unfold answer, delete_by_id, and_then. rewrite deleteOne_docs, Hf.
  cbv zeta. rewrite logged_logged, docs_logged.
  destruct (delete_doc_shape (FOr (id_filters id)) (docs c s))
    as [[E Hn]|[pre [d [post [E1 [Hd [Hpre E2]]]]]]].
  - rewrite E. cbn [fst snd Nat.eqb send].
    split; [apply same_but_with_docs|]. right.
    split; [reflexivity|]. split; [apply docs_with_docs|].
    intros d Hd. apply doc_id_filters_not. now apply Hn.
  - rewrite E2. cbn [fst snd Nat.eqb pure].
    split; [apply same_but_with_docs|]. left.
    split; [reflexivity|]. exists pre, d, post.
    split; [exact E1|]. split; [now apply doc_id_filters_denotes|].
    split; [|apply docs_with_docs].
    intros y Hy. apply doc_id_filters_not. now apply Hpre.
Qed.

(** A handler that connects and then does not throw. *)
Lemma answer_after_connect fault r (h : Action Reply) s :
  reliable fault ->
  fst (answer h (logged s [Connect])) <> None ->
  answer (catching r (getDb fault ;;; h))%action s
  = answer h (logged s [Connect]).
Proof.
  intros Hf Hn. unfold answer, catching, recover, and_then, getDb in *.
  rewrite call_run, Hf.
  destruct (h (logged s [Connect])) as [[a|a|] s']; try reflexivity.
  now contradiction Hn.
Qed.

(** X15: removal by identifier, without cascade.  With no storage fault,
    a super admin's DELETE /api/universities/:id (or /api/campuses/:id)
    removes the first document of its collection that the identifier
    denotes, as a legacy string or as the rendering of an object
    identifier, and answers 204; when the identifier denotes no document
    it answers 404 and removes nothing.  Either way every other document
    of the collection, every other collection and the orders stay as they
    are: the campuses of a removed university are not removed with it. *)
Theorem X15_delete_by_identifier fault req user userProfile s c h :
  In (c, h) [(Universities, delete_universities fault);
             (Campuses, delete_campuses fault)] ->
  isSuperAdmin userProfile = true ->
  reliable fault ->
  let out := answer (h req user userProfile) s in
  same_but c s (snd out)
  /\ ((code out = Some 204
       /\ exists pre d post,
            docs c s = (pre ++ d :: post)%list
            /\ denotes (param req) d
            /\ (forall y, In y pre -> ~ denotes (param req) y)
            /\ docs c (snd out) = (pre ++ post)%list)
      \/ (code out = Some 404
          /\ docs c (snd out) = docs c s
          /\ forall d, In d (docs c s) -> ~ denotes (param req) d)).
Proof.
  intros Hh Hs Hf out. subst out. cbn in Hh.
  assert (exists missing r,
            answer (h req user userProfile) s
            = answer (catching r (getDb fault ;;;
                                  delete_by_id fault c (param req) missing))%action
                     s) as [missing [r ->]].
  { destruct Hh as [[= <- <-]|[[= <- <-]|[]]];
      unfold delete_universities, delete_campuses; rewrite Hs;
      do 2 eexists; reflexivity. }
  destruct (delete_by_id_run fault c (param req) missing s [Connect] Hf)
    as [H1 H2].
  rewrite answer_after_connect;
    [|exact Hf|destruct H2 as [[-> _]|[-> _]]; discriminate].
  split; [exact H1|].
  destruct H2 as [[E H2]|[E H2]]; [left|right];
    (split; [unfold code; now rewrite E|exact H2]).
Qed.

Lemma X15_witness :
  code (answer (delete_universities Samples2.sound
                  (Samples2.request "u1" JUndefined) Samples.alice
                  Samples.super_admin) Samples2.reference) = Some 204
  /\ universities
       (snd (answer (delete_universities Samples2.sound
                       (Samples2.request "u1" JUndefined) Samples.alice
                       Samples.super_admin) Samples2.reference)) = []
  /\ campuses
       (snd (answer (delete_universities Samples2.sound
                       (Samples2.request "u1" JUndefined) Samples.alice
                       Samples.super_admin) Samples2.reference))
     = campuses Samples2.reference.
Proof.
  destruct (X15_delete_by_identifier Samples2.sound
              (Samples2.request "u1" JUndefined) Samples.alice
              Samples.super_admin Samples2.reference Universities
              (delete_universities Samples2.sound))
    as [[_ H1] _].
  - now left.
  - reflexivity.
  - intros c. reflexivity.
  - split; [reflexivity|]. split; [reflexivity|].
    apply (H1 Campuses). discriminate.
Defined.

(** The update and read-back by identifier, with no storage fault. *)
Lemma update_and_read_run fault c id update missing missing_after keys s l :
  reliable fault ->
  let out := answer (update_and_read fault c id update missing missing_after
                       keys) (logged s l) in
  let updated d :=
    mkDocument (doc_id d) (set_all (bson_doc update) (doc_fields d)) in
  same_but c s (snd out)
  /\ ((exists pre d post,
         docs c s = (pre ++ d :: post)%list
         /\ denotes id d
         /\ (forall y, In y pre -> ~ denotes id y)
         /\ docs c (snd out) = (pre ++ updated d :: post)%list
         /\ fst out = Some (Json 200 (normalized keys (updated d))))
      \/ (fst out = Some (Error 404 missing)
          /\ docs c (snd out) = docs c s
          /\ forall d, In d (docs c s) -> ~ denotes id d)).
Proof.
  intros Hf out updated. subst out.
  unfold answer, update_and_read, and_then. rewrite updateOne_docs, Hf.
  cbv zeta. rewrite logged_logged, docs_logged.
  destruct (update_doc_shape (FOr (id_filters id)) (bson_doc update) (docs c s))
    as [[E Hn]|[pre [d [post [E1 [Hd [Hpre E2]]]]]]].
  - rewrite E. cbn [fst snd Nat.eqb send].
    split; [apply same_but_with_docs|]. right.
    split; [reflexivity|]. split; [apply docs_with_docs|].
    intros d Hd. apply doc_id_filters_not. now apply Hn.
  - rewrite E2. cbn [fst snd Nat.eqb].
    rewrite findOne_run, Hf, docs_with_docs.
    subst updated. cbv beta.
    set (d' := mkDocument (doc_id d) (set_all (bson_doc update) (doc_fields d)))
      in *.
    rewrite (find_doc_first _ pre d' post Hpre)
      by (apply doc_id_filters_denotes; now apply doc_id_filters_denotes in Hd).
    cbn [fst snd pure].
    split.
    + split; [cbn; now rewrite orders_with_docs|].
      intros c' Hc. unfold logged at 1.
      destruct c, c'; try reflexivity; now contradiction Hc.
    + left. exists pre, d, post.
      split; [exact E1|]. split; [now apply doc_id_filters_denotes|].
      split; [intros y Hy; apply doc_id_filters_not; now apply Hpre|].
      split; [|reflexivity].
      now destruct c.
Qed.

(** X16: renaming a university stores a trimmed string.  With no storage
    fault, a super admin's PATCH /api/universities/:id that carries a
    name (any value that is not falsy) turns it into a string, trims it,
    and writes it to the first university the identifier denotes, as a
    legacy string or as the rendering of an object identifier; the answer
    is 200 with the identifier and the new name.  When the identifier
    denotes no university the answer is 404.  Nothing else changes. *)
Theorem X16_university_rename_trims fault req user userProfile s :
  let out := answer (patch_universities fault req user userProfile) s in
  let name := opt_prop (body req) "name" in
  let renamed d :=
    mkDocument (doc_id d)
               (set "name" (JStr (trim (to_string name))) (doc_fields d)) in
  isSuperAdmin userProfile = true ->
  reliable fault ->
  truthy name = true ->
  same_but Universities s (snd out)
  /\ ((exists pre d post,
         universities s = (pre ++ d :: post)%list
         /\ denotes (param req) d
         /\ (forall y, In y pre -> ~ denotes (param req) y)
         /\ universities (snd out) = (pre ++ renamed d :: post)%list
         /\ fst out
            = Some (Json 200 (JObj [("id", JStr (id_text (doc_id d)));
                                    ("name", JStr (trim (to_string name)))])))
      \/ (fst out = Some (Error 404 "University not found")
          /\ universities (snd out) = universities s
          /\ forall d, In d (universities s) -> ~ denotes (param req) d)).
Proof.
  intros out name renamed Hs Hf Ht. subst out.
  unfold patch_universities. rewrite Hs. cbn [negb]. fold name. rewrite Ht.
  destruct (update_and_read_run fault Universities (param req)
              [("name", JStr (trim (to_string name)))]
              "University not found" "University not found after update"
              ["name"] s [Connect] Hf) as [H1 H2].
  rewrite answer_after_connect;
    [|exact Hf|destruct H2 as [[? [? [? [_ [_ [_ [_ ->]]]]]]]|[-> _]];
               discriminate].
  split; [exact H1|].
  destruct H2 as [[pre [d [post [E1 [Hd [Hpre [E2 E3]]]]]]]|H2];
    [left|right; exact H2].
  exists pre, d, post. repeat split; try assumption.
  rewrite E3. unfold normalized, pick. cbn [map doc_fields doc_id].
  cbn [bson_doc map fst snd bson_value set_all fold_left].
  now rewrite get_set_same.
Qed.

Lemma X16_witness :
  same_but Universities Samples2.reference
    (snd (answer (patch_universities Samples2.sound Samples2.rename_u1
                    Samples.alice Samples.super_admin) Samples2.reference))
  /\ ((exists pre d post,
         universities Samples2.reference = (pre ++ d :: post)%list
         /\ denotes "u1" d
         /\ (forall y, In y pre -> ~ denotes "u1" y)
         /\ universities
              (snd (answer (patch_universities Samples2.sound
                              Samples2.rename_u1 Samples.alice
                              Samples.super_admin) Samples2.reference))
            = (pre ++ mkDocument (doc_id d)
                        (set "name" (JStr "Lahore U") (doc_fields d))
                   :: post)%list
         /\ fst (answer (patch_universities Samples2.sound Samples2.rename_u1
                           Samples.alice Samples.super_admin)
                        Samples2.reference)
            = Some (Json 200 (JObj [("id", JStr (id_text (doc_id d)));
                                    ("name", JStr "Lahore U")])))
      \/ (fst (answer (patch_universities Samples2.sound Samples2.rename_u1
                         Samples.alice Samples.super_admin) Samples2.reference)
          = Some (Error 404 "University not found")
          /\ universities
               (snd (answer (patch_universities Samples2.sound
                               Samples2.rename_u1 Samples.alice
                               Samples.super_admin) Samples2.reference))
             = universities Samples2.reference
          /\ forall d, In d (universities Samples2.reference) ->
                       ~ denotes "u1" d)).
Proof.
  apply (X16_university_rename_trims Samples2.sound Samples2.rename_u1
           Samples.alice Samples.super_admin Samples2.reference).
  - reflexivity.
  - intros c. reflexivity.
  - reflexivity.
Defined.

(** X17: renaming a campus stores the name as sent.  With no storage
    fault, a super admin's PATCH /api/campuses/:id that carries a name
    (any value that is not falsy) writes that value, neither converted to
    a string nor trimmed, to the first campus the identifier denotes, and
    answers 200 with the identifier, the university of the campus and
    the new name; when the identifier denotes no campus the answer is
    404.  Nothing else changes. *)
Theorem X17_campus_rename_as_sent fault req user userProfile s :
  let out := answer (patch_campuses fault req user userProfile) s in
  let name := opt_prop (body req) "name" in
  let renamed d := mkDocument (doc_id d) (set "name" name (doc_fields d)) in
  isSuperAdmin userProfile = true ->
  reliable fault ->
  truthy name = true ->
  same_but Campuses s (snd out)
  /\ ((exists pre d post,
         campuses s = (pre ++ d :: post)%list
         /\ denotes (param req) d
         /\ (forall y, In y pre -> ~ denotes (param req) y)
         /\ campuses (snd out) = (pre ++ renamed d :: post)%list
         /\ fst out
            = Some (Json 200
                      (JObj [("id", JStr (id_text (doc_id d)));
                             ("universityId", get (doc_fields d) "universityId");
                             ("name", name)])))
      \/ (fst out = Some (Error 404 "Campus not found")
          /\ campuses (snd out) = campuses s
          /\ forall d, In d (campuses s) -> ~ denotes (param req) d)).
Proof.
  intros out name renamed Hs Hf Ht. subst out.
  unfold patch_campuses. rewrite Hs. cbn [negb]. fold name. rewrite Ht.
  destruct (update_and_read_run fault Campuses (param req)
              [("name", name)]
              "Campus not found" "Campus not found after update"
              ["universityId"; "name"] s [Connect] Hf) as [H1 H2].
  rewrite answer_after_connect;
    [|exact Hf|destruct H2 as [[? [? [? [_ [_ [_ [_ ->]]]]]]]|[-> _]];
               discriminate].
  split; [exact H1|].
  destruct H2 as [[pre [d [post [E1 [Hd [Hpre [E2 E3]]]]]]]|H2];
    [left|right; exact H2].
  cbn [bson_doc map fst snd set_all fold_left] in E2, E3.
  rewrite (bson_value_truthy _ Ht) in E2, E3.
  exists pre, d, post. repeat split; try assumption.
  rewrite E3. unfold normalized, pick. cbn [map doc_fields doc_id].
  now rewrite get_set_same, get_set_other by reflexivity.
Qed.

Lemma X17_witness :
  same_but Campuses Samples2.reference
    (snd (answer (patch_campuses Samples2.sound Samples2.rename_c2
                    Samples.alice Samples.super_admin) Samples2.reference))
  /\ ((exists pre d post,
         campuses Samples2.reference = (pre ++ d :: post)%list
         /\ denotes "C2" d
         /\ (forall y, In y pre -> ~ denotes "C2" y)
         /\ campuses
              (snd (answer (patch_campuses Samples2.sound Samples2.rename_c2
                              Samples.alice Samples.super_admin)
                           Samples2.reference))
            = (pre ++ mkDocument (doc_id d)
                        (set "name" (JStr " City 2 ") (doc_fields d))
                   :: post)%list
         /\ fst (answer (patch_campuses Samples2.sound Samples2.rename_c2
                           Samples.alice Samples.super_admin)
                        Samples2.reference)
            = Some (Json 200
                      (JObj [("id", JStr (id_text (doc_id d)));
                             ("universityId", get (doc_fields d) "universityId");
                             ("name", JStr " City 2 ")])))
      \/ (fst (answer (patch_campuses Samples2.sound Samples2.rename_c2
                         Samples.alice Samples.super_admin) Samples2.reference)
          = Some (Error 404 "Campus not found")
          /\ campuses
               (snd (answer (patch_campuses Samples2.sound Samples2.rename_c2
                               Samples.alice Samples.super_admin)
                            Samples2.reference))
             = campuses Samples2.reference
          /\ forall d, In d (campuses Samples2.reference) -> ~ denotes "C2" d)).
Proof.
  apply (X17_campus_rename_as_sent Samples2.sound Samples2.rename_c2
           Samples.alice Samples.super_admin Samples2.reference).
  - reflexivity.
  - intros c. reflexivity.
  - reflexivity.
Defined.

(** ** The public listings *)

Lemma query_filter_matches key q d :
  doc_matches (query_filter key q) d = true <-> asked_for key q d.
Proof.
  unfold query_filter, asked_for, doc_matches, query_value.
  destruct q as [u|]; [|cbn; tauto].
  cbn [truthy]. destruct (String.eqb u "") eqn:E; cbn [negb].
  - apply String.eqb_eq in E. cbn. tauto.
  - apply String.eqb_neq in E.
    cbn [matches forallb fields]. rewrite andb_true_r. tauto.
Qed.

Lemma listing_run fault c key q keys r s :
  reliable fault ->
  answer (catching r
            (getDb fault ;;;
             items <- find fault c (query_filter key q) ;;
             pure (Json 200 (JArr (map (normalized keys) items))))%action) s
  = (Some (Json 200
             (JArr (map (normalized keys)
                        (find_docs (query_filter key q) (docs c s))))),
     logged s [Connect; Find c (query_filter key q)]).
Proof.
  intros Hf. unfold answer, catching, recover, and_then, getDb.
  rewrite call_run, Hf, find_run, Hf, logged_logged, docs_logged.
  reflexivity.
Qed.

Lemma same_documents_logged s l : same_documents s (logged s l).
Proof. split; [reflexivity|]. intros c. apply docs_logged. Qed.

(** X18: the public listings of campuses and restaurants.  With no
    storage fault, GET /api/campuses answers 200 with the campuses that
    pass its universityId parameter, and GET /api/restaurants with the
    restaurants that pass its campusId parameter: all documents of the
    collection when the parameter is missing or empty, else exactly those
    matching it; each is rendered by its identifier and the listed
    fields, and the documents are left as they are.  No token is asked
    for. *)
Theorem X18_public_listings fault q s :
  reliable fault ->
  (exists l,
      fst (answer (get_campuses fault q) s)
      = Some (Json 200 (JArr (map (normalized ["universityId"; "name"]) l)))
      /\ forall d, In d l <-> In d (campuses s) /\ asked_for "universityId" q d)
  /\ (exists l,
        fst (answer (get_restaurants fault q) s)
        = Some (Json 200 (JArr (map (normalized restaurant_keys) l)))
        /\ forall d, In d l
                     <-> In d (restaurants (base s)) /\ asked_for "campusId" q d)
  /\ same_documents s (snd (answer (get_campuses fault q) s))
  /\ same_documents s (snd (answer (get_restaurants fault q) s)).
Proof.
  intros Hf. unfold get_campuses, get_restaurants.
  rewrite !listing_run by exact Hf. cbn [fst snd docs].
  split; [|split; [|split; apply same_documents_logged]].
  - eexists. split; [reflexivity|]. intros d. unfold find_docs.
    now rewrite filter_In, query_filter_matches.
  - eexists. split; [reflexivity|]. intros d. unfold find_docs.
    now rewrite filter_In, query_filter_matches.
Qed.

Lemma X18_witness :
  (exists l,
      fst (answer (get_campuses Samples2.sound (Some "u2")) Samples2.reference)
      = Some (Json 200 (JArr (map (normalized ["universityId"; "name"]) l)))
      /\ forall d, In d l <-> In d (campuses Samples2.reference)
                              /\ asked_for "universityId" (Some "u2") d)
  /\ (exists l,
        fst (answer (get_restaurants Samples2.sound (Some "u2"))
                    Samples2.reference)
        = Some (Json 200 (JArr (map (normalized restaurant_keys) l)))
        /\ forall d, In d l
                     <-> In d (restaurants (base Samples2.reference))
                         /\ asked_for "campusId" (Some "u2") d)
  /\ same_documents Samples2.reference
       (snd (answer (get_campuses Samples2.sound (Some "u2"))
                    Samples2.reference))
  /\ same_documents Samples2.reference
       (snd (answer (get_restaurants Samples2.sound (Some "u2"))
                    Samples2.reference)).
Proof.
  apply (X18_public_listings Samples2.sound (Some "u2") Samples2.reference).
  intros c. reflexivity.
Defined.

(** ** Restaurants *)

Lemma strict_eq_same a : scalar a = true -> truthy a = true -> strict_eq a a = true.
Proof.
  destruct a; try discriminate; cbn; intros _ H.
  - now destruct b.
  - apply Z.eqb_refl.
  - now destruct negative.
  - apply String.eqb_refl.
Qed.

Lemma bson_doc_restaurant_doc b :
  truthy (opt_prop b "campusId") = true ->
  truthy (opt_prop b "universityId") = true ->
  truthy (opt_prop b "name") = true ->
  bson_doc (restaurant_doc b) = restaurant_doc b.
Proof.
  intros H1 H2 H3. unfold restaurant_doc, bson_doc. cbn [map fst snd].
  rewrite !bson_value_truthy by assumption.
  assert (forall a d, truthy d = true -> bson_value (or_else a d) = or_else a d)
    as Hor.
  { intros a d Hd. unfold or_else. destruct (truthy a) eqn:E.
    - now apply bson_value_truthy.
    - now apply bson_value_truthy. }
  assert (forall a d, bson_value (or_else a (JStr d)) = or_else a (JStr d))
    as Hstr.
  { intros a d. unfold or_else. destruct (truthy a) eqn:E.
    - now apply bson_value_truthy.
    - reflexivity. }
  rewrite !Hstr.
  assert (bson_value (coalesce (opt_prop b "is24x7") (JBool true))
          = coalesce (opt_prop b "is24x7") (JBool true)) as ->
    by now destruct (opt_prop b "is24x7").
  reflexivity.
Qed.

(** X19: who may create a restaurant, and where.  With no storage fault,
    for a request that carries campusId, universityId and name (none of
    them falsy) and a new identifier that is not in use: a campus admin
    asking for a campus other than the one of the profile is answered
    403 and nothing is stored; every other caller, a campus admin asking
    for the own campus but also a super admin, a restaurant manager or a
    plain user asking for any campus, is answered 201, and one restaurant
    is appended whose fields are those of the request with the defaults
    filled in ('' for location and cuisine, 10:00 AM and 10:00 PM for the
    opening hours, true for is24x7); the other collections and the
    orders are untouched. *)
Theorem X19_restaurant_creation env fault req user userProfile s :
  let b := body_or_empty req in
  let out := answer (post_restaurants env fault req user userProfile) s in
  reliable fault ->
  truthy (opt_prop b "campusId") = true ->
  truthy (opt_prop b "universityId") = true ->
  truthy (opt_prop b "name") = true ->
  ~ In (Oid (new_oid env)) (map doc_id (restaurants (base s))) ->
  (isCampusAdmin userProfile = true ->
   opt_prop b "campusId" <> opt_prop userProfile "campusId" ->
   fst out = Some (Error 403 "Not allowed for this campus")
   /\ same_documents s (snd out))
  /\ (isCampusAdmin userProfile = false
      \/ (opt_prop b "campusId" = opt_prop userProfile "campusId"
          /\ scalar (opt_prop b "campusId") = true) ->
      fst out
      = Some (Json 201 (JObj (restaurant_doc b
                              ++ [("_id", JStr (new_oid env))])%list))
      /\ restaurants (base (snd out))
         = (restaurants (base s)
            ++ [mkDocument (Oid (new_oid env)) (restaurant_doc b)])%list
      /\ same_but Restaurants s (snd out)).
Proof.
  intros b out Hf H1 H2 H3 Hid. subst out.
  unfold answer, post_restaurants, catching, recover, and_then, getDb.
  rewrite call_run, Hf. fold b. rewrite H1, H2, H3. cbn [negb orb].
  split.
  - intros Ha Hne. rewrite Ha. cbn [andb].
    destruct (strict_eq _ _) eqn:E.
    + apply strict_eq_eq in E. contradiction.
    + cbn. split; [reflexivity|]. apply same_documents_logged.
  - intros Hok.
    assert ((isCampusAdmin userProfile
             && negb (strict_eq (opt_prop b "campusId")
                                (opt_prop userProfile "campusId")))%bool
            = false) as ->.
    { destruct Hok as [->|[E Hs]]; [reflexivity|].
      rewrite <- E, strict_eq_same by assumption. apply andb_false_r. }
    rewrite insertOne_docs, Hf. cbv zeta. cbn [orb].
    rewrite docs_logged. cbn [docs].
    destruct (existsb _ (restaurants (base s))) eqn:E.
    { apply existsb_doc_id_In in E. contradiction. }
    rewrite logged_logged, bson_doc_restaurant_doc by assumption.
    cbn [fst snd pure id_text]. split; [reflexivity|].
    split; [reflexivity|]. apply same_but_with_docs.
Qed.

Lemma X19_witness :
  fst (answer (post_restaurants Samples.env_plain Samples2.sound
                 Samples2.create_restaurant Samples.alice Samples.student)
              Samples2.reference)
  = Some (Json 201
            (JObj [("campusId", JStr "C9"); ("universityId", JStr "u1");
                   ("name", JStr "Cafe 9"); ("location", JStr "");
                   ("cuisine", JStr ""); ("openTime", JStr "10:00 AM");
                   ("closeTime", JStr "10:00 PM"); ("is24x7", JBool false);
                   ("_id", JStr "507f1f77bcf86cd799439011")]))
  /\ restaurants
       (base (snd (answer (post_restaurants Samples.env_plain Samples2.sound
                             Samples2.create_restaurant Samples.alice
                             Samples.student) Samples2.reference)))
     = (restaurants (base Samples2.reference)
        ++ [mkDocument (Oid "507f1f77bcf86cd799439011")
              (restaurant_doc (body_or_empty Samples2.create_restaurant))])%list
  /\ same_but Restaurants Samples2.reference
       (snd (answer (post_restaurants Samples.env_plain Samples2.sound
                       Samples2.create_restaurant Samples.alice
                       Samples.student) Samples2.reference)).
Proof.
  refine (proj2 (X19_restaurant_creation Samples.env_plain Samples2.sound
                   Samples2.create_restaurant Samples.alice Samples.student
                   Samples2.reference _ _ _ _ _) _).
  - intros c. reflexivity.
  - reflexivity.
  - reflexivity.
  - reflexivity.
  - cbn. intros [H|[H|[]]]; discriminate H.
  - left. reflexivity.
Defined.

(** A removal by object identifier leaves the documents stored under a
    legacy string identifier. *)
Lemma delete_doc_keeps_legacy h coll d x :
  In d coll -> doc_id d = Sid x ->
  In d (fst (delete_doc (FAll [FId (Oid h)]) coll)).
Proof.
  intros Hd Hx. induction coll as [|y r IH]; [destruct Hd|].
  cbn [delete_doc].
  destruct (doc_matches (FAll [FId (Oid h)]) y) eqn:E.
  - destruct Hd as [->|Hd]; [|exact Hd].
    unfold doc_matches in E. cbn in E. rewrite Hx in E. discriminate E.
  - destruct (delete_doc (FAll [FId (Oid h)]) r) as [r' n]. cbn [fst] in *.
    destruct Hd as [->|Hd]; [now left|right; now apply IH].
Qed.

Lemma ObjectId_Oid s d : ObjectId s = Some d -> exists h, d = Oid h.
Proof.
  unfold ObjectId. destruct (_ && _)%bool; [|discriminate].
  intros [= <-]. now eexists.
Qed.

Lemma find_doc_legacy x coll d :
  In d coll -> doc_id d = Sid x ->
  exists d', find_doc (FAll [FId (Sid x)]) coll = Some d'
             /\ In d' coll /\ doc_id d' = Sid x.
Proof.
  intros Hd Hx. unfold find_doc.
  destruct (List.find (doc_matches (FAll [FId (Sid x)])) coll) as [d'|] eqn:E.
  - exists d'. split; [reflexivity|].
    apply find_some in E. destruct E as [Hin Hm]. split; [exact Hin|].
    unfold doc_matches in Hm. cbn [matches forallb _id] in Hm.
    rewrite andb_true_r in Hm. apply docid_eqb_eq in Hm. now symmetry.
  - exfalso. apply (find_none _ _ E) in Hd.
    unfold doc_matches in Hd. cbn in Hd. rewrite Hx in Hd. cbn in Hd.
    now rewrite String.eqb_refl in Hd.
Qed.

(** X20: a restaurant stored under a legacy string identifier can be
    read but not removed.  DELETE /api/restaurants/:id looks a restaurant
    up by object identifier only, so whatever the request, the caller and
    the faults, every restaurant whose stored identifier is a plain string
    is still there afterwards; and when that string is not the rendering
    of an object identifier the answer (with no storage fault) is 400,
    Invalid restaurant ID format, although GET /api/restaurants/:id,
    which falls back to the plain string, answers 200 with a restaurant
    stored under it (its fields after an id key). *)
Theorem X20_legacy_restaurant_kept fault req user userProfile s d x :
  In d (restaurants (base s)) ->
  doc_id d = Sid x ->
  In d (restaurants
          (base (snd (answer (delete_restaurants fault req user userProfile) s))))
  /\ (reliable fault -> param req = x -> ObjectId x = None ->
      fst (answer (delete_restaurants fault req user userProfile) s)
      = Some (Error 400 "Invalid restaurant ID format")
      /\ exists d',
           In d' (restaurants (base s))
           /\ doc_id d' = Sid x
           /\ fst (answer (get_restaurant fault x) s)
              = Some (Json 200 (JObj (set_all (doc_entries d')
                                              [("id", JStr x)])))).
Proof.
  intros Hd Hx. split.
  - unfold answer, delete_restaurants, catching, recover, and_then, getDb.
    rewrite call_run. destruct (fault Connect); [exact Hd|].
    destruct (ObjectId (param req)) as [i|] eqn:Ei; [|exact Hd].
    destruct (ObjectId_Oid _ _ Ei) as [h ->].
    rewrite findOne_run. destruct (fault (FindOne _ _)); [exact Hd|].
    destruct (find_doc _ _) as [r|]; [|exact Hd].
    destruct (_ && _)%bool; [exact Hd|].
    rewrite deleteOne_docs. cbv zeta.
    destruct (fault (DeleteOne _ _)); [exact Hd|].
    cbn [fst snd pure]. rewrite !docs_logged. cbn [docs with_docs base restaurants].
    now apply delete_doc_keeps_legacy with (x := x).
  - intros Hf Hp Ho. split.
    + unfold answer, delete_restaurants, catching, recover, and_then, getDb.
      now rewrite call_run, Hf, Hp, Ho.
    + destruct (find_doc_legacy x _ d Hd Hx) as [d' [Hfind [Hin Hid]]].
      exists d'. split; [exact Hin|]. split; [exact Hid|].
      unfold answer, get_restaurant, catching, recover, and_then, getDb, raise.
      rewrite call_run, Hf, Ho, findOne_run, Hf, docs_logged.
      cbn [docs]. rewrite Hfind. cbn [fst pure]. now rewrite Hid.
Qed.

Lemma X20_witness :
  In (mkDocument (Sid "r1") [("campusId", JStr "C1"); ("name", JStr "KFC")])
     (restaurants
        (base (snd (answer (delete_restaurants Samples2.sound
                              (Samples2.request "r1" JUndefined) Samples.alice
                              Samples.super_admin) Samples2.reference))))
  /\ fst (answer (delete_restaurants Samples2.sound
                    (Samples2.request "r1" JUndefined) Samples.alice
                    Samples.super_admin) Samples2.reference)
     = Some (Error 400 "Invalid restaurant ID format")
  /\ fst (answer (get_restaurant Samples2.sound "r1") Samples2.reference)
     = Some (Json 200 (JObj [("id", JStr "r1"); ("_id", JStr "r1");
                             ("campusId", JStr "C1"); ("name", JStr "KFC")])).
Proof.
  destruct (X20_legacy_restaurant_kept Samples2.sound
              (Samples2.request "r1" JUndefined) Samples.alice
              Samples.super_admin Samples2.reference
              (mkDocument (Sid "r1")
                 [("campusId", JStr "C1"); ("name", JStr "KFC")]) "r1")
    as [H1 H2].
  - now left.
  - reflexivity.
  - split; [exact H1|].
    destruct H2 as [H2 _]; try reflexivity.
    + intros c. reflexivity.
    + split; [exact H2|reflexivity].
Defined.

(** ** Campus settings *)

Lemma find_doc_none f coll :
  (forall d, In d coll -> doc_matches f d = false) -> find_doc f coll = None.
Proof.
  intros H. unfold find_doc. induction coll as [|x r IH]; [reflexivity|].
  cbn. rewrite (H x) by now left. apply IH. intros d Hd. apply H. now right.
Qed.

Lemma settings_filter_matches campusId d :
  doc_matches (FAll [FField "campusId" (JStr campusId)]) d
  = field_matches "campusId" (JStr campusId) (doc_fields d).
Proof. unfold doc_matches. cbn [matches forallb fields]. apply andb_true_r. Qed.

(** X21: reading campus settings.  With no storage fault, GET
    /api/campus-settings/:campusId changes no document; a campus admin
    asking for a campus other than the one of the profile is answered
    403; every other caller gets 200 with the first stored settings
    document of that campus, or, when none is stored, with the default
    settings: a delivery charge of 150 per person and the default payment
    account.  GET /api/campus-settings answers a super admin with all the
    stored settings documents and everybody else with 403. *)
Theorem X21_campus_settings fault req user userProfile s :
  let out := answer (get_campus_settings fault req user userProfile) s in
  let every := answer (get_all_campus_settings fault req user userProfile) s in
  reliable fault ->
  same_documents s (snd out)
  /\ (isCampusAdmin userProfile = true ->
      opt_prop userProfile "campusId" <> JStr (param req) ->
      fst out
      = Some (Error 403 "You can only view settings for your assigned campus"))
  /\ (isCampusAdmin userProfile = false
      \/ opt_prop userProfile "campusId" = JStr (param req) ->
      ((forall d, In d (campusSettings s) ->
          field_matches "campusId" (JStr (param req)) (doc_fields d) = false) ->
       fst out = Some (Json 200 (default_settings (param req))))
      /\ forall pre d post,
           campusSettings s = (pre ++ d :: post)%list ->
           (forall y, In y pre ->
              field_matches "campusId" (JStr (param req)) (doc_fields y) = false) ->
           field_matches "campusId" (JStr (param req)) (doc_fields d) = true ->
           fst out = Some (Json 200 (doc_json d)))
  /\ same_documents s (snd every)
  /\ fst every
     = Some (if isSuperAdmin userProfile
             then Json 200 (JArr (map doc_json (campusSettings s)))
             else Error 403 "Only super admin can view all campus settings").
Proof.
  intros out every Hf. subst out every.
  assert (Hall : same_documents s
                   (snd (answer (get_all_campus_settings fault req user
                                   userProfile) s))
                 /\ fst (answer (get_all_campus_settings fault req user
                                   userProfile) s)
                    = Some (if isSuperAdmin userProfile
                            then Json 200
                                   (JArr (map doc_json (campusSettings s)))
                            else Error 403
                                   "Only super admin can view all campus settings")).
  { unfold answer, get_all_campus_settings, catching, recover, and_then, getDb.
    destruct (isSuperAdmin userProfile); cbn [negb].
    - rewrite call_run, Hf, find_run, Hf, logged_logged, docs_logged.
      cbn [docs fst snd pure]. rewrite find_docs_all.
      split; [apply same_documents_logged|reflexivity].
    - cbn. split; [split; [reflexivity|intros c; reflexivity]|reflexivity]. }
  unfold answer, get_campus_settings, catching, recover, and_then, getDb.
  rewrite call_run, Hf.
  split; [|split; [|split; [|exact Hall]]].
  - destruct (_ && _)%bool; [apply same_documents_logged|].
    rewrite findOne_run, Hf, logged_logged.
    destruct (find_doc _ _); apply same_documents_logged.
  - intros Ha Hne. rewrite Ha. apply strict_eq_refl_str in Hne.
    now rewrite Hne.
  - intros Hok.
    assert ((isCampusAdmin userProfile
             && negb (strict_eq (opt_prop userProfile "campusId")
                                (JStr (param req))))%bool = false) as ->.
    { destruct Hok as [-> | ->]; [reflexivity|].
      cbn [strict_eq]. rewrite String.eqb_refl. apply andb_false_r. }
    rewrite findOne_run, Hf, docs_logged. cbn [docs].
    split.
    + intros Hnone. rewrite find_doc_none; [reflexivity|].
      intros d Hd. rewrite settings_filter_matches. now apply Hnone.
    + intros pre d post E Hpre Hd. rewrite E, find_doc_first; [reflexivity| |].
      * intros y Hy. rewrite settings_filter_matches. now apply Hpre.
      * now rewrite settings_filter_matches.
Qed.

Lemma X21_witness :
  fst (answer (get_campus_settings Samples2.sound
                 (Samples2.request "C7" JUndefined) Samples.alice
                 Samples.student) Samples2.reference)
  = Some (Json 200 (default_settings "C7"))
  /\ fst (answer (get_campus_settings Samples2.sound
                    (Samples2.request "C1" JUndefined) Samples.alice
                    Samples.campus_admin) Samples2.reference)
     = Some (Json 200
               (JObj [("_id", JStr "507f1f77bcf86cd7994390bb");
                      ("campusId", JStr "C1");
                      ("deliveryChargePerPerson", JNum 100)])).
Proof.
  split.
  - destruct (X21_campus_settings Samples2.sound
                (Samples2.request "C7" JUndefined) Samples.alice
                Samples.student Samples2.reference) as [_ [_ [H _]]].
    + intros c. reflexivity.
    + destruct H as [H _]; [now left|]. apply H.
      intros d [<-|[]]. reflexivity.
  - destruct (X21_campus_settings Samples2.sound
                (Samples2.request "C1" JUndefined) Samples.alice
                Samples.campus_admin Samples2.reference) as [_ [_ [H _]]].
    + intros c. reflexivity.
    + destruct H as [_ H]; [now right|].
      apply (H [] (mkDocument (Oid "507f1f77bcf86cd7994390bb")
                     [("campusId", JStr "C1");
                      ("deliveryChargePerPerson", JNum 100)]) []);
        [reflexivity|intros y []|reflexivity].
Defined.

(** ** What each endpoint can touch *)

Section Keeps.

Variable P : Store -> Store -> Prop.
Hypothesis P_refl : forall s, P s s.
Hypothesis P_trans : forall s1 s2 s3, P s1 s2 -> P s2 s3 -> P s1 s3.

Lemma keeps_pure {A} (a : A) : keeps P (pure a).
Proof. intros s. apply P_refl. Qed.

Lemma keeps_send {A} r : keeps P (@send A r).
Proof. intros s. apply P_refl. Qed.

Lemma keeps_raise {A} : keeps P (@raise A).
Proof. intros s. apply P_refl. Qed.

Lemma keeps_and_then {A B} (h : Action A) (k : A -> Action B) :
  keeps P h -> (forall a, keeps P (k a)) -> keeps P (and_then h k).
Proof.
  intros Hh Hk s. unfold and_then. specialize (Hh s).
  destruct (h s) as [[a|r|] s1]; cbn [snd] in *; try exact Hh.
  apply (P_trans _ s1); [exact Hh|apply Hk].
Qed.

Lemma keeps_recover {A} (h k : Action A) :
  keeps P h -> keeps P k -> keeps P (recover h k).
Proof.
  intros Hh Hk s. unfold recover. specialize (Hh s).
  destruct (h s) as [[a|r|] s1]; cbn [snd] in *; try exact Hh.
  apply (P_trans _ s1); [exact Hh|apply Hk].
Qed.

Lemma keeps_catching r h : keeps P h -> keeps P (catching r h).
Proof. intros H. apply keeps_recover; [exact H|apply keeps_send]. Qed.

Lemma keeps_answer h s : keeps P h -> P s (snd (answer h s)).
Proof.
  intros H. unfold answer. specialize (H s).
  now destruct (h s) as [[a|r|] s1].
Qed.

End Keeps.

Lemma same_but_refl c s : same_but c s s.
Proof. split; auto. Qed.

Lemma same_but_trans c s1 s2 s3 :
  same_but c s1 s2 -> same_but c s2 s3 -> same_but c s1 s3.
Proof.
  intros [H1 H2] [H3 H4]. split; [congruence|].
  intros c' Hc. rewrite H4, H2; auto.
Qed.

Lemma same_documents_refl s : same_documents s s.
Proof. split; auto. Qed.

Lemma same_documents_trans s1 s2 s3 :
  same_documents s1 s2 -> same_documents s2 s3 -> same_documents s1 s3.
Proof.
  intros [H1 H2] [H3 H4]. split; [congruence|].
  intros c. now rewrite H4, H2.
Qed.

Lemma same_documents_but c s s' : same_documents s s' -> same_but c s s'.
Proof. intros [H1 H2]. split; auto. Qed.

Section KeepsCalls.

Variable env : Env.
Variable fault : Call -> bool.

Lemma keeps_call c : keeps same_documents (call fault c).
Proof. intros s. rewrite call_run. apply same_documents_logged. Qed.

Lemma keeps_find c f : keeps same_documents (find fault c f).
Proof. intros s. rewrite find_run. apply same_documents_logged. Qed.

Lemma keeps_findOne c f : keeps same_documents (findOne fault c f).
Proof. intros s. rewrite findOne_run. apply same_documents_logged. Qed.

Lemma keeps_insertOne c doc : keeps (same_but c) (insertOne env fault c doc).
Proof.
  intros s. rewrite insertOne_docs. cbv zeta.
  destruct (_ || _)%bool; [apply same_but_logged|apply same_but_with_docs].
Qed.

Lemma keeps_updateOne c f update :
  keeps (same_but c) (updateOne fault c f update).
Proof.
  intros s. rewrite updateOne_docs. cbv zeta.
  destruct (fault _); [apply same_but_logged|apply same_but_with_docs].
Qed.

Lemma keeps_deleteOne c f : keeps (same_but c) (deleteOne fault c f).
Proof.
  intros s. rewrite deleteOne_docs. cbv zeta.
  destruct (fault _); [apply same_but_logged|apply same_but_with_docs].
Qed.

Lemma keeps_weaken {A} c (h : Action A) :
  keeps same_documents h -> keeps (same_but c) h.
Proof. intros H s. apply same_documents_but, H. Qed.

End KeepsCalls.

(** A handler is taken apart along its control flow. *)
Ltac keeps_steps refl trans :=
  repeat first
    [ apply keeps_insertOne
    | apply keeps_updateOne
    | apply keeps_deleteOne
    | apply keeps_call
    | apply keeps_find
    | apply keeps_findOne
    | apply keeps_weaken; first [apply keeps_call|apply keeps_find
                                |apply keeps_findOne]
    | apply keeps_pure; apply refl
    | apply keeps_send; apply refl
    | apply keeps_raise; apply refl
    | apply keeps_catching; [apply refl|apply trans|]
    | apply keeps_recover; [apply trans| |]
    | apply keeps_and_then; [apply trans| |intros ?]
    | match goal with
      | |- keeps _ (if ?b then _ else _) => destruct b
      | |- keeps _ (match ?x with _ => _ end) => destruct x
      end ].

(** Each writing handler leaves the orders and every collection but its
    own as they are, and each reading handler leaves every document as
    it is, whatever the caller, the request and the faults. *)
Lemma handlers_keep env fault req user userProfile :
  keeps (same_but Universities) (post_universities env fault req user userProfile)
  /\ keeps (same_but Universities) (patch_universities fault req user userProfile)
  /\ keeps (same_but Universities) (delete_universities fault req user userProfile)
  /\ keeps (same_but Campuses) (post_campuses env fault req user userProfile)
  /\ keeps (same_but Campuses) (patch_campuses fault req user userProfile)
  /\ keeps (same_but Campuses) (delete_campuses fault req user userProfile)
  /\ keeps (same_but Restaurants) (post_restaurants env fault req user userProfile)
  /\ keeps (same_but Restaurants) (delete_restaurants fault req user userProfile)
  /\ keeps same_documents (get_campus_settings fault req user userProfile)
  /\ keeps same_documents (get_all_campus_settings fault req user userProfile).
Proof.
  unfold post_universities, patch_universities, delete_universities,
    post_campuses, patch_campuses, delete_campuses, post_restaurants,
    delete_restaurants, get_campus_settings, get_all_campus_settings,
    update_and_read, delete_by_id, getDb.
  repeat match goal with |- _ /\ _ => split end;
    first [keeps_steps same_documents_refl same_documents_trans; fail
          |keeps_steps same_but_refl same_but_trans].
Qed.

(** The public listings leave every document as it is. *)
Lemma listings_keep fault q id :
  keeps same_documents (get_universities fault)
  /\ keeps same_documents (get_campuses fault q)
  /\ keeps same_documents (get_restaurants fault q)
  /\ keeps same_documents (get_restaurant fault id).
Proof.
  unfold get_universities, get_campuses, get_restaurants, get_restaurant, getDb.
  repeat match goal with |- _ /\ _ => split end;
    keeps_steps same_documents_refl same_documents_trans.
Qed.

Lemma store_eta s :
  mkStore (base s) (universities s) (campuses s) (campusSettings s) (calls s)
  = s.
Proof. now destruct s. Qed.

(** The three ways a request leaves the middlewares in front of a
    reference-data handler. *)
Lemma guarded_cases env handler req s :
  (exists r, answer (guarded env handler req) s = (Some (Plain r), s)
             /\ In (status_code r) [401; 403; 500])
  \/ exists user userProfile users,
       authenticated env req user
       /\ firestore env = Some users
       /\ users (uid user) = FsData userProfile
       /\ recognized_role userProfile = true
       /\ answer (guarded env handler req) s
          = answer (handler req user userProfile) s.
Proof.
  unfold guarded, answer, and_then, lift.
  destruct (verify_outcomes env req (base s)) as [[user [Ha ->]]|[msg ->]];
    rewrite store_eta.
  2:{ left. eexists. split; [reflexivity|]. cbn. auto. }
  cbn [base].
  destruct (profile_outcomes env user (base s))
    as [[userProfile [users [Hf [Hu [Hr ->]]]]]|[r [-> Hc]]];
    rewrite store_eta.
  - right. exists user, userProfile, users. auto.
  - left. exists r. split; [reflexivity|]. cbn in *. tauto.
Qed.

(** X22: only a super admin changes the universities and the campuses.
    Take any request to any of the ten reference-data endpoints behind
    the middlewares, with any storage faults.  If the universities or the
    campuses are not exactly as before afterwards, then the request
    carried, as Bearer token, a token that the identity provider verifies
    as that of a user, and the profile stored for that very user has the
    role superAdmin.  And none of these endpoints ever changes an order
    or a stored campus setting. *)
Theorem X22_only_super_admin_changes env fault req s E :
  In E [POST_api_universities env fault; PATCH_api_universities_id env fault;
        DELETE_api_universities_id env fault; POST_api_campuses env fault;
        PATCH_api_campuses_id env fault; DELETE_api_campuses_id env fault;
        POST_api_restaurants env fault; DELETE_api_restaurants_id env fault;
        GET_api_campus_settings_id env fault;
        GET_api_campus_settings env fault] ->
  let s' := snd (answer (E req) s) in
  orders (base s') = orders (base s)
  /\ campusSettings s' = campusSettings s
  /\ (universities s' <> universities s \/ campuses s' <> campuses s ->
      exists user userProfile users,
        authenticated env req user
        /\ firestore env = Some users
        /\ users (uid user) = FsData userProfile
        /\ isSuperAdmin userProfile = true).
Proof.
  intros HE s'. subst s'.
  assert (exists h,
            E = guarded env h
            /\ (forall user userProfile,
                  let t := snd (answer (h req user userProfile) s) in
                  orders (base t) = orders (base s)
                  /\ campusSettings t = campusSettings s
                  /\ (isSuperAdmin userProfile = false ->
                      universities t = universities s
                      /\ campuses t = campuses s)))
    as [h [-> Hh]].
  { cbn in HE.
    destruct HE as [<-|[<-|[<-|[<-|[<-|[<-|[<-|[<-|[<-|[<-|[]]]]]]]]]]].
    1-6: eexists; split; [reflexivity|]; intros user userProfile t;
      pose proof (handlers_keep env fault req user userProfile) as H;
      match goal with
      | t := snd (answer (?h _ _ _) _) |- _ =>
          match type of H with
          | context [keeps (same_but ?c) (h _ _ _)] =>
              assert (Hk : same_but c s t)
                by (apply keeps_answer; tauto);
              destruct Hk as [Ho Hd];
              split; [exact Ho|];
              split; [apply (Hd CampusSettings); discriminate|];
              intros Hn;
              destruct (writes_refused env fault req user userProfile s h Hn)
                as [msg Hw]; [cbn; tauto|];
              subst t; rewrite Hw; split; reflexivity
          end
      end.
    1-2: eexists; split; [reflexivity|]; intros user userProfile t;
      pose proof (handlers_keep env fault req user userProfile) as H;
      match goal with
      | t := snd (answer (?h _ _ _) _) |- _ =>
          assert (Hk : same_but Restaurants s t)
            by (apply keeps_answer; tauto);
          destruct Hk as [Ho Hd];
          split; [exact Ho|];
          split; [apply (Hd CampusSettings); discriminate|];
          intros _; split;
          [apply (Hd Universities)|apply (Hd Campuses)]; discriminate
      end.
    1-2: eexists; split; [reflexivity|]; intros user userProfile t;
      pose proof (handlers_keep env fault req user userProfile) as H;
      match goal with
      | t := snd (answer (?h _ _ _) _) |- _ =>
          assert (Hk : same_documents s t)
            by (apply keeps_answer; tauto);
          destruct Hk as [Ho Hd];
          split; [exact Ho|];
          split; [apply (Hd CampusSettings)|];
          intros _; split;
          [apply (Hd Universities)|apply (Hd Campuses)]
      end. }
  destruct (guarded_cases env h req s)
    as [[r [-> _]]|[user [userProfile [users [Ha [Hf [Hu [_ ->]]]]]]]].
  { cbn [snd]. repeat split; try reflexivity.
    intros [H|H]; now contradiction H. }
  destruct (Hh user userProfile) as [Ho [Hc Hn]].
  split; [exact Ho|]. split; [exact Hc|].
  intros Hchanged. exists user, userProfile, users.
  split; [exact Ha|]. split; [exact Hf|]. split; [exact Hu|].
  destruct (isSuperAdmin userProfile); [reflexivity|].
  destruct (Hn eq_refl) as [H1 H2]. destruct Hchanged as [H|H]; contradiction.
Qed.

Lemma X22_witness :
  orders (base (snd (answer (DELETE_api_universities_id Samples2.env_admin
                               Samples2.sound
                               (Samples2.request "u1" JUndefined))
                            Samples2.reference)))
  = orders (base Samples2.reference)
  /\ campusSettings
       (snd (answer (DELETE_api_universities_id Samples2.env_admin
                       Samples2.sound (Samples2.request "u1" JUndefined))
                    Samples2.reference))
     = campusSettings Samples2.reference
  /\ (universities
        (snd (answer (DELETE_api_universities_id Samples2.env_admin
                        Samples2.sound (Samples2.request "u1" JUndefined))
                     Samples2.reference))
      <> universities Samples2.reference
      \/ campuses
           (snd (answer (DELETE_api_universities_id Samples2.env_admin
                           Samples2.sound (Samples2.request "u1" JUndefined))
                        Samples2.reference))
         <> campuses Samples2.reference ->
      exists user userProfile users,
        authenticated Samples2.env_admin
          (Samples2.request "u1" JUndefined) user
        /\ firestore Samples2.env_admin = Some users
        /\ users (uid user) = FsData userProfile
        /\ isSuperAdmin userProfile = true).
Proof.
  apply (X22_only_super_admin_changes Samples2.env_admin Samples2.sound
           (Samples2.request "u1" JUndefined) Samples2.reference
           (DELETE_api_universities_id Samples2.env_admin Samples2.sound)).
  cbn. tauto.
Defined.

(** ** A created campus and its university *)

Lemma university_filter_matches u d :
  u <> "" ->
  doc_matches (query_filter "universityId" (Some u)) d
  = field_matches "universityId" (JStr u) (doc_fields d).
Proof.
  intros Hu. apply String.eqb_neq in Hu.
  unfold query_filter, doc_matches, query_value. cbn [truthy]. rewrite Hu.
  cbn [negb matches forallb fields]. apply andb_true_r.
Qed.

Lemma university_field_matches u u' name :
  field_matches "universityId" (JStr u')
                [("universityId", JStr u); ("name", name)]
  = String.eqb u u'.
Proof.
  unfold field_matches.
  change (candidates "universityId" [("universityId", JStr u); ("name", name)])
    with [JStr u].
  cbn [existsb nullish andb]. unfold value_matches. cbn [bson_eqb].
  now rewrite !orb_false_r.
Qed.

Lemma find_docs_app f (l1 l2 : list Document) :
  find_docs f (l1 ++ l2) = (find_docs f l1 ++ find_docs f l2)%list.
Proof. apply filter_app. Qed.

(** An accepted creation of a campus passed every check of the
    handler. *)
Lemma post_campuses_created env fault req user userProfile s v :
  fst (answer (post_campuses env fault req user userProfile) s)
  = Some (Json 201 v) ->
  let universityId := opt_prop (body_or_empty req) "universityId" in
  let name := opt_prop (body_or_empty req) "name" in
  isSuperAdmin userProfile = true
  /\ truthy universityId = true
  /\ truthy name = true
  /\ v = JObj [("id", JStr (new_oid env)); ("universityId", universityId);
               ("name", name)]
  /\ snd (answer (post_campuses env fault req user userProfile) s)
     = with_docs Campuses
         (campuses s ++ [mkDocument (Oid (new_oid env))
                           [("universityId", universityId); ("name", name)]])
         (logged s [Connect;
                    InsertOne Campuses [("universityId", universityId);
                                        ("name", name)]]).
Proof.
  intros H universityId name. revert H.
  unfold answer, post_campuses.
  destruct (isSuperAdmin userProfile); cbn [negb]; [|discriminate].
  unfold catching, recover, and_then, getDb. rewrite call_run.
  destruct (fault Connect); [discriminate|].
  fold universityId name.
  destruct (truthy universityId) eqn:Hu; cbn [negb orb]; [|discriminate].
  destruct (truthy name) eqn:Ht; cbn [negb]; [|discriminate].
  rewrite insertOne_docs. cbv zeta.
  destruct (fault (InsertOne _ _)); [discriminate|]. cbn [orb].
  rewrite docs_logged. cbn [docs].
  destruct (existsb _ (campuses s)) eqn:E; [discriminate|].
  cbn [fst snd pure]. intros [= <-].
  rewrite logged_logged.
  repeat split.
  cbn [bson_doc map fst snd].
  now rewrite (bson_value_truthy _ Hu), (bson_value_truthy _ Ht).
Qed.

(** X23: a created campus is listed under its university, and under no
    other.  When POST /api/campuses answers 201 for a request whose
    universityId is a string, a following GET /api/campuses with that
    universityId (and no storage fault) answers what it answered before,
    followed by the very entry the creation returned, while the listing
    of every other university is what it was. *)
Theorem X23_created_campus_is_listed
    env fault fault' req user userProfile s v u :
  let s' := snd (answer (post_campuses env fault req user userProfile) s) in
  fst (answer (post_campuses env fault req user userProfile) s)
  = Some (Json 201 v) ->
  opt_prop (body_or_empty req) "universityId" = JStr u ->
  reliable fault' ->
  (exists l,
      fst (answer (get_campuses fault' (Some u)) s) = Some (Json 200 (JArr l))
      /\ fst (answer (get_campuses fault' (Some u)) s')
         = Some (Json 200 (JArr (l ++ [v]))))
  /\ forall u', u' <> "" -> u' <> u ->
       fst (answer (get_campuses fault' (Some u')) s')
       = fst (answer (get_campuses fault' (Some u')) s).
Proof.
  intros s' H Hu Hf. subst s'.
  destruct (post_campuses_created _ _ _ _ _ _ _ H)
    as [_ [Htu [_ [Hv Hst]]]].
  rewrite Hst, Hu in *. clear Hst.
  assert (Hne : u <> "").
  { intros ->. discriminate Htu. }
  unfold get_campuses. rewrite !listing_run by exact Hf.
  cbn [fst docs with_docs campuses]. rewrite !find_docs_app.
  split.
  - eexists. split; [reflexivity|].
    rewrite map_app. do 3 f_equal.
    unfold find_docs. cbn [filter].
    rewrite university_filter_matches by exact Hne.
    cbn [restaurant_fields].
    rewrite university_field_matches, String.eqb_refl.
    cbn [map]. now rewrite Hv.
  - intros u' Hu' Hd. rewrite !listing_run by exact Hf.
    cbn [fst docs with_docs campuses]. rewrite find_docs_app.
    unfold find_docs at 2. cbn [filter].
    rewrite university_filter_matches by exact Hu'.
    cbn [restaurant_fields]. rewrite university_field_matches.
    apply String.eqb_neq in Hd. rewrite String.eqb_sym in Hd. rewrite Hd.
    now rewrite app_nil_r.
Qed.

Lemma X23_witness :
  (exists l,
      fst (answer (get_campuses Samples2.sound (Some "u1")) Samples2.reference)
      = Some (Json 200 (JArr l))
      /\ fst (answer (get_campuses Samples2.sound (Some "u1"))
                (snd (answer (post_campuses Samples.env_plain Samples2.sound
                                Samples2.create_campus Samples.alice
                                Samples.super_admin) Samples2.reference)))
         = Some (Json 200
                   (JArr (l ++ [JObj [("id", JStr "507f1f77bcf86cd799439011");
                                      ("universityId", JStr "u1");
                                      ("name", JStr "North")]]))))
  /\ forall u', u' <> "" -> u' <> "u1" ->
       fst (answer (get_campuses Samples2.sound (Some u'))
              (snd (answer (post_campuses Samples.env_plain Samples2.sound
                              Samples2.create_campus Samples.alice
                              Samples.super_admin) Samples2.reference)))
       = fst (answer (get_campuses Samples2.sound (Some u'))
                     Samples2.reference).
Proof.
  apply (X23_created_campus_is_listed Samples.env_plain Samples2.sound
           Samples2.sound Samples2.create_campus Samples.alice
           Samples.super_admin Samples2.reference).
  - reflexivity.
  - reflexivity.
  - intros c. reflexivity.
Defined.

(** ** Removing a restaurant *)

Lemma oid_filter_matches h d :
  doc_matches (FAll [FId (Oid h)]) d = true <-> doc_id d = Oid h.
Proof.
  unfold doc_matches. cbn [matches forallb _id]. rewrite andb_true_r.
  rewrite docid_eqb_eq. split; intros H; now symmetry.
Qed.

Lemma oid_filter_not h d :
  doc_id d <> Oid h -> doc_matches (FAll [FId (Oid h)]) d = false.
Proof.
  intros H. destruct (doc_matches (FAll [FId (Oid h)]) d) eqn:E;
    [|reflexivity].
  apply oid_filter_matches in E. contradiction.
Qed.

Lemma delete_doc_first f pre d post :
  (forall y, In y pre -> doc_matches f y = false) ->
  doc_matches f d = true ->
  delete_doc f (pre ++ d :: post)%list = ((pre ++ post)%list, 1%nat).
Proof.
  intros Hpre Hd. induction pre as [|x pre IH]; cbn.
  - now rewrite Hd.
  - rewrite (Hpre x) by now left.
    rewrite IH; [reflexivity|]. intros y Hy. apply Hpre. now right.
Qed.

Lemma delete_restaurants_keeps fault req user userProfile :
  keeps (same_but Restaurants) (delete_restaurants fault req user userProfile).
Proof.
  unfold delete_restaurants, getDb.
  keeps_steps same_but_refl same_but_trans.
Qed.

(** X24: removing a restaurant.  With no storage fault, DELETE
    /api/restaurants/:id with the rendering of an object identifier
    answers 404 when no restaurant is stored under it; otherwise a campus
    admin whose campus is not the campus of that restaurant is answered
    403, and every other caller (a campus admin of that campus, but also
    a super admin, a restaurant manager or a plain user) is answered 204
    and exactly that restaurant is removed.  The other collections and
    the orders are never touched. *)
Theorem X24_restaurant_removal fault req user userProfile s h :
  let out := answer (delete_restaurants fault req user userProfile) s in
  reliable fault ->
  ObjectId (param req) = Some (Oid h) ->
  same_but Restaurants s (snd out)
  /\ ((forall d, In d (restaurants (base s)) -> doc_id d <> Oid h) ->
      fst out = Some (Error 404 "Restaurant not found")
      /\ restaurants (base (snd out)) = restaurants (base s))
  /\ forall pre d post,
       restaurants (base s) = (pre ++ d :: post)%list ->
       doc_id d = Oid h ->
       (forall y, In y pre -> doc_id y <> Oid h) ->
       (isCampusAdmin userProfile = true ->
        get (doc_fields d) "campusId" <> opt_prop userProfile "campusId" ->
        fst out = Some (Error 403 "Not allowed")
        /\ restaurants (base (snd out)) = restaurants (base s))
       /\ (isCampusAdmin userProfile = false
           \/ (exists c, get (doc_fields d) "campusId" = JStr c
                         /\ opt_prop userProfile "campusId" = JStr c) ->
           fst out = Some (Ended 204)
           /\ restaurants (base (snd out)) = (pre ++ post)%list).
Proof.
  intros out Hf Ho. subst out.
  split; [apply keeps_answer, delete_restaurants_keeps|].
  unfold answer, delete_restaurants, catching, recover, and_then, getDb.
  rewrite call_run, Hf, Ho, findOne_run, Hf, docs_logged. cbn [docs].
  split.
  - intros Hnone. rewrite find_doc_none; [split; reflexivity|].
    intros d Hd. apply oid_filter_not. now apply Hnone.
  - intros pre d post E Hd Hpre.
    rewrite E, find_doc_first;
      [|intros y Hy; apply oid_filter_not; now apply Hpre
       |now apply oid_filter_matches].
    split.
    + intros Ha Hne. rewrite Ha. cbn [andb].
      destruct (strict_eq _ _) eqn:Es.
      * apply strict_eq_eq in Es. contradiction.
      * cbn. now rewrite E.
    + intros Hok.
      assert ((isCampusAdmin userProfile
               && negb (strict_eq (get (doc_fields d) "campusId")
                                  (opt_prop userProfile "campusId")))%bool
              = false) as ->.
      { destruct Hok as [->|[c [-> ->]]]; [reflexivity|].
        cbn [strict_eq]. rewrite String.eqb_refl. apply andb_false_r. }
      rewrite deleteOne_docs, Hf. cbv zeta. rewrite !docs_logged.
      cbn [docs]. rewrite E, delete_doc_first;
        [|intros y Hy; apply oid_filter_not; now apply Hpre
         |now apply oid_filter_matches].
      cbn. split; reflexivity.
Qed.

Lemma X24_witness :
  fst (answer (delete_restaurants Samples2.sound
                 (Samples2.request "507f1f77bcf86cd7994390aa" JUndefined)
                 Samples.alice Samples.campus_admin) Samples2.reference)
  = Some (Error 403 "Not allowed")
  /\ fst (answer (delete_restaurants Samples2.sound
                    (Samples2.request "507f1f77bcf86cd7994390aa" JUndefined)
                    Samples.alice Samples.student) Samples2.reference)
     = Some (Ended 204).
Proof.
  split.
  - destruct (X24_restaurant_removal Samples2.sound
                (Samples2.request "507f1f77bcf86cd7994390aa" JUndefined)
                Samples.alice Samples.campus_admin Samples2.reference
                "507f1f77bcf86cd7994390aa") as [_ [_ H]].
    + intros c. reflexivity.
    + reflexivity.
    + destruct (H [mkDocument (Sid "r1")
                     [("campusId", JStr "C1"); ("name", JStr "KFC")]]
                  (mkDocument (Oid "507f1f77bcf86cd7994390aa")
                     [("campusId", JStr "C2"); ("name", JStr "Subway")]) [])
        as [H1 _].
      * reflexivity.
      * reflexivity.
      * intros y [<-|[]]. discriminate.
      * apply H1; [reflexivity|]. cbn. discriminate.
  - destruct (X24_restaurant_removal Samples2.sound
                (Samples2.request "507f1f77bcf86cd7994390aa" JUndefined)
                Samples.alice Samples.student Samples2.reference
                "507f1f77bcf86cd7994390aa") as [_ [_ H]].
    + intros c. reflexivity.
    + reflexivity.
    + destruct (H [mkDocument (Sid "r1")
                     [("campusId", JStr "C1"); ("name", JStr "KFC")]]
                  (mkDocument (Oid "507f1f77bcf86cd7994390aa")
                     [("campusId", JStr "C2"); ("name", JStr "Subway")]) [])
        as [_ H2].
      * reflexivity.
      * reflexivity.
      * intros y [<-|[]]. discriminate.
      * apply H2. now left.
Defined.

(** * The provisioned validators *)

Import Provision.

(** X25: five of the provisioned validators accept no document at all.
    The schemas of universities, campuses, restaurants, menuItems and
    martItems forbid additional properties and do not list [_id] among
    their properties; since every stored document has an [_id], which
    the server checks like any other field, each of them rejects every
    document, whatever its other fields: in particular every document
    the reference-data endpoints would store. *)
Theorem X25_closed_validators_reject_all v :
  In v [universitiesValidator; campusesValidator; restaurantsValidator;
        menuItemsValidator; martItemsValidator] ->
  (forall doc, In "_id" (map fst doc) -> validates v doc = false)
  /\ forall d, validates v (reference_document d) = false.
Proof.
  intros Hv.
  assert (H : forall doc, In "_id" (map fst doc) -> validates v doc = false).
  { intros doc Hin. unfold validates. apply andb_false_iff. right.
    apply in_map_iff in Hin. destruct Hin as [[k x] [Hk Hin]].
    cbn in Hk. subst k.
    destruct (forallb (field_ok v) doc) eqn:E; [|reflexivity].
    rewrite forallb_forall in E. specialize (E _ Hin).
    cbn in Hv.
    destruct Hv as [<-|[<-|[<-|[<-|[<-|[]]]]]]; discriminate E. }
  split; [exact H|]. intros d. apply H. now left.
Qed.

Lemma X25_witness :
  (forall doc, In "_id" (map fst doc) ->
     validates restaurantsValidator doc = false)
  /\ forall d, validates restaurantsValidator (reference_document d) = false.
Proof.
  apply X25_closed_validators_reject_all. cbn. tauto.
Defined.

(** ** The orders validator and the order document *)

Lemma sat_text x : satisfies text (Value (bson_value x)) = is_string x.
Proof. destruct x; try reflexivity. cbn. now destruct (int32 n). Qed.

Lemma sat_text_or_null x :
  satisfies text_or_null (Value (bson_value x))
  = (is_string x || nullish x)%bool.
Proof. destruct x; try reflexivity. cbn. now destruct (int32 n). Qed.

Lemma sat_filled x :
  satisfies text (Value (bson_value (or_else x JNull))) = filled x.
Proof.
  unfold or_else, filled. destruct x; try reflexivity; cbn.
  - now destruct b.
  - destruct (n =? 0); cbn; [reflexivity|]. now destruct (int32 n).
  - now destruct (String.eqb s "").
Qed.

Lemma sat_text_or_none x :
  satisfies text_or_null (Value (bson_value (or_else x JNull)))
  = text_or_none x.
Proof.
  unfold or_else, text_or_none. destruct x; try reflexivity; cbn.
  - now destruct b.
  - destruct (n =? 0); cbn; [reflexivity|]. now destruct (int32 n).
  - now destruct (String.eqb s "").
Qed.

Lemma sat_text_or_none2 x y :
  satisfies text_or_null (Value (bson_value (or_else (or_else x y) JNull)))
  = text_or_none (or_else x y).
Proof. apply sat_text_or_none. Qed.

Lemma sat_gender x :
  satisfies (enum [JStr "male"; JStr "female"]) (Value (bson_value x))
  = male_or_female x.
Proof.
  destruct x; try reflexivity. cbn. now rewrite orb_false_r.
Qed.

Lemma sat_persons x :
  satisfies (bsonType [TInt; TLong]) (Value (bson_value (coalesce x JNull)))
  = small_integer x.
Proof. destruct x; try reflexivity. cbn. now destruct (int32 n). Qed.

Lemma sat_numeric_coalesce x :
  satisfies numeric (Value (bson_value (coalesce x JNull))) = number x.
Proof. destruct x; try reflexivity. cbn. now destruct (int32 n). Qed.

Lemma sat_numeric x : satisfies numeric (Value (bson_value x)) = number x.
Proof. destruct x; try reflexivity. cbn. now destruct (int32 n). Qed.

Lemma sat_cart formatted cart :
  satisfies text_or_null
    (Value (bson_value (or_else formatted
                          (if is_string cart then cart else stringify cart))))
  = text_or_none formatted.
Proof.
  unfold or_else, text_or_none.
  destruct (truthy formatted) eqn:Ht.
  - rewrite orb_false_r. destruct formatted; try reflexivity; try discriminate.
    cbn. now destruct (int32 n).
  - rewrite orb_true_r. destruct (is_string cart) eqn:Hs.
    + now destruct cart.
    + destruct (stringify_text cart) as [[t ->]| ->]; reflexivity.
Qed.

Lemma names_entry_ok v :
  forallb (field_ok ordersValidator)
          (map (fun kv => (fst kv, Value (snd kv)))
               (bson_doc (restaurantNames_entry v))) = true.
Proof.
  unfold restaurantNames_entry.
  destruct v as [| |?|?|?| |?|[|x l]|?]; reflexivity.
Qed.

(** The orders validator on the document of a created order, field by
    field. *)
Lemma order_document_validates env b user userProfile id created :
  validates ordersValidator
    (order_document
       (mkOrder id created (bson_doc (orderDoc env b user userProfile))))
  = order_well_typed b user userProfile.
Proof.
  unfold validates, order_document. cbn [fields _id createdAt].
  unfold orderDoc, bson_doc.
  rewrite !map_app. cbn [map fst snd].
  match goal with
  | |- (?r && _)%bool = _ => change r with true
  end.
  cbn [forallb andb]. rewrite !forallb_app.
  fold (bson_doc (restaurantNames_entry (opt_prop b "restaurantNames"))).
  rewrite names_entry_ok.
  cbn [forallb field_ok fst snd properties ordersValidator property_of
       String.eqb Ascii.eqb Bool.eqb additionalProperties].
  fold text text_or_null numeric.
  rewrite !sat_text_or_none2, !sat_text_or_none, !sat_cart, !sat_filled,
    !sat_text, !sat_text_or_null, !sat_gender, !sat_persons,
    !sat_numeric_coalesce, !sat_numeric.
  unfold order_well_typed, all. cbn [forallb].
  cbn [satisfies existsb type_of type_eqb bson_eqb bson_value String.eqb
       Ascii.eqb Bool.eqb is_string nullish orb].
  rewrite ?andb_true_r, ?andb_true_l, ?andb_assoc. reflexivity.
Qed.

Lemma all_In l c : all l = true -> In c l -> c = true.
Proof.
  unfold all. rewrite forallb_forall. intros H Hc. now apply H.
Qed.

(** X26: the orders validator asks more than the handler checks.  The
    document that an accepted POST /api/orders appends passes the
    provisioned orders validator exactly when the request is well typed
    field by field.  In particular it passes only if universityName and
    campusName are non-empty strings, gender is male or female, persons
    is a 32-bit integer and deliveryCharge and itemTotal are numbers.
    The handler asks for none of this before it sends the document to the
    database (of these fields it only wants gender not to be falsy): a
    database provisioned with this validator refuses the other
    documents. *)
Theorem X26_order_validator env req user userProfile s id :
  let b := request_body req in
  fst (run (post_orders env req user userProfile) s)
  = Some (mkResponse 201 (PInserted id)) ->
  exists o,
    orders (snd (run (post_orders env req user userProfile) s))
    = (orders s ++ [o])%list
    /\ validates ordersValidator (order_document o)
       = order_well_typed b user userProfile
    /\ (validates ordersValidator (order_document o) = true ->
        filled (opt_prop b "universityName") = true
        /\ filled (opt_prop b "campusName") = true
        /\ male_or_female (opt_prop b "gender") = true
        /\ small_integer (opt_prop b "persons") = true
        /\ number (opt_prop b "deliveryCharge") = true
        /\ number (opt_prop b "itemTotal") = true).
Proof.
  intros b H. rewrite (post_orders_created _ _ _ _ _ _ H). cbn [orders].
  eexists. split; [reflexivity|].
  rewrite order_document_validates. fold b. split; [reflexivity|].
  intros Hw. unfold order_well_typed in Hw.
  repeat split; apply (all_In _ _ Hw); cbn; tauto.
Qed.

Lemma X26_witness :
  fst (run (post_orders Samples.env_plain Samples.req_order Samples.alice
              Samples.student) Samples.empty_store)
  = Some (mkResponse 201 (PInserted (Oid "507f1f77bcf86cd799439011")))
  /\ exists o,
       orders (snd (run (post_orders Samples.env_plain Samples.req_order
                           Samples.alice Samples.student) Samples.empty_store))
       = (orders Samples.empty_store ++ [o])%list
       /\ validates ordersValidator (order_document o) = false.
Proof.
  split; [reflexivity|].
  destruct (X26_order_validator Samples.env_plain Samples.req_order
              Samples.alice Samples.student Samples.empty_store
              (Oid "507f1f77bcf86cd799439011") eq_refl)
    as [o [Ho [Hv _]]].
  exists o. split; [exact Ho|]. rewrite Hv. reflexivity.
Defined.

(** * More on the order endpoints *)

(** ** The status parameter and the campus of the caller *)

(** X27: the status parameter cannot widen the campus scope of
    list-orders.  The parameter is put into the filter as the
    query-string parser made it, so a request such as
    [?status[$ne]=delivered] hands the database an object of the
    caller's choice.  Whatever that object is and whatever the server
    selects by it, whatever the limit and the faults are: a list that
    GET /api/orders answers to a caller who is no super admin, and whose
    profile names the campus [c], holds stored orders of campus [c]
    only.  (The stored campusId fields are taken not to be arrays.) *)
Theorem X27_status_keeps_campus_scope env req s user userProfile users c l :
  authenticated env req user ->
  firestore env = Some users ->
  users (uid user) = FsData userProfile ->
  isSuperAdmin userProfile = false ->
  opt_prop userProfile "campusId" = JStr c ->
  no_array_in "campusId" s ->
  fst (run (GET_api_orders env req) s) = Some (mkResponse 200 (POrders l)) ->
  forall o, In o l -> In o (orders s) /\ campus_is c o.
Proof.
  intros Ha Hf Hu Hs Hc Hca Hl o Ho.
  assert (Hrun : fst (run (get_orders env req user userProfile) s)
                 = Some (mkResponse 200 (POrders l))).
  { revert Hl. unfold GET_api_orders, route, run at 1, bind.
    rewrite (authenticated_verify env req user s Ha).
    unfold loadUserProfile. rewrite Hf, Hu.
    destruct (recognized_role userProfile); cbn [negb]; [|discriminate].
    unfold ret. tauto. }
  destruct (get_orders_answer env req user userProfile s l Hrun o Ho)
    as [Hin Hm].
  split; [exact Hin|].
  apply (list_filter_campus env userProfile (query_status req) c o);
    try assumption.
  unfold no_array_in in Hca. rewrite Forall_forall in Hca. now apply Hca.
Qed.

(** A student of campus C1 asks for the orders whose status is not
    [delivered]: of the two pending orders of the store, the one of
    campus C1 comes back and the one of campus C2 does not. *)
Lemma X27_witness :
  fst (run (GET_api_orders Samples.env_plain Samples2.not_delivered)
           Samples.store_three)
  = Some (mkResponse 200
            (POrders [Samples.legacy_order (Sid "legacy-1") 100 "C1"
                                           "pending"]))
  /\ forall o,
       In o [Samples.legacy_order (Sid "legacy-1") 100 "C1" "pending"] ->
       In o (orders Samples.store_three) /\ campus_is "C1" o.
Proof.
  split; [reflexivity|].
  apply (X27_status_keeps_campus_scope Samples.env_plain
           Samples2.not_delivered Samples.store_three Samples.alice
           Samples.student (fun _ => FsData Samples.student) "C1").
  - exists "token", (JStr "alice@example.edu").
    repeat split; [discriminate].
  - reflexivity.
  - reflexivity.
  - reflexivity.
  - reflexivity.
  - repeat constructor.
  - reflexivity.
Defined.

(** ** Restaurant names that are all blank *)

(** X28: a list of blank restaurant names is stored as an empty array.
    The order document gets its [restaurantNames] entry when the list of
    the request is an array that is not empty; the test looks at the list
    as it was sent, before the names are trimmed and the blank ones
    dropped.  So when an accepted request supplies an array of names that
    are all blank, the stored document has [restaurantNames: []]: the
    field is not omitted, although it holds no name. *)
Theorem X28_blank_names_stored_empty env req user userProfile s id x l :
  let out := run (post_orders env req user userProfile) s in
  fst out = Some (mkResponse 201 (PInserted id)) ->
  opt_prop (request_body req) "restaurantNames" = JArr (x :: l) ->
  (forall y, In y (x :: l) -> trim (to_string y) = "") ->
  exists o,
    orders (snd out) = (orders s ++ [o])%list
    /\ _id o = id
    /\ lookup "restaurantNames" (fields o) = Some (JArr []).
Proof.
  intros out Hout Hn Hblank. subst out.
  pose proof (post_orders_created env req user userProfile s id Hout) as Hs.
  rewrite Hs. cbn [orders].
  eexists. split; [reflexivity|]. split; [reflexivity|].
  cbn [fields]. rewrite orderDoc_restaurantNames, Hn.
  destruct (clean_names_spec (x :: l)) as [_ Hin].
  destruct (clean_names (x :: l)) as [|n r]; [reflexivity|].
  exfalso. destruct (proj1 (Hin n) (or_introl eq_refl)) as [Hne [y [Hy ->]]].
  apply Hne. now apply Hblank.
Qed.

(** The names " " and "" are stored as an empty array. *)
Lemma X28_witness :
  exists o,
    orders (snd (run (post_orders Samples.env_plain
                        (Samples.req_names [JStr " "; JStr ""])
                        Samples.alice Samples.student) Samples.empty_store))
    = (orders Samples.empty_store ++ [o])%list
    /\ _id o = Oid "507f1f77bcf86cd799439011"
    /\ lookup "restaurantNames" (fields o) = Some (JArr []).
Proof.
  apply (X28_blank_names_stored_empty Samples.env_plain
           (Samples.req_names [JStr " "; JStr ""])
           Samples.alice Samples.student Samples.empty_store
           (Oid "507f1f77bcf86cd799439011") (JStr " ") [JStr ""]).
  - reflexivity.
  - reflexivity.
  - intros y [<-|[<-|[]]]; reflexivity.
Defined.
